(** * z-image-turbo backend: pipeline lifecycle and generation serving

    A shallow embedding of [backend/main.py]: the configuration store
    ([load_config], [save_config], the module-level back-fill of
    [model_config]), the lazily built global pipeline ([get_pipeline]), the
    settings endpoints ([set_model_path], [get_settings]), the shared
    generation routine ([generate_image_core]) and its two front-ends
    ([generate_image] over HTTP, [call_tool] over the tool protocol).

    The Python module keeps two globals, [model_config] (a dict) and [pipe]
    (the pipeline object or None).  They are fields of an explicit [state]
    that every operation threads through a state-and-exception monad; a
    mutation made before an exception is raised stays in the state, as it
    does in Python.  Everything the module imports (torch, diffusers,
    optimum-quanto, the file system, the clock) is a field of an [env]
    record, so that each external call may succeed or raise. *)

From Stdlib Require Import ZArith String List.
From Stdlib Require Import Floats.PrimFloat.
From stdpp Require Import gmap strings list fin_maps pretty.

Open Scope string_scope.
Open Scope list_scope.
Open Scope Z_scope.

(** ** Python values and exceptions *)

(** Values stored in [model_config], as [json.load] produces them: null,
    booleans, integers and strings (JSON floats, arrays and objects do not
    occur in the configuration and are left out). *)
Inductive pyval :=
| VNone
| VBool (b : bool)
| VInt (z : Z)
| VStr (s : string).

(** The exception classes the module raises or catches.  [LibError] stands
    for any other subclass of [Exception] coming out of a library
    (OSError, RuntimeError, json.JSONDecodeError, ...). *)
Inductive exn :=
| ValueError (msg : string)
| HTTPException (status_code : Z) (detail : string)
| KeyError (key : string)
| TypeError (msg : string)
| LibError (msg : string).

(** [str(e)].  Starlette's HTTPException prints as "<status>: <detail>",
    a KeyError as the repr of its key, the others as their message. *)
Definition str_exn (e : exn) : string :=
  match e with
  | ValueError msg => msg
  | HTTPException c d => pretty c +:+ ": " +:+ d
  | KeyError k => "'" +:+ k +:+ "'"
  | TypeError msg => msg
  | LibError msg => msg
  end.

(** [isinstance(e, ValueError)], the test of [except ValueError]. *)
Definition is_ValueError (e : exn) : bool :=
  match e with ValueError _ => true | _ => false end.

Inductive result (A : Type) :=
| Ok (a : A)
| Raise (e : exn).
Arguments Ok {A} a.
Arguments Raise {A} e.

(** Truth value of a Python object, as [if v:] tests it. *)
Definition py_truthy (v : pyval) : bool :=
  match v with
  | VNone => false
  | VBool b => b
  | VInt z => negb (z =? 0)
  | VStr s => negb (String.eqb s "")
  end.

(** [type(v).__name__], for the TypeError messages. *)
Definition py_type_name (v : pyval) : string :=
  match v with
  | VNone => "NoneType"
  | VBool _ => "bool"
  | VInt _ => "int"
  | VStr _ => "str"
  end.

(** The integer a value denotes in an ordering comparison with an int:
    ints are themselves, bools are 0 and 1, None and str do not compare. *)
Definition py_int (v : pyval) : option Z :=
  match v with
  | VInt z => Some z
  | VBool b => Some (Z.b2z b)
  | VNone | VStr _ => None
  end.

(** [v < n] and [v >= n] for an int [n]. *)
Definition py_lt (v : pyval) (n : Z) : result bool :=
  match py_int v with
  | Some z => Ok (z <? n)
  | None => Raise (TypeError ("'<' not supported between instances of '"
                              +:+ py_type_name v +:+ "' and 'int'"))
  end.

Definition py_ge (v : pyval) (n : Z) : result bool :=
  match py_int v with
  | Some z => Ok (z >=? n)
  | None => Raise (TypeError ("'>=' not supported between instances of '"
                              +:+ py_type_name v +:+ "' and 'int'"))
  end.

(** [v < 0 or v >= n]: [or] evaluates its right operand only when the left
    one is false. *)
Definition py_out_of_range (v : pyval) (n : Z) : result bool :=
  match py_lt v 0 with
  | Raise x => Raise x
  | Ok true => Ok true
  | Ok false => py_ge v n
  end.

(** ** The pipeline object *)

Inductive dtype := bfloat16 | float32.

(** [device = f"cuda:{gpu_id}"] or ["cpu"]; the test ["cuda" in device]
    is [is_cuda]. *)
Inductive device :=
| Cpu
| Cuda (gpu_id : pyval).

Definition is_cuda (d : device) : bool :=
  match d with Cuda _ => true | Cpu => false end.

(** The three sub-modules [get_pipeline] quantizes. *)
Inductive part := Transformer | TextEncoder | Vae.

Record submodule := { quantized : bool; frozen : bool }.

Definition loaded_submodule : submodule := {| quantized := false; frozen := false |}.

Inductive placement :=
| Unplaced
| Offloaded (gpu_id : pyval)
| Placed (d : device).

(** What [ZImagePipeline.from_pretrained] hands back, and what the later
    steps of [get_pipeline] mutate in place.  An optional sub-module is
    [None] when the attribute is missing or None. *)
Record pipeline := {
  p_model_id : pyval;
  p_dtype : dtype;
  p_cache_dir : pyval;
  transformer : submodule;
  text_encoder : option submodule;
  vae : option submodule;
  p_placement : placement
}.

Definition fresh_pipeline (mid : pyval) (dt : dtype) (cd : pyval)
    (has_text_encoder has_vae : bool) : pipeline :=
  {| p_model_id := mid; p_dtype := dt; p_cache_dir := cd;
     transformer := loaded_submodule;
     text_encoder := if has_text_encoder then Some loaded_submodule else None;
     vae := if has_vae then Some loaded_submodule else None;
     p_placement := Unplaced |}.

Definition quantize_submodule (m : submodule) : submodule :=
  {| quantized := true; frozen := frozen m |}.

Definition freeze_submodule (m : submodule) : submodule :=
  {| quantized := quantized m; frozen := true |}.

Definition get_part (pt : part) (p : pipeline) : option submodule :=
  match pt with
  | Transformer => Some (transformer p)
  | TextEncoder => text_encoder p
  | Vae => vae p
  end.

Definition map_part (pt : part) (f : submodule → submodule) (p : pipeline) : pipeline :=
  {| p_model_id := p_model_id p; p_dtype := p_dtype p; p_cache_dir := p_cache_dir p;
     transformer := match pt with Transformer => f (transformer p) | _ => transformer p end;
     text_encoder := match pt with TextEncoder => f <$> text_encoder p | _ => text_encoder p end;
     vae := match pt with Vae => f <$> vae p | _ => vae p end;
     p_placement := p_placement p |}.

Definition set_placement (pl : placement) (p : pipeline) : pipeline :=
  {| p_model_id := p_model_id p; p_dtype := p_dtype p; p_cache_dir := p_cache_dir p;
     transformer := transformer p; text_encoder := text_encoder p; vae := vae p;
     p_placement := pl |}.

(** ** Inference calls and images *)

Record image := { im_height : Z; im_width : Z; im_pixels : list Z }.

(** [torch.Generator(device).manual_seed(seed)]. *)
Record generator := { gen_device : device; gen_seed : Z }.

(** The keyword arguments of [pipeline(...)], with the pipeline object the
    call is made on.  The prompt is a str or None. *)
Record inference_call := {
  ic_pipeline : pipeline;
  ic_prompt : option string;
  ic_height : Z;
  ic_width : Z;
  ic_num_inference_steps : Z;
  ic_guidance_scale : float;
  ic_generator : option generator
}.

(** ** The outside world *)

(** The libraries and the operating system, one field per external call of
    the module.  [None] in an [option exn] means the call returns normally.
    [infer], [now] and [uuid4] take the current [tick] of the state: the
    global random state and the clock move between calls. *)
Record env := {
  ZImagePipeline_available : bool;
  quantize_available : bool;
  cuda_is_available : bool;
  cuda_device_names : list string;
  from_pretrained : pyval → dtype → pyval → result (bool * bool);
  quantize : part → option exn;
  freeze : part → option exn;
  enable_model_cpu_offload : pyval → option exn;
  pipe_to : device → option exn;
  manual_seed : device → Z → option exn;
  infer : inference_call → nat → result image;
  png_base64 : image → string;
  image_save : string → option exn;
  makedirs : string → option exn;
  open_read : option exn;
  open_write : option exn;
  json_dump : option exn;
  now : nat → string;
  uuid4 : nat → string
}.

(** [torch.cuda.device_count()]. *)
Definition cuda_device_count (e : env) : Z := Z.of_nat (length (cuda_device_names e)).

(** ** Process state *)

(** What [config.json] holds: nothing, text that [json.load] rejects (an
    empty file, a prefix of a document, garbage), or a JSON object.  A file
    that holds another JSON value (an array, a string, a number, null) is
    not represented: [json.load] returns such a value as it is, and the
    module body then works on something that is not a dict. *)
Inductive disk_file :=
| NoFile
| Unparsable
| Document (d : gmap string pyval).

(** One constructor per [print] call site, with the interpolated values. *)
Inductive event :=
| LoadingModel (model_id : pyval)
| UsingCacheDirectory (cache_dir : pyval)
| WarningGpuNotAvailable (gpu_id : pyval)
| AvailableGpus (names : list string)
| FallingBackToGpu0
| NoCudaFallingBackToCpu
| QuantizationEnabled
| QuantizingToFp8
| EnablingCpuOffload
| ModelLoadedOn (d : device)
| ErrorLoadingModel (e : exn)
| ErrorLoadingConfig (e : exn)
| ErrorSavingConfig (e : exn)
| GeneratingWithPrompt (prompt : option string)
| ImageSavedTo (filepath : string)
| ErrorGeneratingImage (e : exn).

(** The arguments of one [from_pretrained] call. *)
Record load_call := { lc_model_id : pyval; lc_dtype : dtype; lc_cache_dir : pyval }.

(** The two module globals, the part of the file system the module touches,
    standard output, and three ghost fields that count what the code did:
    [acquisitions] (calls of [get_pipeline]), [loads] (calls of
    [from_pretrained]) and [inferences] (calls of the pipeline).  [dirs]
    holds the directories the module makes itself and [files] the images it
    stores; what [from_pretrained] downloads into the cache directory is
    not recorded.  [tick] numbers the calls that read the clock or the
    global random state. *)
Record state := {
  model_config : gmap string pyval;
  pipe : option pipeline;
  config_file : disk_file;
  dirs : gset string;
  files : gmap string image;
  stdout : list event;
  acquisitions : nat;
  loads : list load_call;
  inferences : list inference_call;
  tick : nat
}.

Definition set_model_config (v : gmap string pyval) (st : state) : state :=
  {| model_config := v; pipe := pipe st; config_file := config_file st;
     dirs := dirs st; files := files st; stdout := stdout st;
     acquisitions := acquisitions st; loads := loads st;
     inferences := inferences st; tick := tick st |}.

Definition set_pipe (v : option pipeline) (st : state) : state :=
  {| model_config := model_config st; pipe := v; config_file := config_file st;
     dirs := dirs st; files := files st; stdout := stdout st;
     acquisitions := acquisitions st; loads := loads st;
     inferences := inferences st; tick := tick st |}.

Definition set_config_file (v : disk_file) (st : state) : state :=
  {| model_config := model_config st; pipe := pipe st; config_file := v;
     dirs := dirs st; files := files st; stdout := stdout st;
     acquisitions := acquisitions st; loads := loads st;
     inferences := inferences st; tick := tick st |}.

Definition set_dirs (v : gset string) (st : state) : state :=
  {| model_config := model_config st; pipe := pipe st; config_file := config_file st;
     dirs := v; files := files st; stdout := stdout st;
     acquisitions := acquisitions st; loads := loads st;
     inferences := inferences st; tick := tick st |}.

Definition set_files (v : gmap string image) (st : state) : state :=
  {| model_config := model_config st; pipe := pipe st; config_file := config_file st;
     dirs := dirs st; files := v; stdout := stdout st;
     acquisitions := acquisitions st; loads := loads st;
     inferences := inferences st; tick := tick st |}.

Definition set_stdout (v : list event) (st : state) : state :=
  {| model_config := model_config st; pipe := pipe st; config_file := config_file st;
     dirs := dirs st; files := files st; stdout := v;
     acquisitions := acquisitions st; loads := loads st;
     inferences := inferences st; tick := tick st |}.

Definition set_acquisitions (v : nat) (st : state) : state :=
  {| model_config := model_config st; pipe := pipe st; config_file := config_file st;
     dirs := dirs st; files := files st; stdout := stdout st;
     acquisitions := v; loads := loads st;
     inferences := inferences st; tick := tick st |}.

Definition set_loads (v : list load_call) (st : state) : state :=
  {| model_config := model_config st; pipe := pipe st; config_file := config_file st;
     dirs := dirs st; files := files st; stdout := stdout st;
     acquisitions := acquisitions st; loads := v;
     inferences := inferences st; tick := tick st |}.

Definition set_inferences (v : list inference_call) (st : state) : state :=
  {| model_config := model_config st; pipe := pipe st; config_file := config_file st;
     dirs := dirs st; files := files st; stdout := stdout st;
     acquisitions := acquisitions st; loads := loads st;
     inferences := v; tick := tick st |}.

Definition set_tick (v : nat) (st : state) : state :=
  {| model_config := model_config st; pipe := pipe st; config_file := config_file st;
     dirs := dirs st; files := files st; stdout := stdout st;
     acquisitions := acquisitions st; loads := loads st;
     inferences := inferences st; tick := v |}.

(** ** The state-and-exception monad *)

Definition M (A : Type) : Type := state → result A * state.

#[global] Instance M_ret : MRet M := λ A a st, (Ok a, st).

#[global] Instance M_bind : MBind M := λ A B f m st,
  match m st with
  | (Ok a, st') => f a st'
  | (Raise x, st') => (Raise x, st')
  end.

Definition raise {A : Type} (x : exn) : M A := λ st, (Raise x, st).

(** [try: m  except Exception as x: h x]. *)
Definition try_except {A : Type} (m : M A) (h : exn → M A) : M A := λ st,
  match m st with
  | (Ok a, st') => (Ok a, st')
  | (Raise x, st') => h x st'
  end.

(** Lift a pure computation that may raise. *)
Definition lift {A : Type} (r : result A) : M A := λ st, (r, st).

(** An external call that returns nothing and may raise. *)
Definition call (o : option exn) : M unit := λ st,
  match o with
  | Some x => (Raise x, st)
  | None => (Ok tt, st)
  end.

Definition modify (f : state → state) : M unit := λ st, (Ok tt, f st).

(** An external call whose answer depends on the moment it is made; the
    moment passes. *)
Definition at_tick {A : Type} (f : nat → result A) : M A := λ st,
  (f (tick st), set_tick (S (tick st)) st).

Definition when (b : bool) (m : M unit) : M unit := if b then m else mret tt.

Definition print (ev : event) : M unit := λ st,
  (Ok tt, set_stdout (stdout st ++ [ev]) st).

Definition read_config : M (gmap string pyval) := λ st, (Ok (model_config st), st).

(** [model_config[k]]: a missing key raises KeyError. *)
Definition config_item (k : string) : M pyval := λ st,
  match model_config st !! k with
  | Some v => (Ok v, st)
  | None => (Raise (KeyError k), st)
  end.

(** [model_config.get(k, d)]. *)
Definition config_get (k : string) (d : pyval) : M pyval := λ st,
  (Ok (default d (model_config st !! k)), st).

(** [model_config[k] = v]. *)
Definition config_assign (k : string) (v : pyval) : M unit := λ st,
  (Ok tt, set_model_config (<[k := v]> (model_config st)) st).

Definition read_pipe : M (option pipeline) := λ st, (Ok (pipe st), st).

Definition assign_pipe (v : option pipeline) : M unit := λ st, (Ok tt, set_pipe v st).

(** A method call or library call that mutates the object bound to the
    global [pipe]. *)
Definition mutate_pipe (f : pipeline → pipeline) : M unit := λ st,
  (Ok tt, set_pipe (f <$> pipe st) st).

(** ** ConfigStore: [load_config], [save_config], module initialisation *)

Definition CONFIG_FILE : string := "config.json".

(** The dict literal [load_config] falls back to. *)
Definition default_config : gmap string pyval :=
  <["cache_dir" := VStr ""]>
  (<["model_id" := VStr "Tongyi-MAI/Z-Image-Turbo"]>
  (<["gpu_device" := VInt 1]>
  (<["cpu_offload" := VBool true]>
  (<["fp8_quantization" := VBool true]> ∅)))).

(** [os.path.exists(CONFIG_FILE)]. *)
Definition config_file_exists : M bool := λ st,
  (Ok (match config_file st with NoFile => false | _ => true end), st).

(** [json.load(f)] on the open file. *)
Definition json_load : M (gmap string pyval) := λ st,
  match config_file st with
  | Document d => (Ok d, st)
  | Unparsable => (Raise (LibError "JSONDecodeError"), st)
  | NoFile => (Raise (LibError "FileNotFoundError"), st)
  end.

Definition load_config (e : env) : M (gmap string pyval) :=
  ex ← config_file_exists;
  if ex : bool then
    try_except
      (call (open_read e);; json_load)
      (λ x, print (ErrorLoadingConfig x);; mret default_config)
  else mret default_config.

(** [open(CONFIG_FILE, "w")]: opening for writing truncates the file. *)
Definition open_for_write (e : env) : M unit :=
  call (open_write e);;
  modify (set_config_file Unparsable).

(** [json.dump(config, f, indent=4)] and the close of the [with] block.
    When it raises, what was written so far stays in the file. *)
Definition dump_and_close (e : env) (config : gmap string pyval) : M unit :=
  call (json_dump e);;
  modify (set_config_file (Document config)).

Definition save_config (e : env) (config : gmap string pyval) : M unit :=
  try_except
    (open_for_write e;; dump_and_close e config)
    (λ x, print (ErrorSavingConfig x)).

(** The file-system states another process can see while [save_config]
    runs: before the call, after the open, after the dump. *)
Definition save_config_visible (e : env) (config : gmap string pyval)
    (st : state) : list disk_file :=
  config_file st ::
  match open_for_write e st with
  | (Raise _, _) => []
  | (Ok _, st1) =>
      config_file st1 ::
      match dump_and_close e config st1 with
      | (Raise _, _) => []
      | (Ok _, st2) => [config_file st2]
      end
  end.

(** [k not in model_config]. *)
Definition config_lacks (k : string) : M bool := λ st,
  (Ok (bool_decide (model_config st !! k = None)), st).

(** The statements the module runs at import:
    [model_config = load_config()], the two back-fills, [pipe = None]. *)
Definition module_init (e : env) : M unit :=
  cfg ← load_config e;
  modify (set_model_config cfg);;
  b1 ← config_lacks "cpu_offload";
  when b1 (config_assign "cpu_offload" (VBool false));;
  b2 ← config_lacks "fp8_quantization";
  when b2 (config_assign "fp8_quantization" (VBool true));;
  assign_pipe None.

(** The process before the module body runs, on a given [config.json]. *)
Definition blank (f : disk_file) : state :=
  {| model_config := ∅; pipe := None; config_file := f; dirs := ∅; files := ∅;
     stdout := []; acquisitions := 0; loads := []; inferences := []; tick := 0 |}.

Definition boot (e : env) (f : disk_file) : state := snd (module_init e (blank f)).

(** ** PipelineManager: [get_pipeline] *)

Definition count_acquisition : M unit := λ st,
  (Ok tt, set_acquisitions (S (acquisitions st)) st).

(** [pipe = ZImagePipeline.from_pretrained(model_config['model_id'],
    torch_dtype=dtype, low_cpu_mem_usage=False,
    cache_dir=model_config['cache_dir'])].  The result is bound to the
    global [pipe] as soon as the call returns. *)
Definition load_pipeline (e : env) (dt : dtype) : M unit :=
  mid ← config_item "model_id";
  cd ← config_item "cache_dir";
  modify (λ st, set_loads (loads st ++ [{| lc_model_id := mid; lc_dtype := dt;
                                           lc_cache_dir := cd |}]) st);;
  '(has_te, has_vae) ← lift (from_pretrained e mid dt cd);
  assign_pipe (Some (fresh_pipeline mid dt cd has_te has_vae)).

(** [quantize(pipe.<part>, weights=qfloat8); freeze(pipe.<part>)]. *)
Definition quantize_and_freeze (e : env) (pt : part) : M unit :=
  call (quantize e pt);;
  mutate_pipe (map_part pt quantize_submodule);;
  call (freeze e pt);;
  mutate_pipe (map_part pt freeze_submodule).

(** [hasattr(pipe, "<part>") and pipe.<part> is not None]. *)
Definition has_part (pt : part) : M bool := λ st,
  (Ok (match pipe st with
       | Some p => bool_decide (is_Some (get_part pt p))
       | None => false
       end), st).

(** The device choice at the head of the [try] block: the configured index
    is checked against the devices present and replaced by 0, in the
    variable and in [model_config], when it is out of range. *)
Definition select_device (e : env) : M (pyval * device) :=
  gpu_id0 ← config_get "gpu_device" (VInt 0);
  if cuda_is_available e then
    let device_count := cuda_device_count e in
    let available_gpus := cuda_device_names e in
    oor ← lift (py_out_of_range gpu_id0 device_count);
    gpu_id ← (if oor : bool then
                print (WarningGpuNotAvailable gpu_id0);;
                print (AvailableGpus available_gpus);;
                print FallingBackToGpu0;;
                config_assign "gpu_device" (VInt 0);;
                mret (VInt 0)
              else mret gpu_id0);
    mret (gpu_id, Cuda gpu_id)
  else
    print NoCudaFallingBackToCpu;;
    mret (gpu_id0, Cpu).

(** The pipeline is loaded and, when quantization is on and available,
    its sub-modules are quantized and frozen one after the other. *)
Definition load_and_quantize (e : env) (dt : dtype) : M unit :=
  should_quantize ← config_get "fp8_quantization" (VBool false);
  if py_truthy should_quantize && quantize_available e then
    print QuantizationEnabled;;
    load_pipeline e dt;;
    print QuantizingToFp8;;
    quantize_and_freeze e Transformer;;
    te ← has_part TextEncoder;
    when te (quantize_and_freeze e TextEncoder);;
    v ← has_part Vae;
    when v (quantize_and_freeze e Vae)
  else
    load_pipeline e dt.

(** CPU offload on the chosen GPU, or the whole pipeline moved to the
    device. *)
Definition place_pipeline (e : env) (gpu_id : pyval) (dev : device) : M unit :=
  offload ← config_get "cpu_offload" (VBool false);
  if py_truthy offload && is_cuda dev then
    print EnablingCpuOffload;;
    call (enable_model_cpu_offload e gpu_id);;
    mutate_pipe (set_placement (Offloaded gpu_id))
  else
    call (pipe_to e dev);;
    mutate_pipe (set_placement (Placed dev)).

(** The body of the [try] block of [get_pipeline]. *)
Definition build_pipeline (e : env) : M unit :=
  '(gpu_id, dev) ← select_device e;
  let dt := if is_cuda dev then bfloat16 else float32 in
  load_and_quantize e dt;;
  place_pipeline e gpu_id dev;;
  print (ModelLoadedOn dev).

Definition get_pipeline (e : env) : M (option pipeline) :=
  count_acquisition;;
  p ← read_pipe;
  match p : option pipeline with
  | None =>
      if negb (ZImagePipeline_available e) then
        raise (HTTPException 500
          "ZImagePipeline class not available. Install diffusers from source.")
      else
        mid ← config_item "model_id";
        print (LoadingModel mid);;
        cd ← config_item "cache_dir";
        when (py_truthy cd) (print (UsingCacheDirectory cd));;
        try_except (build_pipeline e)
                   (λ x, print (ErrorLoadingModel x);; raise x);;
        read_pipe
  | Some _ => read_pipe
  end.

(** ** Settings endpoints *)

(** The validated request model: [cache_dir] is required, the other three
    fields carry class-level defaults. *)
Record SettingsRequest := {
  cache_dir : string;
  cpu_offload : bool;
  gpu_device : Z;
  fp8_quantization : bool
}.

(** The JSON body of POST /settings/model-path before validation: an
    optional field that is left out is [None]. *)
Record settings_body := {
  body_cache_dir : string;
  body_cpu_offload : option bool;
  body_gpu_device : option Z;
  body_fp8_quantization : option bool
}.

(** Instantiating [SettingsRequest] from a body fills an omitted field with
    the default written in the class: False, 0, False. *)
Definition parse_SettingsRequest (b : settings_body) : SettingsRequest :=
  {| cache_dir := body_cache_dir b;
     cpu_offload := default false (body_cpu_offload b);
     gpu_device := default 0 (body_gpu_device b);
     fp8_quantization := default false (body_fp8_quantization b) |}.

(** [os.path.exists(p)], for the directories recorded in [dirs]. *)
Definition path_exists (p : string) : M bool := λ st,
  (Ok (bool_decide (p ∈ dirs st)), st).

(** [os.makedirs(p, exist_ok=True)].  The path itself is recorded; the
    missing parents that the call creates on the way are not. *)
Definition os_makedirs (e : env) (p : string) : M unit :=
  call (makedirs e p);;
  modify (λ st, set_dirs ({[p]} ∪ dirs st) st).

(** A JSON object of strings, as a response body. *)
Definition json_object : Type := list (string * string).

Definition set_model_path (e : env) (req : SettingsRequest) : M json_object :=
  try_except
    ((if negb (String.eqb (cache_dir req) "") then
        ex ← path_exists (cache_dir req);
        when (negb ex) (os_makedirs e (cache_dir req))
      else mret tt);;
     config_assign "cache_dir" (VStr (cache_dir req));;
     config_assign "cpu_offload" (VBool (cpu_offload req));;
     config_assign "gpu_device" (VInt (gpu_device req));;
     config_assign "fp8_quantization" (VBool (fp8_quantization req));;
     cfg ← read_config;
     save_config e cfg;;
     assign_pipe None;;
     mret [("status", "success");
           ("message", "Settings saved. Model will reload on next generation.")])
    (λ x, raise (HTTPException 500 (str_exn x))).

Definition get_settings : M (gmap string pyval) := read_config.

(** ** GenerationService: [generate_image_core] *)

(** [pipeline(prompt=..., height=..., width=..., num_inference_steps=...,
    guidance_scale=..., generator=...).images[0]]. *)
Definition call_pipeline (e : env) (handle : option pipeline)
    (prompt : option string) (height width steps : Z) (guidance_scale : float)
    (gen : option generator) : M image :=
  match handle with
  | None => raise (TypeError "'NoneType' object is not callable")
  | Some p =>
      let c := {| ic_pipeline := p; ic_prompt := prompt; ic_height := height;
                  ic_width := width; ic_num_inference_steps := steps;
                  ic_guidance_scale := guidance_scale; ic_generator := gen |} in
      modify (λ st, set_inferences (inferences st ++ [c]) st);;
      at_tick (infer e c)
  end.

(** [datetime.now().strftime(...)] and [str(uuid.uuid4())[:8]], joined into
    the file name. *)
Definition fresh_filename (e : env) : M string :=
  at_tick (λ t, Ok (now e t +:+ "_" +:+ substring 0 8 (uuid4 e t) +:+ ".png")).

(** [image.save(filepath)]. *)
Definition save_image (e : env) (filepath : string) (img : image) : M unit :=
  call (image_save e filepath);;
  modify (λ st, set_files (<[filepath := img]> (files st)) st).

(** The device the generator is created on: the configured index is
    resolved again, without printing and without writing it back. *)
Definition current_device (e : env) : M device :=
  gpu_id0 ← config_get "gpu_device" (VInt 0);
  if cuda_is_available e then
    oor ← lift (py_out_of_range gpu_id0 (cuda_device_count e));
    mret (Cuda (if oor : bool then VInt 0 else gpu_id0))
  else mret Cpu.

(** [generator = None], replaced by a seeded generator when the seed is
    not -1. *)
Definition seeded_generator (e : env) (dev : device) (seed : Z)
    : M (option generator) :=
  if negb (seed =? -1) then
    call (manual_seed e dev seed);;
    mret (Some {| gen_device := dev; gen_seed := seed |})
  else mret None.

(** The image is written under [output/] and returned as base64 PNG. *)
Definition store_and_encode (e : env) (img : image) : M string :=
  let output_dir := "output" in
  os_makedirs e output_dir;;
  filename ← fresh_filename e;
  let filepath := output_dir +:+ "/" +:+ filename in
  save_image e filepath img;;
  print (ImageSavedTo filepath);;
  mret (png_base64 e img).

Definition generate_image_core (e : env) (prompt : option string)
    (height width steps : Z) (guidance_scale : float) (seed : Z) : M string :=
  (if negb (height mod 16 =? 0) || negb (width mod 16 =? 0) then
     raise (ValueError "Height and Width must be divisible by 16.")
   else mret tt);;
  handle ← get_pipeline e;
  dev ← current_device e;
  gen ← seeded_generator e dev seed;
  print (GeneratingWithPrompt prompt);;
  img ← call_pipeline e handle prompt height width steps guidance_scale gen;
  store_and_encode e img.

(** ** HTTP front-end: POST /generate *)

Record GenerateRequest := {
  prompt : string;
  height : Z;
  width : Z;
  steps : Z;
  guidance_scale : float;
  seed : Z
}.

Definition generate_image (e : env) (req : GenerateRequest) : M json_object :=
  try_except
    (img_str ← generate_image_core e (Some (prompt req)) (height req) (width req)
                 (steps req) (guidance_scale req) (seed req);
     mret [("image", "data:image/png;base64," +:+ img_str)])
    (λ x, if is_ValueError x then
            raise (HTTPException 400 (str_exn x))
          else
            print (ErrorGeneratingImage x);;
            raise (HTTPException 500 (str_exn x))).

(** ** Tool front-end: [call_tool] *)

(** The [arguments] dict of a tool call, with values of the types the input
    schema declares; a key that is not in the dict is [None]. *)
Record tool_arguments := {
  arg_prompt : option string;
  arg_height : option Z;
  arg_width : option Z;
  arg_steps : option Z;
  arg_guidance_scale : option float;
  arg_seed : option Z
}.

Inductive ContentBlock :=
| ImageContent (data mimeType : string) (audience : list string) (priority : float)
| TextContent (text : string).

(** The blocking call goes through [run_in_threadpool] and is awaited; the
    coroutine resumes with its result or its exception. *)
Definition call_tool (e : env) (name : string) (arguments : tool_arguments)
    : M (list ContentBlock) :=
  if String.eqb name "generate-image" then
    let prompt := arg_prompt arguments in
    let height := default 1024 (arg_height arguments) in
    let width := default 1024 (arg_width arguments) in
    let steps := default 8 (arg_steps arguments) in
    let guidance_scale := default 0%float (arg_guidance_scale arguments) in
    let seed := default (-1) (arg_seed arguments) in
    try_except
      (img_base64 ← generate_image_core e prompt height width steps
                      guidance_scale seed;
       mret [ImageContent img_base64 "image/png" ["user"] 1%float])
      (λ x, mret [TextContent ("Error generating image: " +:+ str_exn x)])
  else
    raise (ValueError ("Unknown tool: " +:+ name)).

(** ** Sample environments

    Concrete machines on which the statements below are evaluated. *)

(** An engine whose picture is the seed when a generator is given and the
    current tick when none is. *)
Definition sample_infer (c : inference_call) (t : nat) : result image :=
  Ok {| im_height := ic_height c; im_width := ic_width c;
        im_pixels := [match ic_generator c with
                      | Some g => gen_seed g
                      | None => Z.of_nat t
                      end] |}.

Definition sample_png_base64 (i : image) : string :=
  pretty (im_height i) +:+ "x" +:+ pretty (im_width i) +:+ ":"
  +:+ pretty (default 0 (head (im_pixels i))).

(** A machine with the given CUDA devices, on which every library call
    succeeds except the quantization and the file writes chosen by the
    arguments. *)
Definition sample_env (cuda : bool) (names : list string)
    (q : part → option exn) (ow : option exn) : env :=
  {| ZImagePipeline_available := true;
     quantize_available := true;
     cuda_is_available := cuda;
     cuda_device_names := names;
     from_pretrained := λ _ _ _, Ok (true, true);
     quantize := q;
     freeze := λ _, None;
     enable_model_cpu_offload := λ _, None;
     pipe_to := λ _, None;
     manual_seed := λ _ _, None;
     infer := sample_infer;
     png_base64 := sample_png_base64;
     image_save := λ _, None;
     makedirs := λ _, None;
     open_read := None;
     open_write := ow;
     json_dump := None;
     now := λ t, "20240101_12000" +:+ pretty (Z.of_nat t);
     uuid4 := λ t, "0f8fad5b-d9cb-469f-a165-70867728950" +:+ pretty (Z.of_nat t) |}.

Definition env_cpu : env := sample_env false [] (λ _, None) None.

Definition env_two_gpus : env :=
  sample_env true ["GPU zero"; "GPU one"] (λ _, None) None.

Definition env_quantize_fails : env :=
  sample_env false [] (λ _, Some (LibError "quantize failed")) None.

Definition env_read_only : env :=
  sample_env false [] (λ _, None) (Some (LibError "Permission denied")).

(** ** Notions used in the statements *)

(** The exception the dimension check raises. *)
Definition validation_error : exn :=
  ValueError "Height and Width must be divisible by 16.".

(** [maintains R m]: the state [m] ends in, whether it returns or raises,
    is related by [R] to the state it started from. *)
Definition maintains {A : Type} (R : relation state) (m : M A) : Prop :=
  ∀ st, R st (snd (m st)).

(** The observation [f] of the state is the same afterwards. *)
Definition unchanged {X : Type} (f : state → X) : relation state :=
  λ st st', f st' = f st.

Definition preserves {X A : Type} (f : state → X) (m : M A) : Prop :=
  maintains (unchanged f) m.

(** Standard output only grows. *)
Definition output_grows : relation state :=
  λ st st', stdout st `prefix_of` stdout st'.



(** ** Sample data *)

(** The pipeline a CPU-only machine builds from the default configuration:
    float32, every sub-module quantized and frozen, placed on the CPU. *)
Definition cpu_handle : pipeline :=
  {| p_model_id := VStr "Tongyi-MAI/Z-Image-Turbo"; p_dtype := float32;
     p_cache_dir := VStr "";
     transformer := {| quantized := true; frozen := true |};
     text_encoder := Some {| quantized := true; frozen := true |};
     vae := Some {| quantized := true; frozen := true |};
     p_placement := Placed Cpu |}.

(** The same pipeline as [from_pretrained] returns it: nothing quantized,
    not placed on any device. *)
Definition raw_handle : pipeline :=
  fresh_pipeline (VStr "Tongyi-MAI/Z-Image-Turbo") float32 (VStr "") true true.

(** A configuration file written before [cpu_offload] and
    [fp8_quantization] existed. *)
Definition legacy_config : gmap string pyval :=
  <["cache_dir" := VStr ""]>
  (<["model_id" := VStr "Tongyi-MAI/Z-Image-Turbo"]>
  (<["gpu_device" := VInt 0]> ∅)).

(** A configuration that names a GPU the machine does not have. *)
Definition config_gpu5 : gmap string pyval :=
  <["gpu_device" := VInt 5]> default_config.

(** A tool call with a missing prompt, a negative step count and a negative
    guidance scale. *)
Definition odd_arguments : tool_arguments :=
  {| arg_prompt := None; arg_height := Some 512; arg_width := Some 512;
     arg_steps := Some (-3); arg_guidance_scale := Some (-1.5)%float;
     arg_seed := Some 7 |}.

(** A tool call whose height is not a multiple of 16. *)
Definition bad_arguments : tool_arguments :=
  {| arg_prompt := Some "a red cube"; arg_height := Some 100;
     arg_width := None; arg_steps := None; arg_guidance_scale := None;
     arg_seed := None |}.

(** A settings body that gives the cache directory and nothing else. *)
Definition minimal_body : settings_body :=
  {| body_cache_dir := ""; body_cpu_offload := None; body_gpu_device := None;
     body_fp8_quantization := None |}.

(** The acknowledgment [set_model_path] returns. *)
Definition settings_saved : json_object :=
  [("status", "success");
   ("message", "Settings saved. Model will reload on next generation.")].

(** What the module-level back-fill makes of a loaded dict. *)
Definition backfill (d : gmap string pyval) : gmap string pyval :=
  let d1 := if bool_decide (d !! "cpu_offload" = None)
            then <["cpu_offload" := VBool false]> d else d in
  if bool_decide (d1 !! "fp8_quantization" = None)
  then <["fp8_quantization" := VBool true]> d1 else d1.

(** The configuration after a settings update. *)
Definition updated_config (req : SettingsRequest) (cfg : gmap string pyval)
    : gmap string pyval :=
  <["fp8_quantization" := VBool (fp8_quantization req)]>
  (<["gpu_device" := VInt (gpu_device req)]>
  (<["cpu_offload" := VBool (cpu_offload req)]>
  (<["cache_dir" := VStr (cache_dir req)]> cfg))).

(** The cache directory needs no creation, or its creation succeeds. *)
Definition cache_dir_ready (e : env) (req : SettingsRequest) (st : state) : Prop :=
  cache_dir req = "" ∨ cache_dir req ∈ dirs st ∨ makedirs e (cache_dir req) = None.

(** The state in which the [try] block of [get_pipeline] starts when no
    handle is installed: the call is counted and the model, and the cache
    directory if one is set, have been announced. *)
Definition announced (mid cd : pyval) (st : state) : state :=
  let s1 := set_stdout (stdout st ++ [LoadingModel mid])
              (set_acquisitions (S (acquisitions st)) st) in
  if py_truthy cd then set_stdout (stdout s1 ++ [UsingCacheDirectory cd]) s1
  else s1.

(** The state after the device choice fell back to GPU 0. *)
Definition fallen_back (e : env) (g : pyval) (st : state) : state :=
  set_model_config (<["gpu_device" := VInt 0]> (model_config st))
    (set_stdout (((stdout st ++ [WarningGpuNotAvailable g])
                    ++ [AvailableGpus (cuda_device_names e)])
                    ++ [FallingBackToGpu0]) st).

(** The precision [get_pipeline] loads with. *)
Definition load_dtype (e : env) : dtype :=
  if cuda_is_available e then bfloat16 else float32.

(** The default settings, submitted again. *)
Definition same_settings : SettingsRequest :=
  {| cache_dir := ""; cpu_offload := true; gpu_device := 1;
     fp8_quantization := true |}.

(** A process that has served one generation on the CPU-only machine, so
    that its handle is installed. *)
Definition warm_state : state :=
  snd (generate_image_core env_cpu (Some "a red cube") 512 512 4 0%float 42
         (boot env_cpu NoFile)).

(** What is left of [get_pipeline] once the device choice has fallen back
    to GPU 0. *)
Definition build_on_gpu0 (e : env) : M (option pipeline) :=
  try_except
    (load_and_quantize e bfloat16;;
     place_pipeline e (VInt 0) (Cuda (VInt 0));;
     print (ModelLoadedOn (Cuda (VInt 0))))
    (λ x, print (ErrorLoadingModel x);; raise x);;
  read_pipe.

(** The device [current_device] computes, as a function of the
    configuration. *)
Definition resolve_device (e : env) (cfg : gmap string pyval) : result device :=
  let gpu_id0 := default (VInt 0) (cfg !! "gpu_device") in
  if cuda_is_available e then
    match py_out_of_range gpu_id0 (cuda_device_count e) with
    | Raise x => Raise x
    | Ok oor => Ok (Cuda (if oor then VInt 0 else gpu_id0))
    end
  else Ok Cpu.


(** The call [generate_image_core] makes on the pipeline. *)
Definition pipeline_call (hd : pipeline) (p : option string) (h w s : Z)
    (gs : float) (sd : Z) (dev : device) : inference_call :=
  {| ic_pipeline := hd; ic_prompt := p; ic_height := h; ic_width := w;
     ic_num_inference_steps := s; ic_guidance_scale := gs;
     ic_generator := if sd =? -1 then None
                     else Some {| gen_device := dev; gen_seed := sd |} |}.

(** ** GET /system-info *)

(** The list under the key "gpus": one entry with "id" and "name" per
    CUDA device, in index order, and no entry without CUDA. *)
Definition get_system_info (e : env) : M (list (Z * string)) :=
  if cuda_is_available e then
    mret (imap (λ i name, (Z.of_nat i, name)) (cuda_device_names e))
  else mret [].

(** ** The body of POST /generate *)

(** The JSON body before validation: [prompt] is required, an optional
    field that is left out is [None]. *)
Record generate_body := {
  body_prompt : string;
  body_height : option Z;
  body_width : option Z;
  body_steps : option Z;
  body_guidance_scale : option float;
  body_seed : option Z
}.

(** Instantiating [GenerateRequest] fills an omitted field with the default
    written in the class: 1024, 1024, 8, 0.0, -1. *)
Definition parse_GenerateRequest (b : generate_body) : GenerateRequest :=
  {| prompt := body_prompt b;
     height := default 1024 (body_height b);
     width := default 1024 (body_width b);
     steps := default 8 (body_steps b);
     guidance_scale := default 0%float (body_guidance_scale b);
     seed := default (-1) (body_seed b) |}.

(** The tool arguments that carry the same fields as a body. *)
Definition arguments_of_body (b : generate_body) : tool_arguments :=
  {| arg_prompt := Some (body_prompt b); arg_height := body_height b;
     arg_width := body_width b; arg_steps := body_steps b;
     arg_guidance_scale := body_guidance_scale b; arg_seed := body_seed b |}.

(** ** The process as a transition system *)

(** The requests the two front-ends accept. *)
Inductive api_call :=
| GetSettings
| GetSystemInfo
| SetModelPath (req : SettingsRequest)
| Generate (req : GenerateRequest)
| CallTool (name : string) (arguments : tool_arguments).

(** The state a request leaves, whether it is answered or fails. *)
Definition run_api (e : env) (c : api_call) (st : state) : state :=
  match c with
  | GetSettings => snd (get_settings st)
  | GetSystemInfo => snd (get_system_info e st)
  | SetModelPath req => snd (set_model_path e req st)
  | Generate req => snd (generate_image e req st)
  | CallTool name a => snd (call_tool e name a st)
  end.

(** The states of a process started on the file [f]: the state after the
    module body has run, and what any request makes of a reachable state.
    The machine may behave differently from one request to the next. *)
Inductive reachable (f : disk_file) : state → Prop :=
| reachable_boot (e : env) : reachable f (boot e f)
| reachable_step (e : env) (c : api_call) (st : state) :
    reachable f st → reachable f (run_api e c st).

(** ** More relations between the state before and after *)

(** No key of the configuration is removed. *)
Definition keeps_keys : relation state :=
  λ st st', ∀ k, is_Some (model_config st !! k) → is_Some (model_config st' !! k).

(** The configuration is the same, or the same with gpu_device set to 0. *)
Definition config_drift : relation state :=
  λ st st', model_config st' = model_config st
            ∨ model_config st' = <["gpu_device" := VInt 0]> (model_config st).

(** An installed handle stays installed. *)
Definition handle_kept : relation state :=
  λ st st', is_Some (pipe st) → is_Some (pipe st').

(** Directories and files are only added. *)
Definition storage_grows : relation state :=
  λ st st', dirs st ⊆ dirs st' ∧ dom (files st) ⊆ dom (files st').

(** ** What a construction yields *)

(** Every sub-module quantized and then frozen, in the order of the code;
    a sub-module that is absent stays absent. *)
Definition quantize_all (p : pipeline) : pipeline :=
  map_part Vae freeze_submodule (map_part Vae quantize_submodule
  (map_part TextEncoder freeze_submodule (map_part TextEncoder quantize_submodule
  (map_part Transformer freeze_submodule
  (map_part Transformer quantize_submodule p))))).

(** The GPU index and the device [select_device] settles on, as a function
    of the configuration. *)
Definition chosen_device (e : env) (cfg : gmap string pyval)
    : result (pyval * device) :=
  let gpu_id0 := default (VInt 0) (cfg !! "gpu_device") in
  if cuda_is_available e then
    match py_out_of_range gpu_id0 (cuda_device_count e) with
    | Raise x => Raise x
    | Ok true => Ok (VInt 0, Cuda (VInt 0))
    | Ok false => Ok (gpu_id0, Cuda gpu_id0)
    end
  else Ok (gpu_id0, Cpu).

(** Whether the construction quantizes, and whether it offloads. *)
Definition quantizes (e : env) (cfg : gmap string pyval) : bool :=
  py_truthy (default (VBool false) (cfg !! "fp8_quantization"))
  && quantize_available e.

Definition offloads (cfg : gmap string pyval) (dev : device) : bool :=
  py_truthy (default (VBool false) (cfg !! "cpu_offload")) && is_cuda dev.

(** The pipeline a construction that goes through leaves in [pipe]. *)
Definition built_pipeline (e : env) (cfg : gmap string pyval) (mid cd : pyval)
    (gpu_id : pyval) (dev : device) (has_te has_vae : bool) : pipeline :=
  let dt := if is_cuda dev then bfloat16 else float32 in
  let loaded := fresh_pipeline mid dt cd has_te has_vae in
  set_placement (if offloads cfg dev then Offloaded gpu_id else Placed dev)
    (if quantizes e cfg then quantize_all loaded else loaded).

(** ** More sample machines *)

(** A machine like [env_cpu] on which diffusers has no ZImagePipeline. *)
Definition env_no_class : env :=
  {| ZImagePipeline_available := false;
     quantize_available := true;
     cuda_is_available := false;
     cuda_device_names := [];
     from_pretrained := λ _ _ _, Ok (true, true);
     quantize := λ _, None;
     freeze := λ _, None;
     enable_model_cpu_offload := λ _, None;
     pipe_to := λ _, None;
     manual_seed := λ _ _, None;
     infer := sample_infer;
     png_base64 := sample_png_base64;
     image_save := λ _, None;
     makedirs := λ _, None;
     open_read := None;
     open_write := None;
     json_dump := None;
     now := λ t, "20240101_12000" +:+ pretty (Z.of_nat t);
     uuid4 := λ t, "0f8fad5b-d9cb-469f-a165-70867728950" +:+ pretty (Z.of_nat t) |}.

(** A machine like [env_cpu] on which the pipeline call and the creation
    of directories fail. *)
Definition env_broken_engine : env :=
  {| ZImagePipeline_available := true;
     quantize_available := true;
     cuda_is_available := false;
     cuda_device_names := [];
     from_pretrained := λ _ _ _, Ok (true, true);
     quantize := λ _, None;
     freeze := λ _, None;
     enable_model_cpu_offload := λ _, None;
     pipe_to := λ _, None;
     manual_seed := λ _ _, None;
     infer := λ _ _, Raise (LibError "CUDA out of memory");
     png_base64 := sample_png_base64;
     image_save := λ _, None;
     makedirs := λ _, Some (LibError "Read-only file system");
     open_read := None;
     open_write := None;
     json_dump := None;
     now := λ t, "20240101_12000" +:+ pretty (Z.of_nat t);
     uuid4 := λ t, "0f8fad5b-d9cb-469f-a165-70867728950" +:+ pretty (Z.of_nat t) |}.

(** A configuration whose gpu_device is a string. *)
Definition config_gpu_text : gmap string pyval :=
  <["gpu_device" := VStr "first"]> default_config.

(** A configuration without model_id. *)
Definition config_no_model : gmap string pyval :=
  <["cache_dir" := VStr ""]> (<["gpu_device" := VInt 0]> ∅).

(** A settings request with a cache directory. *)
Definition cache_settings : SettingsRequest :=
  {| cache_dir := "/models"; cpu_offload := false; gpu_device := 0;
     fp8_quantization := false |}.

(** A body that gives only the prompt. *)
Definition prompt_only : generate_body :=
  {| body_prompt := "a red cube"; body_height := None; body_width := None;
     body_steps := None; body_guidance_scale := None; body_seed := None |}.

(** ** Counting *)

(** Between two states, the calls of [get_pipeline] that were made cover
    the calls of [from_pretrained] and the calls of the pipeline that were
    made. *)
Definition counted : relation state :=
  λ st st',
    (length (loads st') + acquisitions st
       ≤ length (loads st) + acquisitions st')%nat
    ∧ (length (inferences st') + acquisitions st
         ≤ length (inferences st) + acquisitions st')%nat.

(** What holds of every state of a running process. *)
Definition process_invariant (st : state) : Prop :=
  is_Some (model_config st !! "cpu_offload")
  ∧ is_Some (model_config st !! "fp8_quantization")
  ∧ (length (loads st) ≤ acquisitions st)%nat
  ∧ (length (inferences st) ≤ acquisitions st)%nat.

(** The pipeline a machine with two GPUs builds after [cache_settings] has
    been submitted: bfloat16, nothing quantized, moved to GPU 0. *)
Definition models_handle : pipeline :=
  {| p_model_id := VStr "Tongyi-MAI/Z-Image-Turbo"; p_dtype := bfloat16;
     p_cache_dir := VStr "/models";
     transformer := {| quantized := false; frozen := false |};
     text_encoder := Some {| quantized := false; frozen := false |};
     vae := Some {| quantized := false; frozen := false |};
     p_placement := Placed (Cuda (VInt 0)) |}.

(** ** Machines for the seed and for the engine *)

(** The machine [e] with another seeding of generators. *)
Definition with_manual_seed (f : device → Z → option exn) (e : env) : env :=
  {| ZImagePipeline_available := ZImagePipeline_available e;
     quantize_available := quantize_available e;
     cuda_is_available := cuda_is_available e;
     cuda_device_names := cuda_device_names e;
     from_pretrained := from_pretrained e;
     quantize := quantize e;
     freeze := freeze e;
     enable_model_cpu_offload := enable_model_cpu_offload e;
     pipe_to := pipe_to e;
     manual_seed := f;
     infer := infer e;
     png_base64 := png_base64 e;
     image_save := image_save e;
     makedirs := makedirs e;
     open_read := open_read e;
     open_write := open_write e;
     json_dump := json_dump e;
     now := now e;
     uuid4 := uuid4 e |}.


(** A seeding that accepts the seeds of 64 bits, signed or unsigned, and
    rejects every other integer with a ValueError. *)
Definition strict_manual_seed (dev : device) (seed : Z) : option exn :=
  if (seed <? - 2 ^ 63) || (2 ^ 64 <=? seed)
  then Some (ValueError "Overflow when unpacking long long")
  else None.

Definition env_strict_seed : env := with_manual_seed strict_manual_seed env_cpu.





(** ** Reasoning about monadic programs *)

Ltac unfold_monad :=
  unfold mbind, M_bind, mret, M_ret, try_except, raise, lift, call, when,
    modify, print, at_tick, read_config, config_item, config_get,
    config_assign, read_pipe, assign_pipe, mutate_pipe in *.

Ltac unfold_setters :=
  unfold set_model_config, set_pipe, set_config_file, set_dirs, set_files,
    set_stdout, set_acquisitions, set_loads, set_inferences, set_tick in *;
  simpl in *.

Lemma bind_Ok {A B : Type} (m : M A) (f : A → M B) (st st' : state) (a : A) :
  m st = (Ok a, st') → (m ≫= f) st = f a st'.
Proof. intros H. unfold mbind, M_bind. by rewrite H. Qed.

Lemma bind_Raise {A B : Type} (m : M A) (f : A → M B) (st st' : state) (x : exn) :
  m st = (Raise x, st') → (m ≫= f) st = (Raise x, st').
Proof. intros H. unfold mbind, M_bind. by rewrite H. Qed.

Lemma dimensions_check (h w : Z) :
  negb (h mod 16 =? 0) || negb (w mod 16 =? 0) = true ↔ h mod 16 ≠ 0 ∨ w mod 16 ≠ 0.
Proof.
  rewrite orb_true_iff, !negb_true_iff, !Z.eqb_neq. tauto.
Qed.

(** ** Frame rules *)

#[global] Instance unchanged_preorder {X : Type} (f : state → X) :
  PreOrder (unchanged f).
Proof.
  split.
  - intros st. reflexivity.
  - intros a b c Hab Hbc. unfold unchanged in *. congruence.
Qed.

#[global] Instance output_grows_preorder : PreOrder output_grows.
Proof.
  split.
  - intros st. unfold output_grows. reflexivity.
  - intros a b c Hab Hbc. unfold output_grows in *. by etrans.
Qed.

Section Frames.
Context (R : relation state) `{!PreOrder R}.

Lemma maintains_ret {A : Type} (a : A) : maintains R (mret a).
Proof. by intros st. Qed.

Lemma maintains_raise {A : Type} (x : exn) : maintains R (@raise A x).
Proof. by intros st. Qed.

Lemma maintains_lift {A : Type} (r : result A) : maintains R (lift r).
Proof. by intros st. Qed.

Lemma maintains_call (o : option exn) : maintains R (call o).
Proof. intros st. by destruct o. Qed.

Lemma maintains_bind {A B : Type} (m : M A) (k : A → M B) :
  maintains R m → (∀ a, maintains R (k a)) → maintains R (m ≫= k).
Proof.
  intros Hm Hk st. unfold mbind, M_bind.
  specialize (Hm st). destruct (m st) as [[a|x] st1]; simpl in *.
  - etrans; [exact Hm | apply Hk].
  - done.
Qed.

Lemma maintains_try_except {A : Type} (m : M A) (h : exn → M A) :
  maintains R m → (∀ x, maintains R (h x)) → maintains R (try_except m h).
Proof.
  intros Hm Hh st. unfold try_except.
  specialize (Hm st). destruct (m st) as [[a|x] st1]; simpl in *.
  - done.
  - etrans; [exact Hm | apply Hh].
Qed.

Lemma maintains_modify (g : state → state) :
  (∀ st, R st (g st)) → maintains R (modify g).
Proof. intros Hg st. apply Hg. Qed.

Lemma maintains_config_item (k : string) : maintains R (config_item k).
Proof. intros st. unfold config_item. by destruct (model_config st !! k). Qed.

Lemma maintains_at_tick {A : Type} (o : nat → result A) :
  (∀ st n, R st (set_tick n st)) → maintains R (at_tick o).
Proof. intros Hg st. apply Hg. Qed.

End Frames.

(** The side condition of a primitive step. *)
Ltac frame_side :=
  intros; unfold unchanged, output_grows; simpl;
  first [reflexivity | by apply prefix_app_r].

(** Decompose a [maintains] goal along the structure of the program. *)
Ltac frame_step :=
  lazymatch goal with
  | |- maintains _ (_ ≫= _) => apply maintains_bind; [tc_solve | | intros ?]
  | |- maintains _ (try_except _ _) =>
      apply maintains_try_except; [tc_solve | | intros ?]
  | |- maintains _ (mret _) => apply maintains_ret; tc_solve
  | |- maintains _ (raise _) => apply maintains_raise; tc_solve
  | |- maintains _ (lift _) => apply maintains_lift; tc_solve
  | |- maintains _ (call _) => apply maintains_call; tc_solve
  | |- maintains _ (config_item _) => apply maintains_config_item; tc_solve
  | |- maintains _ (modify _) => apply maintains_modify; frame_side
  | |- maintains _ (at_tick _) => apply maintains_at_tick; frame_side
  | |- maintains _ (when ?b _) => destruct b; unfold when
  | |- maintains _ (if ?b then _ else _) => destruct b
  | |- maintains _ (match ?x with _ => _ end) => destruct x
  | |- maintains _ (let '(_, _) := ?x in _) => destruct x
  | |- maintains _ (let _ := _ in _) => cbv zeta
  | |- maintains _ _ => intros ?; frame_side
  end.

Ltac frame_unfold :=
  unfold preserves, get_pipeline, build_pipeline, select_device,
    load_and_quantize, place_pipeline, load_pipeline, quantize_and_freeze,
    count_acquisition, save_config, open_for_write, dump_and_close,
    os_makedirs, save_image, fresh_filename, store_and_encode,
    seeded_generator, current_device, call_pipeline, get_settings.

Ltac frame := intros; repeat first [progress frame_unfold | frame_step].

(** Reading a frame fact at a given run. *)
Lemma preserves_run {X A : Type} (f : state → X) (m : M A) (st : state) :
  preserves f m → f (snd (m st)) = f st.
Proof. intros H. apply H. Qed.

(** What [get_pipeline] leaves alone: the file system and the inference
    log. *)
Lemma get_pipeline_preserves_config_file (e : env) :
  preserves config_file (get_pipeline e).
Proof. frame. Qed.

Lemma get_pipeline_preserves_inferences (e : env) :
  preserves inferences (get_pipeline e).
Proof. frame. Qed.

Lemma get_pipeline_preserves_tick (e : env) :
  preserves tick (get_pipeline e).
Proof. frame. Qed.

Lemma get_pipeline_preserves_files (e : env) :
  preserves files (get_pipeline e).
Proof. frame. Qed.

Lemma get_pipeline_preserves_dirs (e : env) :
  preserves dirs (get_pipeline e).
Proof. frame. Qed.

Lemma store_and_encode_preserves_inferences (e : env) (img : image) :
  preserves inferences (store_and_encode e img).
Proof. frame. Qed.

(** Every call of [get_pipeline] is counted once. *)
Lemma get_pipeline_counts (e : env) (st : state) :
  acquisitions (snd (get_pipeline e st)) = S (acquisitions st).
Proof.
  unfold get_pipeline.
  rewrite (bind_Ok _ _ st (set_acquisitions (S (acquisitions st)) st) tt)
    by reflexivity.
  match goal with
  | |- acquisitions (snd (?k ?s)) = _ =>
      rewrite (preserves_run acquisitions k s) by frame
  end.
  reflexivity.
Qed.

(** ** Validation of the dimensions *)

Lemma generate_image_core_invalid (e : env) (p : option string) (h w s : Z)
    (gs : float) (sd : Z) (st : state) :
  h mod 16 ≠ 0 ∨ w mod 16 ≠ 0 →
  generate_image_core e p h w s gs sd st = (Raise validation_error, st).
Proof.
  intros Hbad. apply dimensions_check in Hbad.
  unfold generate_image_core. rewrite Hbad. by apply bind_Raise.
Qed.

(** Past the check, the routine is the acquisition followed by the
    inference and the storing of its result. *)
Lemma generate_image_core_valid (e : env) (p : option string) (h w s : Z)
    (gs : float) (sd : Z) :
  h mod 16 = 0 → w mod 16 = 0 →
  generate_image_core e p h w s gs sd =
    (handle ← get_pipeline e;
     dev ← current_device e;
     gen ← seeded_generator e dev sd;
     print (GeneratingWithPrompt p);;
     img ← call_pipeline e handle p h w s gs gen;
     store_and_encode e img).
Proof.
  intros Hh Hw. unfold generate_image_core.
  apply Z.eqb_eq in Hh, Hw. rewrite Hh, Hw. reflexivity.
Qed.

Lemma generate_image_core_valid_counts (e : env) (p : option string)
    (h w s : Z) (gs : float) (sd : Z) (st : state) :
  h mod 16 = 0 → w mod 16 = 0 →
  acquisitions (snd (generate_image_core e p h w s gs sd st))
    = S (acquisitions st).
Proof.
  intros Hh Hw. rewrite generate_image_core_valid by done.
  unfold mbind at 1, M_bind at 1.
  pose proof (get_pipeline_counts e st) as Hc.
  destruct (get_pipeline e st) as [[hd|x] st1]; simpl in *; [| done].
  match goal with
  | |- acquisitions (snd (?k ?s)) = _ =>
      rewrite (preserves_run acquisitions k s) by frame
  end.
  done.
Qed.

(** C2: a request whose height or width is not a multiple of 16 makes
    [generate_image_core] raise its ValueError with the state untouched, so
    [get_pipeline] was not called (the acquisition counter is the same) and
    no file was written; the HTTP front-end turns it into a 400. *)
Theorem bad_dimensions_rejected_before_acquisition
    (e : env) (p : option string) (text : string) (h w s : Z) (gs : float)
    (sd : Z) (st : state) :
  h mod 16 ≠ 0 ∨ w mod 16 ≠ 0 →
  generate_image_core e p h w s gs sd st
    = (Raise (ValueError "Height and Width must be divisible by 16."), st)
  ∧ generate_image e {| prompt := text; height := h; width := w; steps := s;
                        guidance_scale := gs; seed := sd |} st
    = (Raise (HTTPException 400 "Height and Width must be divisible by 16."), st).
Proof.
  intros Hbad. split; [by apply generate_image_core_invalid |].
  unfold generate_image, try_except; simpl.
  erewrite bind_Raise by (by apply generate_image_core_invalid).
  reflexivity.
Qed.

Lemma bad_dimensions_rejected_witness :
  generate_image_core env_cpu (Some "a red cube") 100 512 4 0%float 42
      (boot env_cpu NoFile)
    = (Raise (ValueError "Height and Width must be divisible by 16."),
       boot env_cpu NoFile)
  ∧ generate_image env_cpu
      {| prompt := "a red cube"; height := 100; width := 512; steps := 4;
         guidance_scale := 0%float; seed := 42 |} (boot env_cpu NoFile)
    = (Raise (HTTPException 400 "Height and Width must be divisible by 16."),
       boot env_cpu NoFile).
Proof.
  apply (bad_dimensions_rejected_before_acquisition env_cpu (Some "a red cube")
           "a red cube" 100 512 4 0%float 42 (boot env_cpu NoFile)).
  left. vm_compute. discriminate.
Defined.

(** What the pipeline is called with once it has been acquired and the
    generator created. *)
Lemma inference_call_recorded (e : env) (p : option string) (h w s : Z)
    (gs : float) (sd : Z) (hd : pipeline) (dev : device) (st1 : state) :
  current_device e st1 = (Ok dev, st1) →
  (sd ≠ -1 → manual_seed e dev sd = None) →
  inferences (snd ((dev ← current_device e;
                    gen ← seeded_generator e dev sd;
                    print (GeneratingWithPrompt p);;
                    img ← call_pipeline e (Some hd) p h w s gs gen;
                    store_and_encode e img) st1))
    = inferences st1 ++
        [{| ic_pipeline := hd; ic_prompt := p; ic_height := h; ic_width := w;
            ic_num_inference_steps := s; ic_guidance_scale := gs;
            ic_generator := if sd =? -1 then None
                            else Some {| gen_device := dev; gen_seed := sd |} |}].
Proof.
  intros Hdev Hseed.
  rewrite (bind_Ok _ _ _ _ _ Hdev).
  set (g := if sd =? -1 then None else Some {| gen_device := dev; gen_seed := sd |}).
  assert (Hg : seeded_generator e dev sd st1 = (Ok g, st1)).
  { unfold seeded_generator, g.
    destruct (Z.eqb_spec sd (-1)) as [->|Hne]; simpl; [done |].
    unfold mbind, M_bind, call. by rewrite (Hseed Hne). }
  rewrite (bind_Ok _ _ _ _ _ Hg).
  unfold call_pipeline, mbind, M_bind, print, modify, at_tick. simpl.
  match goal with
  | |- context [infer e ?c ?t] => destruct (infer e c t) as [img|x]
  end; simpl.
  - by rewrite (preserves_run _ _ _ (store_and_encode_preserves_inferences e img)).
  - reflexivity.
Qed.

(** A seed that [manual_seed] rejects stops the routine before the
    pipeline is called: what it raises is the exception of the library, from
    the state the acquisition left. *)
Lemma seed_rejected_run (e : env) (p : option string) (h w s : Z)
    (gs : float) (sd : Z) (hd : option pipeline) (dev : device)
    (st1 : state) (x : exn) :
  current_device e st1 = (Ok dev, st1) →
  sd ≠ -1 → manual_seed e dev sd = Some x →
  (dev ← current_device e;
   gen ← seeded_generator e dev sd;
   print (GeneratingWithPrompt p);;
   img ← call_pipeline e hd p h w s gs gen;
   store_and_encode e img) st1 = (Raise x, st1).
Proof.
  intros Hdev Hne Hseed.
  rewrite (bind_Ok _ _ _ _ _ Hdev).
  apply bind_Raise.
  unfold seeded_generator. destruct (Z.eqb_spec sd (-1)); [done |]. simpl.
  unfold mbind, M_bind, call. by rewrite Hseed.
Qed.

(** What POST /generate makes of an exception of the routine. *)
Lemma generate_image_raises (e : env) (req : GenerateRequest)
    (st st1 : state) (x : exn) :
  generate_image_core e (Some (prompt req)) (height req) (width req)
    (steps req) (guidance_scale req) (seed req) st = (Raise x, st1) →
  fst (generate_image e req st)
  = Raise (HTTPException (if is_ValueError x then 400 else 500) (str_exn x)).
Proof.
  intros Hrun. unfold generate_image, try_except.
  rewrite (bind_Raise _ _ _ _ _ Hrun).
  by destruct (is_ValueError x).
Qed.

(** C10: the divisibility of height and width by 16 is the only check the
    routine itself makes.  It raises its validation error without having
    called [get_pipeline] exactly when a dimension is not a multiple of 16.
    With both dimensions valid it always goes on to the acquisition, and
    before the pipeline is called it can only fail with an exception of the
    acquisition, of the comparison of the configured GPU index, or of
    [manual_seed]: a seed other than -1 that the library rejects ends the
    call there, the pipeline is not called, and POST /generate answers 400
    when that exception is a ValueError.  In every other case the pipeline
    is called with the prompt, the steps, the guidance scale and the seed
    as they came, whatever they are. *)
Theorem only_dimensions_are_validated
    (e : env) (p : option string) (h w s : Z) (gs : float) (sd : Z)
    (st : state) :
  let run := generate_image_core e p h w s gs sd st in
  ((fst run = Raise validation_error ∧ acquisitions (snd run) = acquisitions st)
   ↔ (h mod 16 ≠ 0 ∨ w mod 16 ≠ 0))
  ∧ (h mod 16 = 0 → w mod 16 = 0 →
     acquisitions (snd run) = S (acquisitions st)
     ∧ (∀ (x : exn) (st1 : state),
          get_pipeline e st = (Raise x, st1) → run = (Raise x, st1))
     ∧ ∀ (hd : pipeline) (st1 : state),
         get_pipeline e st = (Ok (Some hd), st1) →
         (∀ x : exn,
            current_device e st1 = (Raise x, st1) → run = (Raise x, st1))
         ∧ ∀ dev : device,
             current_device e st1 = (Ok dev, st1) →
             (sd = -1 ∨ manual_seed e dev sd = None →
              inferences (snd run) = inferences st ++
                [{| ic_pipeline := hd; ic_prompt := p; ic_height := h;
                    ic_width := w; ic_num_inference_steps := s;
                    ic_guidance_scale := gs;
                    ic_generator :=
                      if sd =? -1 then None
                      else Some {| gen_device := dev; gen_seed := sd |} |}])
             ∧ (∀ x : exn,
                  sd ≠ -1 → manual_seed e dev sd = Some x →
                  run = (Raise x, st1)
                  ∧ inferences st1 = inferences st
                  ∧ ∀ text : string,
                      fst (generate_image e
                             {| prompt := text; height := h; width := w;
                                steps := s; guidance_scale := gs;
                                seed := sd |} st)
                      = Raise (HTTPException
                                 (if is_ValueError x then 400 else 500)
                                 (str_exn x)))).
Proof.
  intros run. subst run. split.
  - split.
    + intros [_ Hacq].
      destruct (decide (h mod 16 = 0)) as [Hh|Hh]; [| by left].
      destruct (decide (w mod 16 = 0)) as [Hw|Hw]; [| by right].
      rewrite generate_image_core_valid_counts in Hacq by done. lia.
    + intros Hbad. by rewrite generate_image_core_invalid.
  - intros Hh Hw. split; [by apply generate_image_core_valid_counts |].
    split.
    { intros x st1 Hget. rewrite generate_image_core_valid by done.
      by apply bind_Raise. }
    intros hd st1 Hget.
    pose proof (preserves_run _ _ st (get_pipeline_preserves_inferences e)) as Hi.
    rewrite Hget in Hi. simpl in Hi.
    split.
    { intros x Hdev. rewrite generate_image_core_valid by done.
      rewrite (bind_Ok _ _ _ _ _ Hget). by apply bind_Raise. }
    intros dev Hdev. split.
    + intros Hseed. rewrite generate_image_core_valid by done.
      rewrite (bind_Ok _ _ _ _ _ Hget).
      rewrite (inference_call_recorded e p h w s gs sd hd dev st1 Hdev)
        by (intros Hne; by destruct Hseed).
      by rewrite Hi.
    + intros x Hne Hseed. split; [| split; [exact Hi |]].
      * rewrite generate_image_core_valid by done.
        rewrite (bind_Ok _ _ _ _ _ Hget).
        by apply (seed_rejected_run e p h w s gs sd (Some hd) dev).
      * intros text.
        apply (generate_image_raises e
                 {| prompt := text; height := h; width := w; steps := s;
                    guidance_scale := gs; seed := sd |} st st1 x).
        simpl. rewrite generate_image_core_valid by done.
        rewrite (bind_Ok _ _ _ _ _ Hget).
        by apply (seed_rejected_run e (Some text) h w s gs sd (Some hd) dev).
Qed.

Lemma only_dimensions_are_validated_witness :
  inferences (snd (generate_image_core env_cpu None 512 512 (-3) (-1.5)%float 7
                     (boot env_cpu NoFile)))
  = [{| ic_pipeline := cpu_handle; ic_prompt := None; ic_height := 512;
        ic_width := 512; ic_num_inference_steps := -3;
        ic_guidance_scale := (-1.5)%float;
        ic_generator := Some {| gen_device := Cpu; gen_seed := 7 |} |}].
Proof.
  destruct (only_dimensions_are_validated env_cpu None 512 512 (-3)
              (-1.5)%float 7 (boot env_cpu NoFile)) as [_ Hvalid].
  destruct (Hvalid eq_refl eq_refl) as (_ & _ & Hcall).
  assert (Hget : get_pipeline env_cpu (boot env_cpu NoFile)
                 = (Ok (Some cpu_handle),
                    snd (get_pipeline env_cpu (boot env_cpu NoFile)))).
  { vm_compute. reflexivity. }
  destruct (Hcall cpu_handle _ Hget) as [_ Hdev].
  assert (Hcur : current_device env_cpu
                   (snd (get_pipeline env_cpu (boot env_cpu NoFile)))
                 = (Ok Cpu, snd (get_pipeline env_cpu (boot env_cpu NoFile)))).
  { vm_compute. reflexivity. }
  destruct (Hdev Cpu Hcur) as [Hrec _].
  apply Hrec. right. reflexivity.
Defined.

(** On a machine whose generator seeding rejects the integers outside 64
    bits, a request with both dimensions multiples of 16 and the seed 2^64
    never reaches the pipeline: the routine raises the ValueError of
    [manual_seed] and POST /generate answers 400, as for a caller fault. *)
Lemma rejected_seed_is_reported_as_caller_fault :
  (512 mod 16 = 0 ∧ 2 ^ 64 ≠ -1)
  ∧ fst (generate_image_core env_strict_seed (Some "a red cube") 512 512 4
           0%float (2 ^ 64) (boot env_cpu NoFile))
    = Raise (ValueError "Overflow when unpacking long long")
  ∧ inferences (snd (generate_image_core env_strict_seed (Some "a red cube")
                       512 512 4 0%float (2 ^ 64) (boot env_cpu NoFile)))
    = []
  ∧ fst (generate_image env_strict_seed
           {| prompt := "a red cube"; height := 512; width := 512; steps := 4;
              guidance_scale := 0%float; seed := 2 ^ 64 |}
           (boot env_cpu NoFile))
    = Raise (HTTPException 400 "Overflow when unpacking long long").
Proof.
  split_and!; try (vm_compute; reflexivity). vm_compute. discriminate.
Qed.

(** ** Tool front-end *)

(** C9: for the tool "generate-image", an exception raised by the generation
    call comes back as one text item carrying the message of the failure
    and nothing is raised; a result comes back as one image item carrying
    the base64 payload with MIME type image/png. *)
Theorem call_tool_wraps_result_or_failure (e : env) (a : tool_arguments)
    (st : state) :
  let run := generate_image_core e (arg_prompt a)
               (default 1024 (arg_height a)) (default 1024 (arg_width a))
               (default 8 (arg_steps a))
               (default 0%float (arg_guidance_scale a))
               (default (-1) (arg_seed a)) st in
  (∀ x, fst run = Raise x →
     call_tool e "generate-image" a st
       = (Ok [TextContent ("Error generating image: " +:+ str_exn x)], snd run))
  ∧ (∀ img, fst run = Ok img →
     call_tool e "generate-image" a st
       = (Ok [ImageContent img "image/png" ["user"] 1%float], snd run)).
Proof.
  intros run. subst run. unfold call_tool, try_except, mbind, M_bind. simpl.
  destruct (generate_image_core _ _ _ _ _ _ _ st) as [[img|x] st1]; simpl.
  - split; [intros y [=] | intros i [= <-]; reflexivity].
  - split; [intros y [= <-]; reflexivity | intros i [=]].
Qed.

Lemma call_tool_wraps_witness :
  call_tool env_cpu "generate-image" bad_arguments (boot env_cpu NoFile)
    = (Ok [TextContent
             "Error generating image: Height and Width must be divisible by 16."],
       boot env_cpu NoFile)
  ∧ fst (call_tool env_cpu "generate-image" odd_arguments (boot env_cpu NoFile))
    = Ok [ImageContent "512x512:7" "image/png" ["user"] 1%float].
Proof.
  split.
  - apply (proj1 (call_tool_wraps_result_or_failure env_cpu bad_arguments
                    (boot env_cpu NoFile)) validation_error).
    vm_compute. reflexivity.
  - rewrite (proj2 (call_tool_wraps_result_or_failure env_cpu odd_arguments
                      (boot env_cpu NoFile)) "512x512:7").
    + reflexivity.
    + vm_compute. reflexivity.
Defined.

(** ** ConfigStore *)

Lemma load_config_missing (e : env) (st : state) :
  config_file st = NoFile → load_config e st = (Ok default_config, st).
Proof.
  intros Hf. unfold load_config, config_file_exists, mbind, M_bind.
  by rewrite Hf.
Qed.

Lemma load_config_unparsable (e : env) (st : state) :
  config_file st = Unparsable → fst (load_config e st) = Ok default_config.
Proof.
  intros Hf.
  unfold load_config, config_file_exists, json_load, try_except, mbind, M_bind, call.
  rewrite Hf. destruct (open_read e); simpl; [done |]. by rewrite Hf.
Qed.

Lemma load_config_unreadable (e : env) (st : state) :
  is_Some (open_read e) → fst (load_config e st) = Ok default_config.
Proof.
  intros [x Hx].
  unfold load_config, config_file_exists, json_load, try_except, mbind, M_bind, call.
  destruct (config_file st); simpl; [done | by rewrite Hx..].
Qed.

Lemma load_config_document (e : env) (d : gmap string pyval) (st : state) :
  open_read e = None → config_file st = Document d →
  load_config e st = (Ok d, st).
Proof.
  intros Hr Hf.
  unfold load_config, config_file_exists, json_load, try_except, mbind, M_bind, call.
  rewrite Hf, Hr. simpl. by rewrite Hf.
Qed.

Lemma load_config_total (e : env) (st : state) :
  ∃ cfg, fst (load_config e st) = Ok cfg.
Proof.
  unfold load_config, config_file_exists, json_load, try_except, mbind, M_bind, call.
  destruct (config_file st) eqn:Hf, (open_read e); simpl; rewrite ?Hf; simpl; eauto.
Qed.

Lemma boot_document (e : env) (d : gmap string pyval) :
  open_read e = None → model_config (boot e (Document d)) = backfill d.
Proof.
  intros Hr. unfold boot, module_init.
  rewrite (bind_Ok _ _ _ _ _ (load_config_document e d (blank (Document d)) Hr eq_refl)).
  unfold backfill, config_lacks, config_assign, assign_pipe, modify, when,
    mbind, M_bind, mret, M_ret. simpl.
  repeat (case_bool_decide; unfold_setters); done.
Qed.

Lemma backfill_lookup (d : gmap string pyval) :
  backfill d !! "cpu_offload" = Some (default (VBool false) (d !! "cpu_offload"))
  ∧ backfill d !! "fp8_quantization"
      = Some (default (VBool true) (d !! "fp8_quantization"))
  ∧ ∀ k, k ≠ "cpu_offload" → k ≠ "fp8_quantization" → backfill d !! k = d !! k.
Proof.
  unfold backfill.
  destruct (d !! "cpu_offload") as [v1|] eqn:H1;
    destruct (d !! "fp8_quantization") as [v2|] eqn:H2;
    repeat case_bool_decide; simplify_map_eq; try done;
    repeat split; intros; simplify_map_eq; done.
Qed.

(** C4 (as the code has it): [load_config] never raises and returns the
    default configuration (cache_dir "", model_id "Tongyi-MAI/Z-Image-Turbo",
    gpu_device 1, cpu_offload true, fp8_quantization true) when the file is
    missing, cannot be opened or does not parse.  When the file holds a
    document, the module fills a missing cpu_offload with false and a
    missing fp8_quantization with true; present values and all other keys
    are left as loaded. *)
Theorem load_defaults_and_backfill (e : env) :
  (∀ st, ∃ cfg, fst (load_config e st) = Ok cfg)
  ∧ (∀ st, config_file st = NoFile → load_config e st = (Ok default_config, st))
  ∧ (∀ st, config_file st = Unparsable → fst (load_config e st) = Ok default_config)
  ∧ (∀ st, is_Some (open_read e) → fst (load_config e st) = Ok default_config)
  ∧ (default_config !! "cache_dir" = Some (VStr "")
     ∧ default_config !! "model_id" = Some (VStr "Tongyi-MAI/Z-Image-Turbo")
     ∧ default_config !! "gpu_device" = Some (VInt 1)
     ∧ default_config !! "cpu_offload" = Some (VBool true)
     ∧ default_config !! "fp8_quantization" = Some (VBool true))
  ∧ model_config (boot e NoFile) = default_config
  ∧ (∀ d, open_read e = None →
       let cfg := model_config (boot e (Document d)) in
       cfg !! "cpu_offload" = Some (default (VBool false) (d !! "cpu_offload"))
       ∧ cfg !! "fp8_quantization"
           = Some (default (VBool true) (d !! "fp8_quantization"))
       ∧ ∀ k, k ≠ "cpu_offload" → k ≠ "fp8_quantization" → cfg !! k = d !! k).
Proof.
  split; [apply load_config_total |].
  split; [apply load_config_missing |].
  split; [apply load_config_unparsable |].
  split; [apply load_config_unreadable |].
  split; [by vm_compute |].
  split.
  - unfold boot, module_init.
    by rewrite (bind_Ok _ _ _ _ _ (load_config_missing e (blank NoFile) eq_refl)).
  - intros d Hr cfg. subst cfg. rewrite (boot_document e d Hr).
    apply backfill_lookup.
Qed.

(** C4, as stated, fails: a file written before cpu_offload existed is
    loaded with cpu_offload false, while the default configuration has
    cpu_offload true. *)
Lemma backfill_differs_from_default :
  model_config (boot env_cpu (Document legacy_config)) !! "cpu_offload"
    = Some (VBool false)
  ∧ default_config !! "cpu_offload" = Some (VBool true).
Proof. by vm_compute. Qed.

Lemma save_config_run (e : env) (cfg : gmap string pyval) (st : state) :
  save_config e cfg st =
    match open_write e with
    | Some x => (Ok tt, set_stdout (stdout st ++ [ErrorSavingConfig x]) st)
    | None =>
        match json_dump e with
        | Some x => (Ok tt, set_stdout (stdout st ++ [ErrorSavingConfig x])
                              (set_config_file Unparsable st))
        | None => (Ok tt, set_config_file (Document cfg) (set_config_file Unparsable st))
        end
    end.
Proof.
  unfold save_config, open_for_write, dump_and_close, try_except, mbind, M_bind,
    call, modify, print.
  destruct (open_write e), (json_dump e); reflexivity.
Qed.

Lemma save_config_never_raises (e : env) (cfg : gmap string pyval) (st : state) :
  fst (save_config e cfg st) = Ok tt.
Proof. rewrite save_config_run. by destruct (open_write e), (json_dump e). Qed.

(** The three outcomes of a save. *)
Lemma save_config_swallows_failures_helper (e : env) (cfg : gmap string pyval)
    (st : state) :
  (open_write e = None → json_dump e = None →
     config_file (snd (save_config e cfg st)) = Document cfg)
  ∧ (∀ x, open_write e = Some x →
       config_file (snd (save_config e cfg st)) = config_file st
       ∧ stdout (snd (save_config e cfg st)) = stdout st ++ [ErrorSavingConfig x])
  ∧ (∀ x, open_write e = None → json_dump e = Some x →
       config_file (snd (save_config e cfg st)) = Unparsable
       ∧ stdout (snd (save_config e cfg st)) = stdout st ++ [ErrorSavingConfig x]).
Proof.
  rewrite save_config_run.
  destruct (open_write e) as [xo|], (json_dump e) as [xd|]; simpl;
    repeat split; try done; intros; by simplify_eq.
Qed.

(** C7 (as the code has it): [save_config] never raises.  When the open
    fails the file is as before and the failure is printed; when the dump
    fails the file is left unparsable and the failure is printed; otherwise
    the file holds the new document.  The write is in place: once the open
    has succeeded and until the dump is done, the file on disk is
    unparsable, and a reader loading it then gets the defaults. *)
Theorem save_config_swallows_failures_in_place (e : env)
    (cfg : gmap string pyval) (st : state) :
  let st' := snd (save_config e cfg st) in
  fst (save_config e cfg st) = Ok tt
  ∧ (open_write e = None → json_dump e = None →
       config_file st' = Document cfg ∧ stdout st' = stdout st)
  ∧ (∀ x, open_write e = Some x →
       config_file st' = config_file st
       ∧ stdout st' = stdout st ++ [ErrorSavingConfig x])
  ∧ (∀ x, open_write e = None → json_dump e = Some x →
       config_file st' = Unparsable
       ∧ stdout st' = stdout st ++ [ErrorSavingConfig x])
  ∧ last (save_config_visible e cfg st) = Some (config_file st')
  ∧ (open_write e = None →
       save_config_visible e cfg st !! 1%nat = Some Unparsable
       ∧ ∀ reader, config_file reader = Unparsable →
           fst (load_config e reader) = Ok default_config).
Proof.
  intros st'. subst st'.
  split; [apply save_config_never_raises |].
  rewrite save_config_run.
  unfold save_config_visible, open_for_write, dump_and_close, mbind, M_bind,
    call, modify.
  destruct (open_write e) as [xo|], (json_dump e) as [xd|]; simpl;
    repeat split; try done; try (by intros ? [= <-]);
    try (intros; by apply load_config_unparsable);
    intros; by simplify_eq.
Qed.

(** C7, as stated, fails: while a new document is saved over an old one,
    the file is for a moment neither, and a reader then loads the defaults
    (gpu_device 1), not the old value (5) and not the new one (0). *)
Lemma save_config_not_atomic :
  save_config_visible env_cpu legacy_config
      (set_config_file (Document config_gpu5) (blank NoFile))
    = [Document config_gpu5; Unparsable; Document legacy_config]
  ∧ fst (load_config env_cpu (set_config_file Unparsable (blank NoFile)))
    = Ok default_config
  ∧ (config_gpu5 !! "gpu_device", default_config !! "gpu_device",
     legacy_config !! "gpu_device")
    = (Some (VInt 5), Some (VInt 1), Some (VInt 0)).
Proof. by vm_compute. Qed.

(** ** Running [get_pipeline] *)

Lemma bind_preserved {X A B : Type} (f : state → X) (m : M A) (k : A → M B)
    (st : state) :
  (∀ a, preserves f (k a)) → f (snd ((m ≫= k) st)) = f (snd (m st)).
Proof.
  intros Hk. unfold mbind, M_bind.
  destruct (m st) as [[a|x] st1]; simpl; [apply Hk | done].
Qed.

Lemma try_except_preserved {X A : Type} (f : state → X) (m : M A)
    (h : exn → M A) (st : state) :
  (∀ x, preserves f (h x)) → f (snd (try_except m h st)) = f (snd (m st)).
Proof.
  intros Hh. unfold try_except.
  destruct (m st) as [[a|x] st1]; simpl; [done | apply Hh].
Qed.

(** With a handle installed, [get_pipeline] returns it and does nothing
    else than being counted. *)
Lemma get_pipeline_installed (e : env) (hd : pipeline) (st : state) :
  pipe st = Some hd →
  get_pipeline e st
    = (Ok (Some hd), set_acquisitions (S (acquisitions st)) st).
Proof.
  intros Hp. unfold get_pipeline, count_acquisition, read_pipe, mbind, M_bind.
  simpl. rewrite Hp. simpl. by rewrite Hp.
Qed.

(** Without one, and with the class available and the two keys present, it
    runs the [try] block from the [announced] state. *)
Lemma get_pipeline_cold (e : env) (mid cd : pyval) (st : state) :
  pipe st = None → ZImagePipeline_available e = true →
  model_config st !! "model_id" = Some mid →
  model_config st !! "cache_dir" = Some cd →
  get_pipeline e st
    = (try_except (build_pipeline e)
         (λ x, print (ErrorLoadingModel x);; raise x);;
       read_pipe) (announced mid cd st).
Proof.
  intros Hp Ha Hm Hc.
  unfold get_pipeline, count_acquisition, announced.
  rewrite (bind_Ok _ _ st (set_acquisitions (S (acquisitions st)) st) tt)
    by reflexivity.
  rewrite (bind_Ok _ _ _ (set_acquisitions (S (acquisitions st)) st) None)
    by (unfold read_pipe; simpl; by rewrite Hp).
  rewrite Ha. simpl.
  rewrite (bind_Ok _ _ _ (set_acquisitions (S (acquisitions st)) st) mid)
    by (unfold config_item; simpl; by rewrite Hm).
  unfold print at 1.
  rewrite (bind_Ok _ _ _ _ tt) by reflexivity.
  rewrite (bind_Ok _ _ _ _ cd) by (unfold config_item; simpl; by rewrite Hc).
  unfold when, print. destruct (py_truthy cd).
  - by rewrite (bind_Ok _ _ _ _ tt) by reflexivity.
  - by rewrite (bind_Ok _ _ _ _ tt) by reflexivity.
Qed.

(** The last statement of [get_pipeline] returns the global. *)
Lemma get_pipeline_returns_global (e : env) (st st' : state)
    (r : option pipeline) :
  get_pipeline e st = (Ok r, st') → r = pipe st'.
Proof.
  unfold get_pipeline. intros H.
  unfold mbind at 1, M_bind at 1 in H. simpl in H.
  unfold mbind at 1, M_bind at 1 in H. simpl in H.
  destruct (pipe st) as [hd|] eqn:Hp.
  - unfold read_pipe in H. simpl in H. by simplify_eq.
  - destruct (negb (ZImagePipeline_available e)); [done |].
    repeat match type of H with
    | (?m ≫= ?k) ?s = _ =>
        unfold mbind at 1, M_bind at 1 in H;
        let E := fresh "E" in destruct (m s) as [[?|?] ?] eqn:E; [| done]
    end.
    unfold read_pipe in H. by simplify_eq.
Qed.

(** The four ways the device choice can go. *)
Lemma select_device_run (e : env) (st : state) :
  let g0 := default (VInt 0) (model_config st !! "gpu_device") in
  select_device e st =
    if cuda_is_available e then
      match py_out_of_range g0 (cuda_device_count e) with
      | Raise x => (Raise x, st)
      | Ok true => (Ok (VInt 0, Cuda (VInt 0)), fallen_back e g0 st)
      | Ok false => (Ok (g0, Cuda g0), st)
      end
    else (Ok (g0, Cpu), set_stdout (stdout st ++ [NoCudaFallingBackToCpu]) st).
Proof.
  intros g0. subst g0.
  unfold select_device, fallen_back, config_get, config_assign, print, lift,
    mbind, M_bind, mret, M_ret.
  destruct (cuda_is_available e); [| reflexivity].
  cbv zeta.
  destruct (py_out_of_range _ _) as [[|]|x]; reflexivity.
Qed.

Lemma load_pipeline_loads (e : env) (dt : dtype) (mid cd : pyval) (st : state) :
  model_config st !! "model_id" = Some mid →
  model_config st !! "cache_dir" = Some cd →
  loads (snd (load_pipeline e dt st))
    = loads st ++ [{| lc_model_id := mid; lc_dtype := dt; lc_cache_dir := cd |}].
Proof.
  intros Hm Hc.
  unfold load_pipeline, config_item, modify, lift, assign_pipe, mbind, M_bind.
  rewrite Hm, Hc. simpl.
  by destruct (from_pretrained e mid dt cd) as [[te v]|x].
Qed.

Lemma load_and_quantize_loads (e : env) (dt : dtype) (mid cd : pyval)
    (st : state) :
  model_config st !! "model_id" = Some mid →
  model_config st !! "cache_dir" = Some cd →
  loads (snd (load_and_quantize e dt st))
    = loads st ++ [{| lc_model_id := mid; lc_dtype := dt; lc_cache_dir := cd |}].
Proof.
  intros Hm Hc. unfold load_and_quantize.
  rewrite (bind_Ok _ _ st st (default (VBool false)
             (model_config st !! "fp8_quantization"))) by reflexivity.
  destruct (py_truthy _ && quantize_available e).
  - unfold print at 1. rewrite (bind_Ok _ _ _ _ tt) by reflexivity.
    rewrite bind_preserved by frame.
    by rewrite (load_pipeline_loads e dt mid cd).
  - by apply load_pipeline_loads.
Qed.

(** From a state without a handle, one call of [get_pipeline] makes one
    call of [from_pretrained], with the configured model and cache
    directory, provided the configured GPU index is a number. *)
Lemma get_pipeline_loads_once (e : env) (mid cd : pyval) (g : Z) (st : state) :
  pipe st = None → ZImagePipeline_available e = true →
  model_config st !! "model_id" = Some mid →
  model_config st !! "cache_dir" = Some cd →
  py_int (default (VInt 0) (model_config st !! "gpu_device")) = Some g →
  loads (snd (get_pipeline e st))
    = loads st ++ [{| lc_model_id := mid; lc_dtype := load_dtype e;
                      lc_cache_dir := cd |}].
Proof.
  intros Hp Ha Hm Hc Hg.
  rewrite (get_pipeline_cold e mid cd st Hp Ha Hm Hc).
  rewrite bind_preserved by frame.
  rewrite try_except_preserved by frame.
  assert (Hst : loads (announced mid cd st) = loads st
                ∧ model_config (announced mid cd st) = model_config st).
  { unfold announced. by destruct (py_truthy cd). }
  destruct Hst as [Hl Hcfg]. rewrite <- Hl.
  rewrite <- Hcfg in Hm, Hc, Hg.
  remember (announced mid cd st) as sa eqn:Hsa. clear Hsa Hl Hcfg Hp st.
  unfold build_pipeline.
  unfold mbind at 1, M_bind at 1. rewrite select_device_run. cbv zeta.
  unfold load_dtype, py_out_of_range, py_lt, py_ge. rewrite Hg.
  destruct (cuda_is_available e); simpl.
  - destruct (g <? 0); [| destruct (g >=? _)].
    + rewrite bind_preserved by frame.
      rewrite (load_and_quantize_loads e _ mid cd); [done | |].
      * unfold fallen_back; simpl. by rewrite lookup_insert_ne.
      * unfold fallen_back; simpl. by rewrite lookup_insert_ne.
    + rewrite bind_preserved by frame.
      rewrite (load_and_quantize_loads e _ mid cd); [done | |].
      * unfold fallen_back; simpl. by rewrite lookup_insert_ne.
      * unfold fallen_back; simpl. by rewrite lookup_insert_ne.
    + rewrite bind_preserved by frame.
      by rewrite (load_and_quantize_loads e _ mid cd).
  - rewrite bind_preserved by frame.
    by rewrite (load_and_quantize_loads e _ mid cd).
Qed.

(** ** Settings endpoints *)

Ltac finish_save Hsave :=
  match goal with
  | |- context [save_config ?e ?c ?s] =>
      specialize (Hsave c s); destruct (save_config e c s) as [[[]|?] ?]
  end; simpl in *; [reflexivity | discriminate].

(** A successful update: the four keys are assigned, the configuration is
    saved, the handle is dropped. *)
Lemma set_model_path_run (e : env) (req : SettingsRequest) (st : state) :
  cache_dir_ready e req st →
  ∃ st0,
    model_config st0 = updated_config req (model_config st)
    ∧ config_file st0 = config_file st ∧ stdout st0 = stdout st
    ∧ loads st0 = loads st ∧ acquisitions st0 = acquisitions st
    ∧ set_model_path e req st
      = (Ok settings_saved,
         set_pipe None (snd (save_config e (updated_config req (model_config st)) st0))).
Proof.
  intros Hready.
  exists (set_model_config (updated_config req (model_config st))
            (if negb (String.eqb (cache_dir req) "")
                && negb (bool_decide (cache_dir req ∈ dirs st))
                && bool_decide (makedirs e (cache_dir req) = None)
             then set_dirs ({[cache_dir req]} ∪ dirs st) st else st)).
  repeat split; try (by destruct (_ && _)).
  unfold set_model_path, try_except.
  pose proof (save_config_never_raises e) as Hsave.
  unfold settings_saved, updated_config, path_exists, os_makedirs, config_assign,
    read_config, assign_pipe, modify, when, call, mbind, M_bind, mret, M_ret.
  destruct (String.eqb_spec (cache_dir req) "") as [Heq|Hne]; simpl.
  - unfold_setters. finish_save Hsave.
  - case_bool_decide as Hin; simpl.
    + unfold_setters. finish_save Hsave.
    + destruct Hready as [?|[?|Hmk]]; [done.. |].
      rewrite Hmk. rewrite bool_decide_eq_true_2 by done. simpl.
      unfold_setters. finish_save Hsave.
Qed.

(** When the cache directory has to be created and cannot be, the update
    fails with a 500 and changes nothing. *)
Lemma set_model_path_fails (e : env) (req : SettingsRequest) (st : state)
    (x : exn) :
  cache_dir req ≠ "" → cache_dir req ∉ dirs st →
  makedirs e (cache_dir req) = Some x →
  set_model_path e req st = (Raise (HTTPException 500 (str_exn x)), st).
Proof.
  intros Hne Hin Hmk.
  unfold set_model_path, try_except, path_exists, os_makedirs, when, call,
    mbind, M_bind.
  destruct (String.eqb_spec (cache_dir req) ""); [done |]. simpl.
  rewrite bool_decide_eq_false_2 by done. simpl. by rewrite Hmk.
Qed.

Lemma updated_config_lookup (req : SettingsRequest) (cfg : gmap string pyval) :
  updated_config req cfg !! "cache_dir" = Some (VStr (cache_dir req))
  ∧ updated_config req cfg !! "cpu_offload" = Some (VBool (cpu_offload req))
  ∧ updated_config req cfg !! "gpu_device" = Some (VInt (gpu_device req))
  ∧ updated_config req cfg !! "fp8_quantization"
      = Some (VBool (fp8_quantization req))
  ∧ ∀ k, k ≠ "cache_dir" → k ≠ "cpu_offload" → k ≠ "gpu_device" →
         k ≠ "fp8_quantization" → updated_config req cfg !! k = cfg !! k.
Proof.
  unfold updated_config. repeat split; intros; by simplify_map_eq.
Qed.

Lemma save_config_preserves_model_config (e : env) (cfg : gmap string pyval) :
  preserves model_config (save_config e cfg).
Proof. frame. Qed.

Lemma save_config_preserves_loads (e : env) (cfg : gmap string pyval) :
  preserves loads (save_config e cfg).
Proof. frame. Qed.

Lemma save_config_preserves_acquisitions (e : env) (cfg : gmap string pyval) :
  preserves acquisitions (save_config e cfg).
Proof. frame. Qed.

(** C5 (as the code has it): when the cache directory needs no creation or
    its creation succeeds, the update succeeds and a read right after it
    returns the configuration with the four settings as submitted, an
    omitted cpu_offload read as false, an omitted gpu_device as 0, an
    omitted fp8_quantization as false, and every other key (model_id among
    them) as it was. *)
Theorem settings_update_then_read (e : env) (b : settings_body) (st : state) :
  cache_dir_ready e (parse_SettingsRequest b) st →
  fst (set_model_path e (parse_SettingsRequest b) st) = Ok settings_saved
  ∧ ∃ cfg,
      fst (get_settings (snd (set_model_path e (parse_SettingsRequest b) st)))
        = Ok cfg
      ∧ cfg = updated_config (parse_SettingsRequest b) (model_config st)
      ∧ cfg !! "cache_dir" = Some (VStr (body_cache_dir b))
      ∧ cfg !! "cpu_offload" = Some (VBool (default false (body_cpu_offload b)))
      ∧ cfg !! "gpu_device" = Some (VInt (default 0 (body_gpu_device b)))
      ∧ cfg !! "fp8_quantization"
          = Some (VBool (default false (body_fp8_quantization b)))
      ∧ cfg !! "model_id" = model_config st !! "model_id".
Proof.
  intros Hready.
  destruct (set_model_path_run e _ st Hready) as (st0 & Hcfg & _ & _ & _ & _ & Hrun).
  rewrite Hrun. split; [done |].
  exists (updated_config (parse_SettingsRequest b) (model_config st)).
  split.
  - unfold get_settings, read_config. simpl.
    by rewrite (preserves_run _ _ _ (save_config_preserves_model_config e _)), Hcfg.
  - destruct (updated_config_lookup (parse_SettingsRequest b) (model_config st))
      as (H1 & H2 & H3 & H4 & H5).
    repeat split; try done. by apply H5.
Qed.

Lemma settings_update_then_read_witness :
  fst (set_model_path env_cpu (parse_SettingsRequest minimal_body)
         (boot env_cpu NoFile)) = Ok settings_saved
  ∧ ∃ cfg,
      fst (get_settings (snd (set_model_path env_cpu
             (parse_SettingsRequest minimal_body) (boot env_cpu NoFile))))
        = Ok cfg
      ∧ cfg = updated_config (parse_SettingsRequest minimal_body)
                (model_config (boot env_cpu NoFile))
      ∧ cfg !! "cache_dir" = Some (VStr "")
      ∧ cfg !! "cpu_offload" = Some (VBool false)
      ∧ cfg !! "gpu_device" = Some (VInt 0)
      ∧ cfg !! "fp8_quantization" = Some (VBool false)
      ∧ cfg !! "model_id" = model_config (boot env_cpu NoFile) !! "model_id".
Proof.
  apply (settings_update_then_read env_cpu minimal_body (boot env_cpu NoFile)).
  left. reflexivity.
Defined.

(** C5, as stated, fails: after an update that gives only the cache
    directory, the read returns gpu_device 0, cpu_offload false and
    fp8_quantization false, which are not the defaults of the default
    configuration (1, true, true). *)
Lemma omitted_settings_are_not_the_load_defaults :
  fst (get_settings (snd (set_model_path env_cpu
         (parse_SettingsRequest minimal_body) (boot env_cpu NoFile))))
    = Ok (<["gpu_device" := VInt 0]>
          (<["cpu_offload" := VBool false]>
          (<["fp8_quantization" := VBool false]> default_config)))
  ∧ (default_config !! "gpu_device", default_config !! "cpu_offload",
     default_config !! "fp8_quantization")
    = (Some (VInt 1), Some (VBool true), Some (VBool true)).
Proof. by vm_compute. Qed.

Lemma set_model_path_success_ready (e : env) (req : SettingsRequest)
    (st st' : state) (a : json_object) :
  set_model_path e req st = (Ok a, st') → cache_dir_ready e req st.
Proof.
  intros Hrun. unfold cache_dir_ready.
  destruct (decide (cache_dir req = "")) as [|Hne]; [by left |].
  destruct (decide (cache_dir req ∈ dirs st)) as [|Hin]; [by right; left |].
  destruct (makedirs e (cache_dir req)) as [x|] eqn:Hmk; [| by right; right].
  by rewrite (set_model_path_fails e req st x) in Hrun.
Qed.

(** C6 (as the code has it): a successful settings update assigns the four
    settings, drops the handle and calls neither [get_pipeline] nor
    [from_pretrained].  It leaves the new configuration in the file when
    the write goes through; when the open or the dump fails the failure is
    printed and the update succeeds all the same.  The next generation with
    valid dimensions on a machine that has the pipeline class calls
    [from_pretrained] once, with the configured model and the submitted
    cache directory, whether or not the submitted values differ from the
    previous ones. *)
Theorem settings_update_invalidates (e : env) (req : SettingsRequest)
    (st st' : state) (a : json_object) :
  set_model_path e req st = (Ok a, st') →
  model_config st' = updated_config req (model_config st)
  ∧ pipe st' = None
  ∧ loads st' = loads st
  ∧ acquisitions st' = acquisitions st
  ∧ (open_write e = None → json_dump e = None →
       config_file st' = Document (model_config st'))
  ∧ (∀ x, open_write e = Some x →
       config_file st' = config_file st
       ∧ last (stdout st') = Some (ErrorSavingConfig x))
  ∧ (∀ x, open_write e = None → json_dump e = Some x →
       config_file st' = Unparsable
       ∧ last (stdout st') = Some (ErrorSavingConfig x))
  ∧ (∀ (e2 : env) (p : option string) (h w s : Z) (gs : float) (sd : Z)
       (mid : pyval),
       ZImagePipeline_available e2 = true →
       model_config st !! "model_id" = Some mid →
       h mod 16 = 0 → w mod 16 = 0 →
       loads (snd (generate_image_core e2 p h w s gs sd st'))
         = loads st' ++ [{| lc_model_id := mid; lc_dtype := load_dtype e2;
                            lc_cache_dir := VStr (cache_dir req) |}]).
Proof.
  intros Hrun.
  pose proof (set_model_path_success_ready e req st st' a Hrun) as Hready.
  destruct (set_model_path_run e req st Hready)
    as (st0 & Hcfg & Hfile & Hout & Hloads & Hacq & Hrun').
  rewrite Hrun' in Hrun. injection Hrun as _ <-.
  assert (Hcfg' : model_config
            (set_pipe None (snd (save_config e (updated_config req (model_config st)) st0)))
            = updated_config req (model_config st)).
  { simpl. by rewrite (preserves_run _ _ _ (save_config_preserves_model_config e _)). }
  destruct (updated_config_lookup req (model_config st)) as (Hcd & _ & Hgpu & _ & Hother).
  split; [exact Hcfg' |]. split; [done |].
  split; [simpl; by rewrite (preserves_run _ _ _ (save_config_preserves_loads e _)) |].
  split; [simpl; by rewrite (preserves_run _ _ _ (save_config_preserves_acquisitions e _)) |].
  destruct (save_config_swallows_failures_helper e (updated_config req (model_config st)) st0)
    as (Hok & Hopen & Hdump).
  split; [intros Ho Hd; rewrite Hcfg'; simpl; by apply Hok |].
  split.
  { intros x Ho. simpl. destruct (Hopen x Ho) as [-> ->].
    split; [done | by rewrite last_snoc]. }
  split.
  { intros x Ho Hd. simpl. destruct (Hdump x Ho Hd) as [-> ->].
    split; [done | by rewrite last_snoc]. }
  intros e2 p h w s gs sd mid Ha Hmid Hh Hw.
  rewrite generate_image_core_valid by done.
  rewrite bind_preserved by frame.
  apply (get_pipeline_loads_once e2 mid (VStr (cache_dir req)) (gpu_device req)).
  - done.
  - done.
  - rewrite Hcfg'. by rewrite Hother.
  - by rewrite Hcfg'.
  - rewrite Hcfg', Hgpu. reflexivity.
Qed.

Lemma settings_update_invalidates_witness :
  pipe (snd (set_model_path env_cpu same_settings warm_state)) = None
  ∧ loads (snd (set_model_path env_cpu same_settings warm_state))
    = loads warm_state
  ∧ loads (snd (generate_image_core env_cpu (Some "a red cube") 512 512 4
                  0%float 42 (snd (set_model_path env_cpu same_settings warm_state))))
    = loads (snd (set_model_path env_cpu same_settings warm_state))
        ++ [{| lc_model_id := VStr "Tongyi-MAI/Z-Image-Turbo";
               lc_dtype := float32; lc_cache_dir := VStr "" |}].
Proof.
  destruct (settings_update_invalidates env_cpu same_settings warm_state
              (snd (set_model_path env_cpu same_settings warm_state))
              settings_saved)
    as (_ & Hpipe & Hloads & _ & _ & _ & _ & Hnext).
  - vm_compute. reflexivity.
  - split; [exact Hpipe |]. split; [exact Hloads |].
    apply (Hnext env_cpu (Some "a red cube") 512 512 4 0%float 42
             (VStr "Tongyi-MAI/Z-Image-Turbo")); reflexivity.
Defined.

(** C6, as stated, fails: on a machine where [config.json] cannot be
    opened for writing, the update succeeds and changes the configuration in
    memory, while the file still holds the old document. *)
Lemma update_succeeds_without_persisting :
  fst (set_model_path env_read_only (parse_SettingsRequest minimal_body)
         (boot env_read_only (Document config_gpu5))) = Ok settings_saved
  ∧ model_config (snd (set_model_path env_read_only
                         (parse_SettingsRequest minimal_body)
                         (boot env_read_only (Document config_gpu5))))
      !! "gpu_device" = Some (VInt 0)
  ∧ config_file (snd (set_model_path env_read_only
                        (parse_SettingsRequest minimal_body)
                        (boot env_read_only (Document config_gpu5))))
    = Document config_gpu5
  ∧ stdout (snd (set_model_path env_read_only
                   (parse_SettingsRequest minimal_body)
                   (boot env_read_only (Document config_gpu5))))
    = [ErrorSavingConfig (LibError "Permission denied")].
Proof. by vm_compute. Qed.

(** ** Failures during construction *)

(** C1, on the code: when quantization raises after [from_pretrained] has
    returned, [get_pipeline] raises, but the global already holds the
    loaded pipeline, not quantized and not placed; the next call, even on a
    machine where everything works, returns that pipeline and does not load
    again. *)
Lemma failed_quantization_leaves_handle_installed :
  fst (get_pipeline env_quantize_fails (boot env_quantize_fails NoFile))
    = Raise (LibError "quantize failed")
  ∧ pipe (snd (get_pipeline env_quantize_fails (boot env_quantize_fails NoFile)))
    = Some raw_handle
  ∧ fst (get_pipeline env_cpu
           (snd (get_pipeline env_quantize_fails (boot env_quantize_fails NoFile))))
    = Ok (Some raw_handle)
  ∧ loads (snd (get_pipeline env_cpu
             (snd (get_pipeline env_quantize_fails
                     (boot env_quantize_fails NoFile)))))
    = loads (snd (get_pipeline env_quantize_fails
                    (boot env_quantize_fails NoFile)))
  ∧ fst (generate_image_core env_cpu (Some "a red cube") 512 512 4 0%float 42
           (snd (get_pipeline env_quantize_fails (boot env_quantize_fails NoFile))))
    = Ok "512x512:42".
Proof. by vm_compute. Qed.

(** The part of C1 that holds: a failure of [from_pretrained] itself, or of
    anything before it, leaves the handle unset. *)
Lemma failed_load_leaves_no_handle (e : env) (mid cd : pyval) (g : Z)
    (x : exn) (st : state) :
  pipe st = None →
  model_config st !! "model_id" = Some mid →
  model_config st !! "cache_dir" = Some cd →
  py_int (default (VInt 0) (model_config st !! "gpu_device")) = Some g →
  from_pretrained e mid (load_dtype e) cd = Raise x →
  pipe (snd (get_pipeline e st)) = None.
Proof.
  intros Hp Hm Hc Hg Hload.
  destruct (ZImagePipeline_available e) eqn:Ha.
  2:{ unfold get_pipeline, count_acquisition, read_pipe, mbind, M_bind. simpl.
      rewrite Hp, Ha. simpl. exact Hp. }
  rewrite (get_pipeline_cold e mid cd st Hp Ha Hm Hc).
  rewrite bind_preserved by frame.
  rewrite try_except_preserved by frame.
  assert (Hst : pipe (announced mid cd st) = None
                ∧ model_config (announced mid cd st) = model_config st).
  { unfold announced. by destruct (py_truthy cd). }
  destruct Hst as [Hp' Hcfg]. rewrite <- Hcfg in Hm, Hc, Hg.
  remember (announced mid cd st) as sa eqn:Hsa. clear Hsa Hcfg Hp st.
  assert (Hlq : ∀ s, pipe s = None →
            model_config s !! "model_id" = Some mid →
            model_config s !! "cache_dir" = Some cd →
            ∃ s', load_and_quantize e (load_dtype e) s = (Raise x, s') ∧ pipe s' = None).
  { intros s Hps Hms Hcs.
    unfold load_and_quantize, load_pipeline, config_get, config_item, print,
      modify, lift, mbind, M_bind.
    destruct (py_truthy _ && quantize_available e); simpl;
      rewrite ?Hms; simpl; rewrite ?Hcs; simpl; rewrite ?Hload; simpl; eauto. }
  unfold build_pipeline.
  unfold mbind at 1, M_bind at 1. rewrite select_device_run. cbv zeta.
  unfold py_out_of_range, py_lt, py_ge. rewrite Hg.
  unfold load_dtype in Hlq.
  destruct (cuda_is_available e); simpl.
  - destruct (g <? 0); [| destruct (g >=? _)].
    + destruct (Hlq (fallen_back e (default (VInt 0) (model_config sa !! "gpu_device")) sa))
        as (s' & Hs' & Hps'); [done | by unfold fallen_back; simpl; rewrite lookup_insert_ne..|].
      by rewrite (bind_Raise _ _ _ _ _ Hs').
    + destruct (Hlq (fallen_back e (default (VInt 0) (model_config sa !! "gpu_device")) sa))
        as (s' & Hs' & Hps'); [done | by unfold fallen_back; simpl; rewrite lookup_insert_ne..|].
      by rewrite (bind_Raise _ _ _ _ _ Hs').
    + destruct (Hlq sa) as (s' & Hs' & Hps'); [done..|].
      by rewrite (bind_Raise _ _ _ _ _ Hs').
  - destruct (Hlq (set_stdout (stdout sa ++ [NoCudaFallingBackToCpu]) sa))
      as (s' & Hs' & Hps'); [done..|].
    by rewrite (bind_Raise _ _ _ _ _ Hs').
Qed.

(** ** GPU fallback *)

Lemma out_of_range_int (g n : Z) :
  g < 0 ∨ n ≤ g → py_out_of_range (VInt g) n = Ok true.
Proof.
  intros Hg. unfold py_out_of_range, py_lt, py_ge. simpl.
  destruct (Z.ltb_spec g 0); [done |].
  destruct (Z.geb_spec g n); [done | lia].
Qed.

(** With a configured index out of range, [get_pipeline] is the rest of the
    construction on GPU 0, run from the state in which the warning has been
    printed and the index corrected in [model_config]. *)
Lemma get_pipeline_fallback_run (e : env) (mid cd : pyval) (g : Z) (st : state) :
  pipe st = None → ZImagePipeline_available e = true →
  model_config st !! "model_id" = Some mid →
  model_config st !! "cache_dir" = Some cd →
  cuda_is_available e = true →
  model_config st !! "gpu_device" = Some (VInt g) →
  g < 0 ∨ cuda_device_count e ≤ g →
  get_pipeline e st
    = build_on_gpu0 e (fallen_back e (VInt g) (announced mid cd st)).
Proof.
  intros Hp Ha Hm Hc Hcuda Hgpu Hg.
  rewrite (get_pipeline_cold e mid cd st Hp Ha Hm Hc).
  assert (Hcfg : model_config (announced mid cd st) = model_config st).
  { unfold announced. by destruct (py_truthy cd). }
  assert (Hb : build_pipeline e (announced mid cd st)
               = (load_and_quantize e bfloat16;;
                  place_pipeline e (VInt 0) (Cuda (VInt 0));;
                  print (ModelLoadedOn (Cuda (VInt 0))))
                   (fallen_back e (VInt g) (announced mid cd st))).
  { unfold build_pipeline. unfold mbind at 1, M_bind at 1.
    rewrite select_device_run. cbv zeta.
    rewrite Hcfg, Hgpu, Hcuda. simpl default.
    by rewrite (out_of_range_int g _ Hg). }
  unfold build_on_gpu0, try_except, mbind at 1 5, M_bind at 1 5.
  by rewrite Hb.
Qed.

Lemma build_on_gpu0_preserves_model_config (e : env) :
  preserves model_config (build_on_gpu0 e).
Proof. unfold build_on_gpu0. frame. Qed.

Lemma build_on_gpu0_preserves_config_file (e : env) :
  preserves config_file (build_on_gpu0 e).
Proof. unfold build_on_gpu0. frame. Qed.

Lemma build_on_gpu0_output_grows (e : env) :
  maintains output_grows (build_on_gpu0 e).
Proof. unfold build_on_gpu0. frame. Qed.

Lemma place_pipeline_placement (e : env) (gid : pyval) (dev : device)
    (st st' : state) (hd : pipeline) :
  place_pipeline e gid dev st = (Ok tt, st') → pipe st' = Some hd →
  p_placement hd = Offloaded gid ∨ p_placement hd = Placed dev.
Proof.
  unfold place_pipeline, config_get, print, call, mutate_pipe, mbind, M_bind.
  destruct (py_truthy _ && is_cuda dev); simpl.
  - destruct (enable_model_cpu_offload e gid); [done |].
    intros [= <-]. simpl. destruct (pipe st); [| done].
    intros [= <-]. by left.
  - destruct (pipe_to e dev); [done |].
    intros [= <-]. simpl. destruct (pipe st); [| done].
    intros [= <-]. by right.
Qed.

Lemma build_on_gpu0_placement (e : env) (st st' : state) (hd : pipeline) :
  build_on_gpu0 e st = (Ok (Some hd), st') →
  p_placement hd = Offloaded (VInt 0) ∨ p_placement hd = Placed (Cuda (VInt 0)).
Proof.
  unfold build_on_gpu0, try_except. intros H.
  unfold mbind at 1, M_bind at 1 in H.
  unfold mbind at 1, M_bind at 1 in H.
  destruct (load_and_quantize e bfloat16 st) as [[[]|x] s1];
    [| by unfold print, raise, mbind, M_bind in H].
  unfold mbind at 1, M_bind at 1 in H.
  destruct (place_pipeline e (VInt 0) (Cuda (VInt 0)) s1) as [[[]|x] s2] eqn:Hpl;
    [| by unfold print, raise, mbind, M_bind in H].
  unfold print, read_pipe in H. simpl in H.
  injection H as Hpipe _.
  by apply (place_pipeline_placement e _ _ s1 s2 hd Hpl).
Qed.

(** C3 (as the code has it): with CUDA devices present and a configured
    index outside [0, device count), the construction prints the warning,
    the list of devices and the fall-back notice, continues on GPU 0 at
    bfloat16, and writes index 0 into [model_config], so that a settings
    read right after it shows gpu_device 0.  The file [config.json] is not
    written: it is as it was before the call. *)
Theorem gpu_fallback_is_in_memory (e : env) (mid cd : pyval) (g : Z)
    (st : state) :
  pipe st = None → ZImagePipeline_available e = true →
  model_config st !! "model_id" = Some mid →
  model_config st !! "cache_dir" = Some cd →
  cuda_is_available e = true →
  model_config st !! "gpu_device" = Some (VInt g) →
  g < 0 ∨ cuda_device_count e ≤ g →
  (WarningGpuNotAvailable (VInt g) ∈ stdout (snd (get_pipeline e st))
   ∧ AvailableGpus (cuda_device_names e) ∈ stdout (snd (get_pipeline e st))
   ∧ FallingBackToGpu0 ∈ stdout (snd (get_pipeline e st)))
  ∧ model_config (snd (get_pipeline e st))
    = <["gpu_device" := VInt 0]> (model_config st)
  ∧ (∃ cfg, fst (get_settings (snd (get_pipeline e st))) = Ok cfg
            ∧ cfg !! "gpu_device" = Some (VInt 0))
  ∧ config_file (snd (get_pipeline e st)) = config_file st
  ∧ loads (snd (get_pipeline e st))
    = loads st ++ [{| lc_model_id := mid; lc_dtype := bfloat16;
                      lc_cache_dir := cd |}]
  ∧ (∀ hd, fst (get_pipeline e st) = Ok (Some hd) →
       p_placement hd = Offloaded (VInt 0)
       ∨ p_placement hd = Placed (Cuda (VInt 0))).
Proof.
  intros Hp Ha Hm Hc Hcuda Hgpu Hg.
  pose proof (get_pipeline_fallback_run e mid cd g st Hp Ha Hm Hc Hcuda Hgpu Hg)
    as Hrun.
  assert (Hsa : model_config (announced mid cd st) = model_config st
                ∧ config_file (announced mid cd st) = config_file st).
  { unfold announced. by destruct (py_truthy cd). }
  destruct Hsa as [Hsa1 Hsa2].
  assert (Hcfg : model_config (snd (get_pipeline e st))
                 = <["gpu_device" := VInt 0]> (model_config st)).
  { rewrite Hrun.
    rewrite (preserves_run _ _ _ (build_on_gpu0_preserves_model_config e)).
    simpl. by rewrite Hsa1. }
  split.
  { pose proof (build_on_gpu0_output_grows e
                  (fallen_back e (VInt g) (announced mid cd st))) as [k Hk].
    rewrite Hrun, Hk. simpl.
    rewrite !elem_of_app, !list_elem_of_singleton. tauto. }
  split; [exact Hcfg |].
  split.
  { exists (model_config (snd (get_pipeline e st))). split; [done |].
    by rewrite Hcfg, lookup_insert_eq. }
  split.
  { rewrite Hrun.
    by rewrite (preserves_run _ _ _ (build_on_gpu0_preserves_config_file e)). }
  split.
  { rewrite (get_pipeline_loads_once e mid cd g st Hp Ha Hm Hc)
      by (by rewrite Hgpu).
    unfold load_dtype. by rewrite Hcuda. }
  intros hd Hok. rewrite Hrun in Hok.
  destruct (build_on_gpu0 e _) as [r s'] eqn:Hb. simpl in Hok. subst r.
  by apply (build_on_gpu0_placement e _ s' hd Hb).
Qed.

Lemma gpu_fallback_is_in_memory_witness :
  (WarningGpuNotAvailable (VInt 5)
     ∈ stdout (snd (get_pipeline env_two_gpus
                      (boot env_two_gpus (Document config_gpu5))))
   ∧ AvailableGpus (cuda_device_names env_two_gpus)
     ∈ stdout (snd (get_pipeline env_two_gpus
                      (boot env_two_gpus (Document config_gpu5))))
   ∧ FallingBackToGpu0
     ∈ stdout (snd (get_pipeline env_two_gpus
                      (boot env_two_gpus (Document config_gpu5)))))
  ∧ model_config (snd (get_pipeline env_two_gpus
                         (boot env_two_gpus (Document config_gpu5))))
    = <["gpu_device" := VInt 0]>
        (model_config (boot env_two_gpus (Document config_gpu5)))
  ∧ (∃ cfg, fst (get_settings (snd (get_pipeline env_two_gpus
                    (boot env_two_gpus (Document config_gpu5))))) = Ok cfg
            ∧ cfg !! "gpu_device" = Some (VInt 0))
  ∧ config_file (snd (get_pipeline env_two_gpus
                        (boot env_two_gpus (Document config_gpu5))))
    = config_file (boot env_two_gpus (Document config_gpu5))
  ∧ loads (snd (get_pipeline env_two_gpus
                  (boot env_two_gpus (Document config_gpu5))))
    = loads (boot env_two_gpus (Document config_gpu5))
        ++ [{| lc_model_id := VStr "Tongyi-MAI/Z-Image-Turbo";
               lc_dtype := bfloat16; lc_cache_dir := VStr "" |}]
  ∧ (∀ hd, fst (get_pipeline env_two_gpus
                  (boot env_two_gpus (Document config_gpu5))) = Ok (Some hd) →
       p_placement hd = Offloaded (VInt 0)
       ∨ p_placement hd = Placed (Cuda (VInt 0))).
Proof.
  apply (gpu_fallback_is_in_memory env_two_gpus
           (VStr "Tongyi-MAI/Z-Image-Turbo") (VStr "") 5
           (boot env_two_gpus (Document config_gpu5))).
  - reflexivity.
  - reflexivity.
  - reflexivity.
  - reflexivity.
  - reflexivity.
  - reflexivity.
  - right. vm_compute. discriminate.
Defined.

(** C3, as stated, fails: after the fall-back the configuration in memory
    has gpu_device 0, but [config.json] still holds the document with
    gpu_device 5, so loading it again, as a restart does, gives 5. *)
Lemma gpu_fallback_not_written_to_file :
  model_config (snd (get_pipeline env_two_gpus
                       (boot env_two_gpus (Document config_gpu5))))
    !! "gpu_device" = Some (VInt 0)
  ∧ config_file (snd (get_pipeline env_two_gpus
                        (boot env_two_gpus (Document config_gpu5))))
    = Document config_gpu5
  ∧ fst (load_config env_two_gpus
           (snd (get_pipeline env_two_gpus
                   (boot env_two_gpus (Document config_gpu5)))))
    = Ok config_gpu5
  ∧ model_config
      (boot env_two_gpus
         (config_file (snd (get_pipeline env_two_gpus
                              (boot env_two_gpus (Document config_gpu5))))))
    !! "gpu_device" = Some (VInt 5).
Proof. by vm_compute. Qed.

(** ** Programs that see only the setup *)

Section Blind.

















End Blind.




(** ** Reading a successful generation backwards *)

Lemma current_device_run (e : env) (st : state) :
  current_device e st = (resolve_device e (model_config st), st).
Proof.
  unfold current_device, resolve_device, config_get, lift, mbind, M_bind,
    mret, M_ret.
  destruct (cuda_is_available e); [| reflexivity].
  by destruct (py_out_of_range _ _).
Qed.

Lemma store_and_encode_preserves_model_config (e : env) (img : image) :
  preserves model_config (store_and_encode e img).
Proof. frame. Qed.

Lemma store_and_encode_preserves_pipe (e : env) (img : image) :
  preserves pipe (store_and_encode e img).
Proof. frame. Qed.

Lemma store_and_encode_Ok (e : env) (img : image) (st st' : state) (s : string) :
  store_and_encode e img st = (Ok s, st') → s = png_base64 e img.
Proof.
  unfold store_and_encode, os_makedirs, fresh_filename, save_image, print,
    call, modify, at_tick, mbind, M_bind, mret, M_ret.
  cbv zeta. destruct (makedirs e "output"); [done |]. simpl.
  destruct (image_save e _); [done |]. simpl. by intros [= <- _].
Qed.

(** A generation that returns has passed the check, acquired a handle,
    resolved the device from the configuration found after the acquisition,
    called the pipeline once and encoded the picture it got. *)
Lemma generate_image_core_Ok (e : env) (p : option string) (h w s : Z)
    (gs : float) (sd : Z) (st st' : state) (payload : string) :
  generate_image_core e p h w s gs sd st = (Ok payload, st') →
  ∃ (hd : pipeline) (sa : state) (dev : device) (n : nat) (pic : image),
    get_pipeline e st = (Ok (Some hd), sa)
    ∧ resolve_device e (model_config sa) = Ok dev
    ∧ infer e (pipeline_call hd p h w s gs sd dev) n = Ok pic
    ∧ payload = png_base64 e pic
    ∧ inferences st' = inferences sa ++ [pipeline_call hd p h w s gs sd dev]
    ∧ model_config st' = model_config sa
    ∧ pipe st' = pipe sa.
Proof.
  intros H.
  destruct (decide (h mod 16 = 0)) as [Hh|Hh];
    [| by rewrite generate_image_core_invalid in H by (by left)].
  destruct (decide (w mod 16 = 0)) as [Hw|Hw];
    [| by rewrite generate_image_core_invalid in H by (by right)].
  rewrite generate_image_core_valid in H by done.
  unfold mbind at 1, M_bind at 1 in H.
  destruct (get_pipeline e st) as [[[hd|]|x] sa] eqn:Hget; [| | done].
  2:{ exfalso. revert H.
      unfold mbind at 1, M_bind at 1. rewrite current_device_run.
      destruct (resolve_device e _); [| done].
      unfold seeded_generator, call_pipeline, print, call, raise, mbind, M_bind,
        mret, M_ret.
      destruct (negb (sd =? -1)); [destruct (manual_seed e _ sd) |]; done. }
  exists hd, sa.
  unfold mbind at 1, M_bind at 1 in H. rewrite current_device_run in H.
  destruct (resolve_device e (model_config sa)) as [dev|x] eqn:Hdev; [| done].
  exists dev.
  assert (Hgen : ∃ gen, seeded_generator e dev sd sa = (Ok gen, sa)
                 ∧ gen = if sd =? -1 then None
                         else Some {| gen_device := dev; gen_seed := sd |}).
  { revert H. unfold mbind at 1, M_bind at 1.
    unfold seeded_generator, call, mbind at 1, M_bind at 1, mret, M_ret.
    destruct (sd =? -1); simpl; [eauto |].
    destruct (manual_seed e dev sd); [done | eauto]. }
  destruct Hgen as (gen & Hgen & Hgen').
  rewrite (bind_Ok _ _ _ _ _ Hgen) in H.
  unfold print at 1 in H. rewrite (bind_Ok _ _ _ _ tt) in H by reflexivity.
  unfold call_pipeline in H.
  unfold mbind at 1 2, M_bind at 1 2, modify, at_tick in H. simpl in H.
  match type of H with
  | context [infer e ?c ?t] =>
      destruct (infer e c t) as [pic|x] eqn:Hinf; [| done];
      exists t, pic
  end.
  subst gen. unfold pipeline_call.
  split; [done |]. split; [done |]. split; [exact Hinf |].
  split; [eapply store_and_encode_Ok; exact H |].
  pose proof (store_and_encode_preserves_inferences e pic) as Hi.
  pose proof (store_and_encode_preserves_model_config e pic) as Hc.
  pose proof (store_and_encode_preserves_pipe e pic) as Hp.
  unfold preserves, maintains, unchanged in Hi, Hc, Hp.
  match type of H with
  | store_and_encode e pic ?s0 = _ =>
      specialize (Hi s0); specialize (Hc s0); specialize (Hp s0);
      rewrite H in Hi, Hc, Hp
  end.
  simpl in *. by rewrite Hi, Hc, Hp.
Qed.


(** * Further properties of the code *)

(** ** More frame rules *)

#[global] Instance keeps_keys_preorder : PreOrder keeps_keys.
Proof.
  split.
  - intros st k Hk. exact Hk.
  - intros a b c Hab Hbc k Hk. by apply Hbc, Hab.
Qed.

#[global] Instance config_drift_preorder : PreOrder config_drift.
Proof.
  split.
  - intros st. by left.
  - intros a b c [Hab|Hab] [Hbc|Hbc]; unfold config_drift;
      rewrite Hbc, Hab; rewrite ?insert_insert_eq; auto.
Qed.

#[global] Instance handle_kept_preorder : PreOrder handle_kept.
Proof.
  split.
  - intros st Hs. exact Hs.
  - intros a b c Hab Hbc Ha. by apply Hbc, Hab.
Qed.

#[global] Instance storage_grows_preorder : PreOrder storage_grows.
Proof.
  split.
  - intros st. split; reflexivity.
  - intros a b c [Hab1 Hab2] [Hbc1 Hbc2]. split; by etrans.
Qed.

Ltac frame_side ::=
  intros;
  unfold unchanged, output_grows, keeps_keys, config_drift, handle_kept,
    storage_grows;
  simpl;
  first
    [ reflexivity
    | by apply prefix_app_r
    | by left
    | by right
    | by (intros ? ?; rewrite lookup_insert_is_Some'; right)
    | by (intros [? ->]; simpl; eauto)
    | by eauto
    | by (split; [set_solver | rewrite ?dom_insert; set_solver]) ].

Ltac frame_unfold ::=
  unfold preserves, get_pipeline, build_pipeline, select_device,
    load_and_quantize, place_pipeline, load_pipeline, quantize_and_freeze,
    count_acquisition, save_config, open_for_write, dump_and_close,
    os_makedirs, save_image, fresh_filename, store_and_encode,
    seeded_generator, current_device, call_pipeline, get_settings,
    get_system_info, generate_image_core, generate_image, call_tool,
    set_model_path.

(** ** The handle cache *)

Lemma load_pipeline_Ok (e : env) (dt : dtype) (st st' : state) :
  load_pipeline e dt st = (Ok tt, st') →
  ∃ mid cd te v,
    model_config st !! "model_id" = Some mid
    ∧ model_config st !! "cache_dir" = Some cd
    ∧ from_pretrained e mid dt cd = Ok (te, v)
    ∧ pipe st' = Some (fresh_pipeline mid dt cd te v)
    ∧ model_config st' = model_config st.
Proof.
  unfold load_pipeline, config_item, modify, lift, assign_pipe, mbind, M_bind.
  destruct (model_config st !! "model_id") as [mid|]; [| done].
  destruct (model_config st !! "cache_dir") as [cd|]; [| done]. simpl.
  destruct (from_pretrained e mid dt cd) as [[te v]|x] eqn:Hload; [| done].
  intros [= <-]. exists mid, cd, te, v. by repeat split.
Qed.

Lemma quantize_and_freeze_Ok (e : env) (pt : part) (st st' : state) :
  quantize_and_freeze e pt st = (Ok tt, st') →
  pipe st' = map_part pt freeze_submodule
               <$> (map_part pt quantize_submodule <$> pipe st)
  ∧ model_config st' = model_config st.
Proof.
  unfold quantize_and_freeze, call, mutate_pipe, mbind, M_bind.
  destruct (quantize e pt); [done |]. simpl.
  destruct (freeze e pt); [done |]. by intros [= <-].
Qed.

(** An absent sub-module is skipped by the code; quantizing it in the model
    of the pipeline changes nothing. *)
Lemma map_part_absent (pt : part) (f : submodule → submodule) (p : pipeline) :
  get_part pt p = None → map_part pt f p = p.
Proof.
  destruct p as [? ? ? ? te v ?], pt; simpl; intros H; try done;
    by rewrite H.
Qed.

Lemma get_part_map_other (pt pt' : part) (f : submodule → submodule)
    (p : pipeline) :
  is_Some (get_part pt (map_part pt' f p)) ↔ is_Some (get_part pt p).
Proof.
  destruct p as [? ? ? ? te v ?], pt, pt'; simpl; try done;
    by rewrite fmap_is_Some.
Qed.

(** The guarded quantization of an optional sub-module. *)
Lemma guarded_quantize_Ok (e : env) (pt : part) (p : pipeline)
    (st st' : state) :
  pipe st = Some p →
  (te ← has_part pt; when te (quantize_and_freeze e pt)) st = (Ok tt, st') →
  pipe st' = Some (map_part pt freeze_submodule (map_part pt quantize_submodule p))
  ∧ model_config st' = model_config st.
Proof.
  intros Hp. unfold mbind at 1, M_bind at 1, has_part. rewrite Hp. simpl.
  case_bool_decide as Hpart; unfold when.
  - intros H. apply quantize_and_freeze_Ok in H as [H1 H2].
    rewrite Hp in H1. by split.
  - intros [= <-]. split; [| done].
    assert (get_part pt p = None) as Hnone
      by (destruct (get_part pt p) eqn:E; [by destruct Hpart; eauto | done]).
    rewrite (map_part_absent pt quantize_submodule p Hnone).
    by rewrite (map_part_absent pt freeze_submodule p Hnone).
Qed.

Lemma load_and_quantize_Ok (e : env) (dt : dtype) (st st' : state) :
  load_and_quantize e dt st = (Ok tt, st') →
  ∃ mid cd te v,
    model_config st !! "model_id" = Some mid
    ∧ model_config st !! "cache_dir" = Some cd
    ∧ from_pretrained e mid dt cd = Ok (te, v)
    ∧ pipe st' = Some (if quantizes e (model_config st)
                       then quantize_all (fresh_pipeline mid dt cd te v)
                       else fresh_pipeline mid dt cd te v)
    ∧ model_config st' = model_config st.
Proof.
  unfold load_and_quantize, quantizes.
  rewrite (bind_Ok _ _ st st (default (VBool false)
             (model_config st !! "fp8_quantization"))) by reflexivity.
  destruct (py_truthy _ && quantize_available e); [| apply load_pipeline_Ok].
  unfold print at 1. rewrite (bind_Ok _ _ _ _ tt) by reflexivity.
  unfold mbind at 1, M_bind at 1.
  destruct (load_pipeline e dt _) as [[[]|x] s1] eqn:Hload; [| done].
  apply load_pipeline_Ok in Hload
    as (mid & cd & te & v & Hm & Hc & Hfrom & Hp1 & Hc1).
  rewrite (bind_Ok _ _ _ _ tt) by reflexivity.
  unfold mbind at 1, M_bind at 1.
  destruct (quantize_and_freeze e Transformer _) as [[[]|x] s2] eqn:Hq1; [| done].
  apply quantize_and_freeze_Ok in Hq1 as [Hp2 Hc2]. simpl in Hp2, Hc2.
  rewrite Hp1 in Hp2. simpl in Hp2.
  intros H.
  assert (Hsplit : ∃ s3,
            (te0 ← has_part TextEncoder;
             when te0 (quantize_and_freeze e TextEncoder)) s2 = (Ok tt, s3)
            ∧ (v0 ← has_part Vae; when v0 (quantize_and_freeze e Vae)) s3
              = (Ok tt, st')).
  { revert H. unfold mbind at 1, M_bind at 1, has_part at 1. simpl.
    unfold mbind at 1, M_bind at 1.
    destruct (when _ _ s2) as [[[]|x] s3] eqn:Hw; [| done].
    intros Hk. exists s3. split; [| exact Hk].
    unfold mbind, M_bind, has_part. simpl. exact Hw. }
  destruct Hsplit as (s3 & Hte & Hv).
  apply (guarded_quantize_Ok e TextEncoder _ s2 s3 Hp2) in Hte as [Hp3 Hc3].
  apply (guarded_quantize_Ok e Vae _ s3 st' Hp3) in Hv as [Hp4 Hc4].
  exists mid, cd, te, v. simpl in *.
  repeat split; try done.
  by rewrite Hc4, Hc3, Hc2, Hc1.
Qed.

Lemma select_device_Ok (e : env) (st st' : state) (gpu : pyval) (dev : device) :
  select_device e st = (Ok (gpu, dev), st') →
  chosen_device e (model_config st) = Ok (gpu, dev)
  ∧ config_drift st st'
  ∧ pipe st' = pipe st
  ∧ resolve_device e (model_config st') = Ok dev.
Proof.
  rewrite select_device_run. cbv zeta.
  unfold chosen_device, resolve_device, config_drift.
  destruct (cuda_is_available e) eqn:Hcuda.
  - destruct (py_out_of_range _ _) as [[|]|x] eqn:Hoor; [| | done].
    + intros [= <- <- <-]. unfold fallen_back. simpl.
      rewrite lookup_insert_eq. simpl.
      repeat split; [by right |].
      unfold py_out_of_range, py_lt, py_ge. simpl.
      by destruct (0 >=? cuda_device_count e).
    + intros [= <- <- <-]. rewrite Hoor. repeat split. by left.
  - intros [= <- <- <-]. simpl. repeat split. by left.
Qed.

Lemma place_pipeline_Ok (e : env) (gpu : pyval) (dev : device)
    (st st' : state) :
  place_pipeline e gpu dev st = (Ok tt, st') →
  pipe st' = set_placement (if offloads (model_config st) dev
                            then Offloaded gpu else Placed dev) <$> pipe st
  ∧ model_config st' = model_config st.
Proof.
  unfold place_pipeline, offloads, config_get, print, call, mutate_pipe,
    mbind, M_bind. simpl.
  destruct (py_truthy _ && is_cuda dev); simpl.
  - destruct (enable_model_cpu_offload e gpu); [done |]. by intros [= <-].
  - destruct (pipe_to e dev); [done |]. by intros [= <-].
Qed.

(** A construction that goes through, read backwards. *)
Lemma build_pipeline_Ok (e : env) (st st' : state) :
  build_pipeline e st = (Ok tt, st') →
  ∃ mid cd gpu dev te v,
    model_config st !! "model_id" = Some mid
    ∧ model_config st !! "cache_dir" = Some cd
    ∧ chosen_device e (model_config st) = Ok (gpu, dev)
    ∧ from_pretrained e mid (if is_cuda dev then bfloat16 else float32) cd
      = Ok (te, v)
    ∧ pipe st' = Some (built_pipeline e (model_config st) mid cd gpu dev te v)
    ∧ config_drift st st'
    ∧ resolve_device e (model_config st') = Ok dev
    ∧ last (stdout st') = Some (ModelLoadedOn dev)
    ∧ loads st' = loads st ++ [{| lc_model_id := mid;
                                  lc_dtype := if is_cuda dev then bfloat16
                                              else float32;
                                  lc_cache_dir := cd |}].
Proof.
  unfold build_pipeline. intros H.
  unfold mbind at 1, M_bind at 1 in H.
  destruct (select_device e st) as [[[gpu dev]|x] s1] eqn:Hsel; [| done].
  pose proof (preserves_run loads (select_device e) st ltac:(frame)) as Hl1.
  rewrite Hsel in Hl1. simpl in Hl1.
  apply select_device_Ok in Hsel as (Hchosen & Hdrift & Hp1 & Hres).
  cbv zeta in H. unfold mbind at 1, M_bind at 1 in H.
  destruct (load_and_quantize e _ s1) as [[[]|x] s2] eqn:Hlq; [| done].
  pose proof (load_and_quantize_loads e (if is_cuda dev then bfloat16 else float32))
    as Hl2.
  specialize (λ mid cd, Hl2 mid cd s1). rewrite Hlq in Hl2. simpl in Hl2.
  apply load_and_quantize_Ok in Hlq
    as (mid & cd & te & v & Hm & Hc & Hfrom & Hp2 & Hc2).
  specialize (Hl2 mid cd Hm Hc).
  unfold mbind at 1, M_bind at 1 in H.
  destruct (place_pipeline e gpu dev s2) as [[[]|x] s3] eqn:Hpl; [| done].
  pose proof (preserves_run loads (place_pipeline e gpu dev) s2 ltac:(frame))
    as Hl3.
  rewrite Hpl in Hl3. simpl in Hl3.
  apply place_pipeline_Ok in Hpl as [Hp3 Hc3].
  unfold print in H. injection H as <-. simpl.
  assert (Hkeys : ∀ k, k ≠ "gpu_device" →
            model_config s1 !! k = model_config st !! k).
  { intros k Hk. destruct Hdrift as [->| ->]; [done |].
    by rewrite lookup_insert_ne. }
  exists mid, cd, gpu, dev, te, v.
  rewrite <- (Hkeys "model_id") by done.
  rewrite <- (Hkeys "cache_dir") by done.
  repeat split; try done.
  - rewrite Hp3, Hp2. simpl. unfold built_pipeline, offloads, quantizes.
    rewrite Hc2. by rewrite !Hkeys by done.
  - unfold config_drift in *. simpl. by rewrite Hc3, Hc2.
  - simpl. by rewrite Hc3, Hc2.
  - simpl. by rewrite last_snoc.
  - simpl. by rewrite Hl3, Hl2, Hl1.
Qed.

(** What a call that finds no handle and returns has gone through. *)
Lemma get_pipeline_built (e : env) (st st' : state) (r : option pipeline) :
  pipe st = None → get_pipeline e st = (Ok r, st') →
  ZImagePipeline_available e = true
  ∧ ∃ mid cd gpu dev te v,
      model_config st !! "model_id" = Some mid
      ∧ model_config st !! "cache_dir" = Some cd
      ∧ chosen_device e (model_config st) = Ok (gpu, dev)
      ∧ from_pretrained e mid (if is_cuda dev then bfloat16 else float32) cd
        = Ok (te, v)
      ∧ r = Some (built_pipeline e (model_config st) mid cd gpu dev te v)
      ∧ pipe st' = r
      ∧ config_drift st st'
      ∧ resolve_device e (model_config st') = Ok dev
      ∧ last (stdout st') = Some (ModelLoadedOn dev)
      ∧ loads st' = loads st ++ [{| lc_model_id := mid;
                                    lc_dtype := if is_cuda dev then bfloat16
                                                else float32;
                                    lc_cache_dir := cd |}].
Proof.
  intros Hp Hrun.
  destruct (ZImagePipeline_available e) eqn:Ha.
  2:{ revert Hrun.
      unfold get_pipeline, count_acquisition, read_pipe, mbind, M_bind. simpl.
      by rewrite Hp, Ha. }
  destruct (model_config st !! "model_id") as [mid|] eqn:Hm.
  2:{ revert Hrun.
      unfold get_pipeline, count_acquisition, read_pipe, config_item,
        mbind, M_bind. simpl.
      rewrite Hp, Ha. simpl. by rewrite Hm. }
  destruct (model_config st !! "cache_dir") as [cd|] eqn:Hc.
  2:{ revert Hrun.
      unfold get_pipeline, count_acquisition, read_pipe, config_item, print,
        mbind, M_bind. simpl.
      rewrite Hp, Ha. simpl. rewrite Hm. simpl. by rewrite Hc. }
  split; [done |].
  rewrite (get_pipeline_cold e mid cd st Hp Ha Hm Hc) in Hrun.
  assert (Hsa : model_config (announced mid cd st) = model_config st
                ∧ loads (announced mid cd st) = loads st).
  { unfold announced. by destruct (py_truthy cd). }
  destruct Hsa as [Hsa Hsl].
  unfold try_except, mbind at 1, M_bind at 1 in Hrun.
  destruct (build_pipeline e (announced mid cd st)) as [[[]|x] s1] eqn:Hb;
    [| by unfold print, raise, mbind, M_bind in Hrun].
  unfold read_pipe in Hrun. injection Hrun as <- <-.
  apply build_pipeline_Ok in Hb
    as (mid' & cd' & gpu & dev & te & v & Hm' & Hc' & Hch & Hfrom & Hp' & Hd
        & Hres & Hlast & Hloads).
  rewrite Hsa in *. rewrite Hm in Hm'. rewrite Hc in Hc'.
  injection Hm' as <-. injection Hc' as <-.
  exists mid, cd, gpu, dev, te, v. repeat split; try done.
  - unfold config_drift in *. by rewrite Hsa in Hd.
  - by rewrite Hloads, Hsl.
Qed.

(** X1: a call of [get_pipeline] that returns has a handle to return, the
    global holds that handle afterwards, and any later call, on whatever
    machine, returns the same handle and changes nothing but the call
    counter: no load, no print, no change of configuration. *)
Theorem get_pipeline_caches_handle (e e2 : env) (st st' : state)
    (r : option pipeline) :
  get_pipeline e st = (Ok r, st') →
  ∃ hd, r = Some hd
    ∧ pipe st' = Some hd
    ∧ get_pipeline e2 st'
      = (Ok (Some hd), set_acquisitions (S (acquisitions st')) st').
Proof.
  intros Hrun.
  assert (Hsome : ∃ hd, r = Some hd ∧ pipe st' = Some hd).
  { destruct (pipe st) as [hd|] eqn:Hp.
    - rewrite (get_pipeline_installed e hd st Hp) in Hrun.
      injection Hrun as <- <-. by exists hd.
    - destruct (get_pipeline_built e st st' r Hp Hrun)
        as (_ & mid & cd & gpu & dev & te & v & _ & _ & _ & _ & Hr & Hp' & _).
      subst r. eauto. }
  destruct Hsome as (hd & -> & Hp').
  exists hd. repeat split; [done |]. by apply get_pipeline_installed.
Qed.

Lemma get_pipeline_caches_handle_witness :
  ∃ hd, Some cpu_handle = Some hd
    ∧ pipe (snd (get_pipeline env_cpu (boot env_cpu NoFile))) = Some hd
    ∧ get_pipeline env_quantize_fails
        (snd (get_pipeline env_cpu (boot env_cpu NoFile)))
      = (Ok (Some hd),
         set_acquisitions
           (S (acquisitions (snd (get_pipeline env_cpu (boot env_cpu NoFile)))))
           (snd (get_pipeline env_cpu (boot env_cpu NoFile)))).
Proof.
  apply (get_pipeline_caches_handle env_cpu env_quantize_fails
           (boot env_cpu NoFile)).
  vm_compute. reflexivity.
Defined.

(** X2: a call of [get_pipeline] that finds no handle and returns one has
    read model_id and cache_dir from the configuration, chosen the device
    from gpu_device, loaded that model once at the precision of the device,
    and returns exactly the loaded pipeline with every sub-module quantized
    and frozen when quantization is on and available, offloaded to the
    chosen GPU when cpu_offload is on and the device is a GPU, and placed on
    the device otherwise. *)
Theorem construction_result (e : env) (st st' : state) (hd : pipeline) :
  pipe st = None → get_pipeline e st = (Ok (Some hd), st') →
  ∃ mid cd gpu dev te v,
    model_config st !! "model_id" = Some mid
    ∧ model_config st !! "cache_dir" = Some cd
    ∧ chosen_device e (model_config st) = Ok (gpu, dev)
    ∧ from_pretrained e mid (if is_cuda dev then bfloat16 else float32) cd
      = Ok (te, v)
    ∧ hd = built_pipeline e (model_config st) mid cd gpu dev te v
    ∧ loads st' = loads st ++ [{| lc_model_id := mid;
                                  lc_dtype := if is_cuda dev then bfloat16
                                              else float32;
                                  lc_cache_dir := cd |}].
Proof.
  intros Hp Hrun.
  destruct (get_pipeline_built e st st' _ Hp Hrun)
    as (Ha & mid & cd & gpu & dev & te & v & Hm & Hc & Hch & Hfrom & Hr & _ & _
        & _ & _ & Hloads).
  exists mid, cd, gpu, dev, te, v. repeat split; try done. congruence.
Qed.

Lemma construction_result_witness :
  ∃ mid cd gpu dev te v,
    model_config (boot env_two_gpus (Document config_gpu5)) !! "model_id"
      = Some mid
    ∧ model_config (boot env_two_gpus (Document config_gpu5)) !! "cache_dir"
      = Some cd
    ∧ chosen_device env_two_gpus
        (model_config (boot env_two_gpus (Document config_gpu5)))
      = Ok (gpu, dev)
    ∧ from_pretrained env_two_gpus mid
        (if is_cuda dev then bfloat16 else float32) cd = Ok (te, v)
    ∧ {| p_model_id := VStr "Tongyi-MAI/Z-Image-Turbo"; p_dtype := bfloat16;
         p_cache_dir := VStr "";
         transformer := {| quantized := true; frozen := true |};
         text_encoder := Some {| quantized := true; frozen := true |};
         vae := Some {| quantized := true; frozen := true |};
         p_placement := Offloaded (VInt 0) |}
      = built_pipeline env_two_gpus
          (model_config (boot env_two_gpus (Document config_gpu5)))
          mid cd gpu dev te v
    ∧ loads (snd (get_pipeline env_two_gpus
                    (boot env_two_gpus (Document config_gpu5))))
      = loads (boot env_two_gpus (Document config_gpu5))
          ++ [{| lc_model_id := mid;
                 lc_dtype := if is_cuda dev then bfloat16 else float32;
                 lc_cache_dir := cd |}].
Proof.
  apply (construction_result env_two_gpus
           (boot env_two_gpus (Document config_gpu5))).
  - reflexivity.
  - vm_compute. reflexivity.
Defined.

(** X3: in the pipeline a construction returns, the transformer and every
    optional sub-module that is present are quantized and frozen when
    fp8_quantization is truthy and optimum-quanto could be imported, and
    are all left as loaded otherwise (quantization off, or asked for but not
    available). *)
Theorem quantization_follows_the_setting (e : env) (st st' : state)
    (hd : pipeline) :
  pipe st = None → get_pipeline e st = (Ok (Some hd), st') →
  let q := quantizes e (model_config st) in
  transformer hd = {| quantized := q; frozen := q |}
  ∧ (∀ m, text_encoder hd = Some m → m = {| quantized := q; frozen := q |})
  ∧ (∀ m, vae hd = Some m → m = {| quantized := q; frozen := q |}).
Proof.
  intros Hp Hrun q. subst q.
  destruct (get_pipeline_built e st st' _ Hp Hrun)
    as (_ & mid & cd & gpu & dev & te & v & _ & _ & _ & _ & [= ->] & _).
  unfold built_pipeline, quantize_all, fresh_pipeline, loaded_submodule.
  destruct (quantizes e (model_config st)), te, v; simpl;
    repeat split; intros; by simplify_eq.
Qed.

Lemma quantization_follows_the_setting_witness :
  let q := quantizes env_cpu (model_config (boot env_cpu NoFile)) in
  transformer cpu_handle = {| quantized := q; frozen := q |}
  ∧ (∀ m, text_encoder cpu_handle = Some m →
          m = {| quantized := q; frozen := q |})
  ∧ (∀ m, vae cpu_handle = Some m → m = {| quantized := q; frozen := q |}).
Proof.
  apply (quantization_follows_the_setting env_cpu (boot env_cpu NoFile)
           (snd (get_pipeline env_cpu (boot env_cpu NoFile))) cpu_handle).
  - reflexivity.
  - vm_compute. reflexivity.
Defined.

(** X4: the pipeline a construction returns is loaded at bfloat16 when CUDA
    is available and at float32 when it is not.  Without CUDA it is placed
    on the CPU whatever cpu_offload says; with CUDA it is offloaded to the
    chosen GPU when cpu_offload is truthy and moved to that GPU otherwise.
    The device [generate_image_core] resolves from the configuration right
    after the construction is the device of the construction. *)
Theorem precision_and_placement (e : env) (st st' : state) (hd : pipeline) :
  pipe st = None → get_pipeline e st = (Ok (Some hd), st') →
  p_dtype hd = (if cuda_is_available e then bfloat16 else float32)
  ∧ (cuda_is_available e = false → p_placement hd = Placed Cpu)
  ∧ (cuda_is_available e = true →
       ∃ g, chosen_device e (model_config st) = Ok (g, Cuda g)
            ∧ p_placement hd
              = if py_truthy (default (VBool false)
                                (model_config st !! "cpu_offload"))
                then Offloaded g else Placed (Cuda g))
  ∧ ∃ dev, current_device e st' = (Ok dev, st')
           ∧ (p_placement hd = Placed dev
              ∨ ∃ g, dev = Cuda g ∧ p_placement hd = Offloaded g).
Proof.
  intros Hp Hrun.
  destruct (get_pipeline_built e st st' _ Hp Hrun)
    as (_ & mid & cd & gpu & dev & te & v & _ & _ & Hch & _ & [= ->] & _ & _
        & Hres & _).
  unfold built_pipeline, offloads.
  assert (Hdev : if cuda_is_available e then dev = Cuda gpu else dev = Cpu).
  { revert Hch. unfold chosen_device.
    destruct (cuda_is_available e); [| by intros [= <- <-]].
    destruct (py_out_of_range _ _) as [[|]|]; by intros [= <- <-]. }
  split.
  { destruct (cuda_is_available e), (quantizes e (model_config st));
      by subst dev. }
  split.
  { intros Hcuda. rewrite Hcuda in Hdev. subst dev. simpl.
    by rewrite andb_false_r. }
  split.
  { intros Hcuda. rewrite Hcuda in Hdev. subst dev. exists gpu.
    split; [done |]. simpl. by rewrite andb_true_r. }
  exists dev. rewrite current_device_run, Hres. split; [done |]. simpl.
  destruct (py_truthy _ && is_cuda dev) eqn:Hoff; [| by left].
  right. exists gpu. split; [| done].
  destruct (cuda_is_available e); subst dev; [done |].
  simpl in Hoff. by rewrite andb_false_r in Hoff.
Qed.

Lemma precision_and_placement_witness :
  p_dtype cpu_handle = (if cuda_is_available env_cpu then bfloat16 else float32)
  ∧ (cuda_is_available env_cpu = false → p_placement cpu_handle = Placed Cpu)
  ∧ (cuda_is_available env_cpu = true →
       ∃ g, chosen_device env_cpu (model_config (boot env_cpu NoFile))
              = Ok (g, Cuda g)
            ∧ p_placement cpu_handle
              = if py_truthy (default (VBool false)
                                (model_config (boot env_cpu NoFile)
                                   !! "cpu_offload"))
                then Offloaded g else Placed (Cuda g))
  ∧ ∃ dev, current_device env_cpu
             (snd (get_pipeline env_cpu (boot env_cpu NoFile)))
           = (Ok dev, snd (get_pipeline env_cpu (boot env_cpu NoFile)))
           ∧ (p_placement cpu_handle = Placed dev
              ∨ ∃ g, dev = Cuda g ∧ p_placement cpu_handle = Offloaded g).
Proof.
  apply (precision_and_placement env_cpu (boot env_cpu NoFile)
           (snd (get_pipeline env_cpu (boot env_cpu NoFile))) cpu_handle).
  - reflexivity.
  - vm_compute. reflexivity.
Defined.

(** ** Failures before the model is loaded *)

Lemma get_pipeline_no_class (e : env) (st : state) :
  pipe st = None → ZImagePipeline_available e = false →
  get_pipeline e st
    = (Raise (HTTPException 500
         "ZImagePipeline class not available. Install diffusers from source."),
       set_acquisitions (S (acquisitions st)) st).
Proof.
  intros Hp Ha.
  unfold get_pipeline, count_acquisition, read_pipe, raise, mbind, M_bind.
  simpl. by rewrite Hp, Ha.
Qed.

(** X5: when diffusers has no ZImagePipeline class and no handle is
    installed, a generation with valid dimensions loads nothing and calls
    nothing: over HTTP it fails with status 500, the detail being the text
    of the inner 500, and over the tool protocol it returns one text item
    with that text; the handle stays unset. *)
Theorem missing_pipeline_class_fails_every_generation (e : env)
    (req : GenerateRequest) (st : state) :
  pipe st = None → ZImagePipeline_available e = false →
  height req mod 16 = 0 → width req mod 16 = 0 →
  let inner := HTTPException 500
    "ZImagePipeline class not available. Install diffusers from source." in
  generate_image e req st
    = (Raise (HTTPException 500 (str_exn inner)),
       set_stdout (stdout st ++ [ErrorGeneratingImage inner])
         (set_acquisitions (S (acquisitions st)) st))
  ∧ call_tool e "generate-image"
      {| arg_prompt := Some (prompt req); arg_height := Some (height req);
         arg_width := Some (width req); arg_steps := Some (steps req);
         arg_guidance_scale := Some (guidance_scale req);
         arg_seed := Some (seed req) |} st
    = (Ok [TextContent ("Error generating image: " +:+ str_exn inner)],
       set_acquisitions (S (acquisitions st)) st).
Proof.
  intros Hp Ha Hh Hw inner. subst inner.
  assert (Hcore : ∀ p, generate_image_core e p (height req) (width req)
                    (steps req) (guidance_scale req) (seed req) st
            = (Raise (HTTPException 500
                 "ZImagePipeline class not available. Install diffusers from source."),
               set_acquisitions (S (acquisitions st)) st)).
  { intros p. rewrite generate_image_core_valid by done.
    by rewrite (bind_Raise _ _ _ _ _ (get_pipeline_no_class e st Hp Ha)). }
  split.
  - unfold generate_image, try_except.
    rewrite (bind_Raise _ _ _ _ _ (Hcore _)). reflexivity.
  - unfold call_tool, try_except. simpl.
    rewrite (bind_Raise _ _ _ _ _ (Hcore _)). reflexivity.
Qed.

Lemma missing_pipeline_class_witness :
  let inner := HTTPException 500
    "ZImagePipeline class not available. Install diffusers from source." in
  generate_image env_no_class (parse_GenerateRequest prompt_only)
      (boot env_no_class NoFile)
    = (Raise (HTTPException 500 (str_exn inner)),
       set_stdout (stdout (boot env_no_class NoFile)
                     ++ [ErrorGeneratingImage inner])
         (set_acquisitions (S (acquisitions (boot env_no_class NoFile)))
            (boot env_no_class NoFile)))
  ∧ call_tool env_no_class "generate-image"
      {| arg_prompt := Some (prompt (parse_GenerateRequest prompt_only));
         arg_height := Some (height (parse_GenerateRequest prompt_only));
         arg_width := Some (width (parse_GenerateRequest prompt_only));
         arg_steps := Some (steps (parse_GenerateRequest prompt_only));
         arg_guidance_scale :=
           Some (guidance_scale (parse_GenerateRequest prompt_only));
         arg_seed := Some (seed (parse_GenerateRequest prompt_only)) |}
      (boot env_no_class NoFile)
    = (Ok [TextContent ("Error generating image: " +:+ str_exn inner)],
       set_acquisitions (S (acquisitions (boot env_no_class NoFile)))
         (boot env_no_class NoFile)).
Proof.
  apply (missing_pipeline_class_fails_every_generation env_no_class
           (parse_GenerateRequest prompt_only) (boot env_no_class NoFile));
    reflexivity.
Defined.

(** X6: the two subscript reads at the head of [get_pipeline] are outside
    its [try]: with no handle installed, a configuration without model_id
    makes the call raise KeyError before anything is printed, and one with
    model_id but without cache_dir makes it raise KeyError after the
    "Loading model" line; in both cases no "Error loading model" line is
    printed, nothing is loaded and the handle stays unset. *)
Theorem missing_config_key_raises_KeyError (e : env) (st : state) :
  pipe st = None → ZImagePipeline_available e = true →
  (model_config st !! "model_id" = None →
     get_pipeline e st
       = (Raise (KeyError "model_id"),
          set_acquisitions (S (acquisitions st)) st))
  ∧ (∀ mid, model_config st !! "model_id" = Some mid →
       model_config st !! "cache_dir" = None →
       get_pipeline e st
         = (Raise (KeyError "cache_dir"),
            set_stdout (stdout st ++ [LoadingModel mid])
              (set_acquisitions (S (acquisitions st)) st))).
Proof.
  intros Hp Ha. split.
  - intros Hm.
    unfold get_pipeline, count_acquisition, read_pipe, config_item, mbind,
      M_bind. simpl.
    rewrite Hp, Ha. simpl. by rewrite Hm.
  - intros mid Hm Hc.
    unfold get_pipeline, count_acquisition, read_pipe, config_item, print,
      mbind, M_bind. simpl.
    rewrite Hp, Ha. simpl. rewrite Hm. simpl. by rewrite Hc.
Qed.

Lemma missing_config_key_witness :
  (model_config (set_model_config config_no_model (boot env_cpu NoFile))
     !! "model_id" = None →
     get_pipeline env_cpu (set_model_config config_no_model (boot env_cpu NoFile))
       = (Raise (KeyError "model_id"),
          set_acquisitions
            (S (acquisitions
                  (set_model_config config_no_model (boot env_cpu NoFile))))
            (set_model_config config_no_model (boot env_cpu NoFile))))
  ∧ (∀ mid,
       model_config (set_model_config config_no_model (boot env_cpu NoFile))
         !! "model_id" = Some mid →
       model_config (set_model_config config_no_model (boot env_cpu NoFile))
         !! "cache_dir" = None →
       get_pipeline env_cpu
           (set_model_config config_no_model (boot env_cpu NoFile))
         = (Raise (KeyError "cache_dir"),
            set_stdout
              (stdout (set_model_config config_no_model (boot env_cpu NoFile))
                 ++ [LoadingModel mid])
              (set_acquisitions
                 (S (acquisitions
                       (set_model_config config_no_model (boot env_cpu NoFile))))
                 (set_model_config config_no_model (boot env_cpu NoFile))))).
Proof.
  apply (missing_config_key_raises_KeyError env_cpu
           (set_model_config config_no_model (boot env_cpu NoFile)));
    reflexivity.
Defined.

(** X7: with CUDA available and a handle to build, a configured gpu_device
    that is neither a number nor a boolean (null or a string) makes the
    range check raise TypeError inside the [try]: the error is printed as
    "Error loading model" and raised again, [from_pretrained] is not
    called, the configuration is not changed and the handle stays unset. *)
Theorem non_numeric_gpu_device_fails_construction (e : env) (mid cd : pyval)
    (st : state) :
  pipe st = None → ZImagePipeline_available e = true →
  model_config st !! "model_id" = Some mid →
  model_config st !! "cache_dir" = Some cd →
  cuda_is_available e = true →
  py_int (default (VInt 0) (model_config st !! "gpu_device")) = None →
  ∃ msg,
    fst (get_pipeline e st) = Raise (TypeError msg)
    ∧ last (stdout (snd (get_pipeline e st)))
      = Some (ErrorLoadingModel (TypeError msg))
    ∧ loads (snd (get_pipeline e st)) = loads st
    ∧ model_config (snd (get_pipeline e st)) = model_config st
    ∧ pipe (snd (get_pipeline e st)) = None.
Proof.
  intros Hp Ha Hm Hc Hcuda Hint.
  rewrite (get_pipeline_cold e mid cd st Hp Ha Hm Hc).
  assert (Hsa : model_config (announced mid cd st) = model_config st
                ∧ loads (announced mid cd st) = loads st
                ∧ pipe (announced mid cd st) = pipe st).
  { unfold announced. by destruct (py_truthy cd). }
  destruct Hsa as (Hsc & Hsl & Hsp).
  exists ("'<' not supported between instances of '"
          +:+ py_type_name (default (VInt 0) (model_config st !! "gpu_device"))
          +:+ "' and 'int'").
  assert (Hb : build_pipeline e (announced mid cd st)
               = (Raise (TypeError
                    ("'<' not supported between instances of '"
                     +:+ py_type_name
                           (default (VInt 0) (model_config st !! "gpu_device"))
                     +:+ "' and 'int'")),
                  announced mid cd st)).
  { unfold build_pipeline. unfold mbind at 1, M_bind at 1.
    rewrite select_device_run. cbv zeta.
    rewrite Hsc, Hcuda. unfold py_out_of_range, py_lt. by rewrite Hint. }
  match goal with
  | |- context [?prog (announced mid cd st)] =>
      assert (Hrun : prog (announced mid cd st)
                = (Raise (TypeError
                     ("'<' not supported between instances of '"
                      +:+ py_type_name
                            (default (VInt 0) (model_config st !! "gpu_device"))
                      +:+ "' and 'int'")),
                   set_stdout
                     (stdout (announced mid cd st)
                        ++ [ErrorLoadingModel (TypeError
                              ("'<' not supported between instances of '"
                               +:+ py_type_name
                                     (default (VInt 0)
                                        (model_config st !! "gpu_device"))
                               +:+ "' and 'int'"))])
                     (announced mid cd st)))
  end.
  { unfold try_except, mbind at 1, M_bind at 1. by rewrite Hb. }
  rewrite Hrun. simpl.
  rewrite last_snoc, Hsc, Hsl, Hsp. by repeat split.
Qed.

Lemma non_numeric_gpu_device_witness :
  ∃ msg,
    fst (get_pipeline env_two_gpus
           (boot env_two_gpus (Document config_gpu_text)))
      = Raise (TypeError msg)
    ∧ last (stdout (snd (get_pipeline env_two_gpus
                           (boot env_two_gpus (Document config_gpu_text)))))
      = Some (ErrorLoadingModel (TypeError msg))
    ∧ loads (snd (get_pipeline env_two_gpus
                    (boot env_two_gpus (Document config_gpu_text))))
      = loads (boot env_two_gpus (Document config_gpu_text))
    ∧ model_config (snd (get_pipeline env_two_gpus
                           (boot env_two_gpus (Document config_gpu_text))))
      = model_config (boot env_two_gpus (Document config_gpu_text))
    ∧ pipe (snd (get_pipeline env_two_gpus
                   (boot env_two_gpus (Document config_gpu_text)))) = None.
Proof.
  apply (non_numeric_gpu_device_fails_construction env_two_gpus
           (VStr "Tongyi-MAI/Z-Image-Turbo") (VStr "")
           (boot env_two_gpus (Document config_gpu_text))); reflexivity.
Defined.

(** ** What one acquisition does and does not do *)

Lemma load_and_quantize_loads_le (e : env) (dt : dtype) (st : state) :
  loads (snd (load_and_quantize e dt st)) = loads st
  ∨ ∃ c, loads (snd (load_and_quantize e dt st)) = loads st ++ [c].
Proof.
  destruct (model_config st !! "model_id") as [mid|] eqn:Hm;
    [destruct (model_config st !! "cache_dir") as [cd|] eqn:Hc |].
  - right. eexists. by apply (load_and_quantize_loads e dt mid cd).
  - left. unfold load_and_quantize, load_pipeline, config_get, config_item,
      print, mbind, M_bind. simpl.
    destruct (py_truthy _ && quantize_available e); simpl;
      rewrite Hm; simpl; by rewrite Hc.
  - left. unfold load_and_quantize, load_pipeline, config_get, config_item,
      print, mbind, M_bind. simpl.
    destruct (py_truthy _ && quantize_available e); simpl; by rewrite Hm.
Qed.

Lemma build_pipeline_loads_le (e : env) (st : state) :
  loads (snd (build_pipeline e st)) = loads st
  ∨ ∃ c, loads (snd (build_pipeline e st)) = loads st ++ [c].
Proof.
  remember (loads (snd (build_pipeline e st))) as L eqn:HL.
  unfold build_pipeline in HL. unfold mbind at 1, M_bind at 1 in HL.
  pose proof (preserves_run loads (select_device e) st ltac:(frame)) as Hl.
  destruct (select_device e st) as [[[gpu dev]|x] s1]; simpl in Hl;
    [| left; by rewrite HL].
  cbv zeta in HL. rewrite bind_preserved in HL by frame. subst L.
  rewrite <- Hl. apply load_and_quantize_loads_le.
Qed.

Lemma get_pipeline_loads_le (e : env) (st : state) :
  loads (snd (get_pipeline e st)) = loads st
  ∨ ∃ c, loads (snd (get_pipeline e st)) = loads st ++ [c].
Proof.
  destruct (pipe st) as [hd|] eqn:Hp.
  { left. by rewrite (get_pipeline_installed e hd st Hp). }
  destruct (ZImagePipeline_available e) eqn:Ha.
  2:{ left. by rewrite (get_pipeline_no_class e st Hp Ha). }
  destruct (model_config st !! "model_id") as [mid|] eqn:Hm.
  2:{ left. unfold get_pipeline, count_acquisition, read_pipe, config_item,
        mbind, M_bind. simpl.
      rewrite Hp, Ha. simpl. by rewrite Hm. }
  destruct (model_config st !! "cache_dir") as [cd|] eqn:Hc.
  2:{ left. unfold get_pipeline, count_acquisition, read_pipe, config_item,
        print, mbind, M_bind. simpl.
      rewrite Hp, Ha. simpl. rewrite Hm. simpl. by rewrite Hc. }
  rewrite (get_pipeline_cold e mid cd st Hp Ha Hm Hc).
  rewrite bind_preserved by frame.
  rewrite try_except_preserved by frame.
  assert (Hsl : loads (announced mid cd st) = loads st).
  { unfold announced. by destruct (py_truthy cd). }
  rewrite <- Hsl. apply build_pipeline_loads_le.
Qed.

(** X8: one call of [get_pipeline] calls [from_pretrained] at most once,
    and not at all when a handle is installed. *)
Theorem get_pipeline_loads_at_most_once (e : env) (st : state) :
  (loads (snd (get_pipeline e st)) = loads st
   ∨ ∃ c, loads (snd (get_pipeline e st)) = loads st ++ [c])
  ∧ (is_Some (pipe st) → loads (snd (get_pipeline e st)) = loads st).
Proof.
  split; [apply get_pipeline_loads_le |].
  intros [hd Hp]. by rewrite (get_pipeline_installed e hd st Hp).
Qed.

(** X9: [get_pipeline] does not write [config.json], stores no image and
    does not call the pipeline: whether it returns or raises, the
    configuration file, the stored images and the inference log are as they
    were.  (What [from_pretrained] downloads into the cache directory is the
    library's own and is not part of the statement.) *)
Theorem get_pipeline_writes_no_config_or_image (e : env) :
  preserves config_file (get_pipeline e)
  ∧ preserves files (get_pipeline e)
  ∧ preserves inferences (get_pipeline e).
Proof. split_and!; frame. Qed.

(** ** Saving, loading and restarting *)

Lemma save_then_load (e e2 : env) (cfg : gmap string pyval) (st : state) :
  open_write e = None → json_dump e = None → open_read e2 = None →
  load_config e2 (snd (save_config e cfg st))
    = (Ok cfg, snd (save_config e cfg st)).
Proof.
  intros Ho Hd Hr. apply load_config_document; [done |].
  rewrite save_config_run, Ho, Hd. reflexivity.
Qed.

(** X10: a configuration saved without a write failure is what a later
    load returns, whatever the configuration is and whatever the file held
    before; the load changes nothing. *)
Theorem saved_configuration_loads_back (e e2 : env) (cfg : gmap string pyval)
    (st : state) :
  open_write e = None → json_dump e = None → open_read e2 = None →
  load_config e2 (snd (save_config e cfg st))
    = (Ok cfg, snd (save_config e cfg st)).
Proof. apply save_then_load. Qed.

Lemma saved_configuration_loads_back_witness :
  load_config env_cpu (snd (save_config env_cpu config_gpu5
                              (boot env_cpu (Document legacy_config))))
    = (Ok config_gpu5,
       snd (save_config env_cpu config_gpu5
              (boot env_cpu (Document legacy_config)))).
Proof.
  apply (saved_configuration_loads_back env_cpu env_cpu config_gpu5
           (boot env_cpu (Document legacy_config))); reflexivity.
Defined.

Lemma backfill_complete (cfg : gmap string pyval) :
  is_Some (cfg !! "cpu_offload") → is_Some (cfg !! "fp8_quantization") →
  backfill cfg = cfg.
Proof.
  intros [v1 H1] [v2 H2]. unfold backfill. cbv zeta.
  rewrite (bool_decide_eq_false_2 (cfg !! "cpu_offload" = None))
    by (rewrite H1; discriminate).
  rewrite (bool_decide_eq_false_2 (cfg !! "fp8_quantization" = None))
    by (rewrite H2; discriminate).
  reflexivity.
Qed.

(** X11: after a settings update whose write went through, a process
    started on the file (one that can read it) begins with exactly the
    configuration the updated process has in memory, and with no handle. *)
Theorem settings_survive_restart (e e2 : env) (req : SettingsRequest)
    (st st' : state) (a : json_object) :
  set_model_path e req st = (Ok a, st') →
  open_write e = None → json_dump e = None → open_read e2 = None →
  model_config (boot e2 (config_file st')) = model_config st'
  ∧ pipe (boot e2 (config_file st')) = None.
Proof.
  intros Hrun Ho Hd Hr.
  pose proof (set_model_path_success_ready e req st st' a Hrun) as Hready.
  destruct (set_model_path_run e req st Hready)
    as (st0 & Hcfg & _ & _ & _ & _ & Hrun').
  rewrite Hrun' in Hrun. injection Hrun as _ <-. simpl.
  rewrite (preserves_run _ _ _ (save_config_preserves_model_config e _)).
  rewrite save_config_run, Ho, Hd. simpl.
  rewrite (boot_document e2 _ Hr), Hcfg.
  split.
  - apply backfill_complete; unfold updated_config.
    + rewrite lookup_insert_ne, lookup_insert_ne, lookup_insert_eq by done.
      eauto.
    + rewrite lookup_insert_eq. eauto.
  - unfold boot, module_init.
    rewrite (bind_Ok _ _ _ _ _ (load_config_document e2 _ (blank _) Hr eq_refl)).
    unfold config_lacks, config_assign, assign_pipe, modify, when, mbind,
      M_bind, mret, M_ret. simpl.
    repeat (case_bool_decide; simpl); reflexivity.
Qed.

Lemma settings_survive_restart_witness :
  model_config
      (boot env_cpu
         (config_file (snd (set_model_path env_cpu cache_settings warm_state))))
    = model_config (snd (set_model_path env_cpu cache_settings warm_state))
  ∧ pipe (boot env_cpu
            (config_file (snd (set_model_path env_cpu cache_settings warm_state))))
    = None.
Proof.
  apply (settings_survive_restart env_cpu env_cpu cache_settings warm_state
           (snd (set_model_path env_cpu cache_settings warm_state))
           settings_saved).
  - vm_compute. reflexivity.
  - reflexivity.
  - reflexivity.
  - reflexivity.
Defined.

(** ** Settings updates that fail, and the cache directory *)

(** X12: [set_model_path] can only fail in the creation of the cache
    directory: when it raises, the directory was named, absent and
    [os.makedirs] raised, the exception is a 500 carrying the text of that
    error, and the state is untouched: the configuration is as before, the
    file is not written and the handle is not dropped. *)
Theorem failed_update_changes_nothing (e : env) (req : SettingsRequest)
    (st st' : state) (y : exn) :
  set_model_path e req st = (Raise y, st') →
  st' = st
  ∧ ∃ x, cache_dir req ≠ "" ∧ (cache_dir req ∉ dirs st)
         ∧ makedirs e (cache_dir req) = Some x
         ∧ y = HTTPException 500 (str_exn x).
Proof.
  intros Hrun.
  destruct (decide (cache_dir req = "")) as [Hempty|Hne].
  { destruct (set_model_path_run e req st (or_introl Hempty))
      as (? & _ & _ & _ & _ & _ & Hok). by rewrite Hok in Hrun. }
  destruct (decide (cache_dir req ∈ dirs st)) as [Hin|Hnin].
  { destruct (set_model_path_run e req st (or_intror (or_introl Hin)))
      as (? & _ & _ & _ & _ & _ & Hok). by rewrite Hok in Hrun. }
  destruct (makedirs e (cache_dir req)) as [x|] eqn:Hmk.
  2:{ destruct (set_model_path_run e req st (or_intror (or_intror Hmk)))
        as (? & _ & _ & _ & _ & _ & Hok). by rewrite Hok in Hrun. }
  rewrite (set_model_path_fails e req st x Hne Hnin Hmk) in Hrun.
  injection Hrun as <- <-. split; [done |]. by exists x.
Qed.

Lemma failed_update_changes_nothing_witness :
  warm_state = warm_state
  ∧ ∃ x, cache_dir cache_settings ≠ ""
         ∧ (cache_dir cache_settings ∉ dirs warm_state)
         ∧ makedirs env_broken_engine (cache_dir cache_settings) = Some x
         ∧ HTTPException 500 "Read-only file system"
           = HTTPException 500 (str_exn x).
Proof.
  apply (failed_update_changes_nothing env_broken_engine cache_settings
           warm_state warm_state).
  vm_compute. reflexivity.
Defined.

Lemma set_model_path_dirs (e : env) (req : SettingsRequest) (st : state) :
  dirs (snd (set_model_path e req st))
  = if negb (String.eqb (cache_dir req) "")
       && negb (bool_decide (cache_dir req ∈ dirs st))
       && bool_decide (makedirs e (cache_dir req) = None)
    then {[cache_dir req]} ∪ dirs st else dirs st.
Proof.
  unfold set_model_path.
  rewrite try_except_preserved by frame.
  rewrite bind_preserved by frame.
  unfold path_exists, os_makedirs, when, call, modify, mbind, M_bind, mret,
    M_ret.
  destruct (negb (String.eqb (cache_dir req) "")); simpl; [| done].
  case_bool_decide; simpl; [done |].
  by destruct (makedirs e (cache_dir req)).
Qed.

(** X13: a settings update that succeeds leaves the named cache directory in
    existence, creating it when it was absent, removes no directory and
    touches no stored image; with an empty cache_dir it makes no directory
    at all. *)
Theorem update_creates_cache_directory (e : env) (req : SettingsRequest)
    (st st' : state) (a : json_object) :
  set_model_path e req st = (Ok a, st') →
  (cache_dir req ≠ "" → cache_dir req ∈ dirs st')
  ∧ dirs st ⊆ dirs st'
  ∧ (cache_dir req = "" → dirs st' = dirs st)
  ∧ files st' = files st.
Proof.
  intros Hrun.
  pose proof (set_model_path_success_ready e req st st' a Hrun) as Hready.
  pose proof (set_model_path_dirs e req st) as Hdirs.
  pose proof (preserves_run files (set_model_path e req) st ltac:(frame))
    as Hfiles.
  rewrite Hrun in Hdirs, Hfiles. simpl in Hdirs, Hfiles.
  split.
  { intros Hne. rewrite Hdirs.
    destruct (String.eqb_spec (cache_dir req) ""); [done |]. simpl.
    case_bool_decide as Hin; simpl; [done |].
    destruct Hready as [?|[?|Hmk]]; [done.. |].
    rewrite bool_decide_eq_true_2 by done.
    apply elem_of_union. left. by apply elem_of_singleton. }
  repeat split; try done.
  - rewrite Hdirs. destruct (_ && _); [apply union_subseteq_r | done].
  - intros Hempty. rewrite Hdirs.
    destruct (String.eqb_spec (cache_dir req) ""); [done | done].
Qed.

Lemma update_creates_cache_directory_witness :
  (cache_dir cache_settings ≠ "" →
     cache_dir cache_settings
       ∈ dirs (snd (set_model_path env_cpu cache_settings warm_state)))
  ∧ dirs warm_state
      ⊆ dirs (snd (set_model_path env_cpu cache_settings warm_state))
  ∧ (cache_dir cache_settings = "" →
       dirs (snd (set_model_path env_cpu cache_settings warm_state))
         = dirs warm_state)
  ∧ files (snd (set_model_path env_cpu cache_settings warm_state))
    = files warm_state.
Proof.
  apply (update_creates_cache_directory env_cpu cache_settings warm_state
           (snd (set_model_path env_cpu cache_settings warm_state))
           settings_saved).
  vm_compute. reflexivity.
Defined.

(** ** The two front-ends *)

(** X14: a POST /generate body and a "generate-image" tool call that carry
    the same fields run the same generation, an omitted height, width,
    steps, guidance_scale or seed being read as 1024, 1024, 8, 0.0 and -1 by
    both.  On success HTTP answers the data URL of the payload the tool
    returns as an image item, and both leave the same state; on failure
    HTTP raises 400 for a ValueError and 500 for anything else, with the
    text of the error that the tool returns as a text item. *)
Theorem front_ends_agree (e : env) (b : generate_body) (st : state) :
  let run := generate_image_core e (Some (body_prompt b))
               (default 1024 (body_height b)) (default 1024 (body_width b))
               (default 8 (body_steps b))
               (default 0%float (body_guidance_scale b))
               (default (-1) (body_seed b)) st in
  (∀ payload, fst run = Ok payload →
     generate_image e (parse_GenerateRequest b) st
       = (Ok [("image", "data:image/png;base64," +:+ payload)], snd run)
     ∧ call_tool e "generate-image" (arguments_of_body b) st
       = (Ok [ImageContent payload "image/png" ["user"] 1%float], snd run))
  ∧ (∀ x, fst run = Raise x →
       fst (generate_image e (parse_GenerateRequest b) st)
         = Raise (HTTPException (if is_ValueError x then 400 else 500)
                                (str_exn x))
       ∧ call_tool e "generate-image" (arguments_of_body b) st
         = (Ok [TextContent ("Error generating image: " +:+ str_exn x)],
            snd run)).
Proof.
  intros run. subst run.
  unfold generate_image, call_tool, parse_GenerateRequest, arguments_of_body,
    try_except, mbind, M_bind. simpl.
  destruct (generate_image_core _ _ _ _ _ _ _ st) as [[payload|x] st1]; simpl.
  - split; [intros ? [= <-]; by split | intros ? [=]].
  - split; [intros ? [=] | intros ? [= <-]].
    split; [| done]. by destruct (is_ValueError x).
Qed.

(** X15: [call_tool] compares the name with "generate-image" exactly: any
    other name, a different spelling included, raises ValueError naming the
    tool, and the state is untouched. *)
Theorem unknown_tool_is_rejected (e : env) (name : string)
    (a : tool_arguments) (st : state) :
  name ≠ "generate-image" →
  call_tool e name a st = (Raise (ValueError ("Unknown tool: " +:+ name)), st).
Proof.
  intros Hname. unfold call_tool.
  by destruct (String.eqb_spec name "generate-image").
Qed.

Lemma unknown_tool_is_rejected_witness :
  call_tool env_cpu "Generate-Image" odd_arguments warm_state
    = (Raise (ValueError ("Unknown tool: " +:+ "Generate-Image")), warm_state).
Proof.
  apply (unknown_tool_is_rejected env_cpu "Generate-Image" odd_arguments
           warm_state).
  discriminate.
Defined.

(** ** GET /system-info *)

(** X16: [get_system_info] changes nothing.  Without CUDA the list is
    empty.  With CUDA it has one entry per device, the entry at position i
    carrying id i and the name of device i, and the ids it lists are exactly
    the integers that [get_pipeline] accepts as gpu_device without falling
    back to 0. *)
Theorem system_info_lists_the_usable_gpus (e : env) (st : state) :
  snd (get_system_info e st) = st
  ∧ (cuda_is_available e = false → fst (get_system_info e st) = Ok [])
  ∧ (cuda_is_available e = true →
       ∃ gpus, fst (get_system_info e st) = Ok gpus
         ∧ length gpus = length (cuda_device_names e)
         ∧ (∀ (i : nat) name,
              gpus !! i = Some (Z.of_nat i, name)
              ↔ cuda_device_names e !! i = Some name)
         ∧ (∀ g : Z,
              (∃ name, (g, name) ∈ gpus)
              ↔ py_out_of_range (VInt g) (cuda_device_count e) = Ok false)).
Proof.
  unfold get_system_info.
  split; [by destruct (cuda_is_available e) |].
  split; [by intros -> |].
  intros ->. eexists. split; [reflexivity |].
  split; [apply length_imap |].
  split.
  { intros i name. rewrite list_lookup_imap.
    destruct (cuda_device_names e !! i) as [n|]; simpl; [| done].
    split; [by intros [= <-] | by intros [= <-]]. }
  intros g. unfold py_out_of_range, py_lt, py_ge, cuda_device_count. simpl.
  split.
  - intros [name Hin]. apply elem_of_lookup_imap_1 in Hin
      as (i & n & [= -> ->] & Hi).
    apply lookup_lt_Some in Hi.
    destruct (Z.ltb_spec (Z.of_nat i) 0); [lia |].
    destruct (Z.geb_spec (Z.of_nat i) (Z.of_nat (length (cuda_device_names e))));
      [lia | done].
  - destruct (Z.ltb_spec g 0); [done |].
    destruct (Z.geb_spec g (Z.of_nat (length (cuda_device_names e))));
      [done |]. intros _.
    destruct (lookup_lt_is_Some_2 (cuda_device_names e) (Z.to_nat g))
      as [name Hname]; [lia |].
    exists name.
    replace g with (Z.of_nat (Z.to_nat g)) at 1 by lia.
    by apply (elem_of_lookup_imap_2 (λ i n, (Z.of_nat i, n))).
Qed.

(** ** What a generation leaves behind *)

Lemma seeded_generator_Ok (e : env) (dev : device) (sd : Z) (st : state) :
  (sd ≠ -1 → manual_seed e dev sd = None) →
  seeded_generator e dev sd st
    = (Ok (if sd =? -1 then None
           else Some {| gen_device := dev; gen_seed := sd |}), st).
Proof.
  intros Hseed. unfold seeded_generator.
  destruct (Z.eqb_spec sd (-1)) as [->|Hne]; simpl; [done |].
  unfold mbind, M_bind, call. by rewrite (Hseed Hne).
Qed.

(** X17: when the pipeline call itself raises, the generation raises that
    exception; the handle stays installed, so the next acquisition returns
    it without loading, and neither the output directory nor any file is
    created. *)
Theorem inference_failure_keeps_handle (e e2 : env) (p : option string)
    (h w s : Z) (gs : float) (sd : Z) (st sa : state) (hd : pipeline)
    (dev : device) (x : exn) :
  h mod 16 = 0 → w mod 16 = 0 →
  get_pipeline e st = (Ok (Some hd), sa) →
  current_device e sa = (Ok dev, sa) →
  (sd ≠ -1 → manual_seed e dev sd = None) →
  infer e (pipeline_call hd p h w s gs sd dev) (tick sa) = Raise x →
  fst (generate_image_core e p h w s gs sd st) = Raise x
  ∧ pipe (snd (generate_image_core e p h w s gs sd st)) = Some hd
  ∧ fst (get_pipeline e2 (snd (generate_image_core e p h w s gs sd st)))
    = Ok (Some hd)
  ∧ loads (snd (get_pipeline e2 (snd (generate_image_core e p h w s gs sd st))))
    = loads sa
  ∧ files (snd (generate_image_core e p h w s gs sd st)) = files st
  ∧ dirs (snd (generate_image_core e p h w s gs sd st)) = dirs st.
Proof.
  intros Hh Hw Hget Hdev Hseed Hinf.
  pose proof (get_pipeline_returns_global e st sa _ Hget) as Hglob.
  pose proof (preserves_run files (get_pipeline e) st ltac:(frame)) as Hfiles.
  pose proof (preserves_run dirs (get_pipeline e) st ltac:(frame)) as Hdirs.
  rewrite Hget in Hfiles, Hdirs. simpl in Hfiles, Hdirs.
  assert (Hrun : generate_image_core e p h w s gs sd st
            = (Raise x,
               set_tick (S (tick sa))
                 (set_inferences
                    (inferences sa ++ [pipeline_call hd p h w s gs sd dev])
                    (set_stdout (stdout sa ++ [GeneratingWithPrompt p]) sa)))).
  { rewrite generate_image_core_valid by done.
    rewrite (bind_Ok _ _ _ _ _ Hget).
    rewrite (bind_Ok _ _ _ _ _ Hdev).
    rewrite (bind_Ok _ _ _ _ _ (seeded_generator_Ok e dev sd sa Hseed)).
    unfold call_pipeline, print, modify, at_tick, mbind, M_bind. simpl.
    unfold pipeline_call in Hinf. by rewrite Hinf. }
  rewrite Hrun. simpl.
  rewrite (get_pipeline_installed e2 hd _) by done. simpl.
  by rewrite <- Hglob, Hfiles, Hdirs.
Qed.

Lemma inference_failure_keeps_handle_witness :
  fst (generate_image_core env_broken_engine (Some "a red cube") 512 512 4
         0%float 42 (boot env_broken_engine NoFile))
    = Raise (LibError "CUDA out of memory")
  ∧ pipe (snd (generate_image_core env_broken_engine (Some "a red cube")
                 512 512 4 0%float 42 (boot env_broken_engine NoFile)))
    = Some cpu_handle
  ∧ fst (get_pipeline env_cpu
           (snd (generate_image_core env_broken_engine (Some "a red cube")
                   512 512 4 0%float 42 (boot env_broken_engine NoFile))))
    = Ok (Some cpu_handle)
  ∧ loads (snd (get_pipeline env_cpu
             (snd (generate_image_core env_broken_engine (Some "a red cube")
                     512 512 4 0%float 42 (boot env_broken_engine NoFile)))))
    = loads (snd (get_pipeline env_broken_engine
                    (boot env_broken_engine NoFile)))
  ∧ files (snd (generate_image_core env_broken_engine (Some "a red cube")
                  512 512 4 0%float 42 (boot env_broken_engine NoFile)))
    = files (boot env_broken_engine NoFile)
  ∧ dirs (snd (generate_image_core env_broken_engine (Some "a red cube")
                 512 512 4 0%float 42 (boot env_broken_engine NoFile)))
    = dirs (boot env_broken_engine NoFile).
Proof.
  apply (inference_failure_keeps_handle env_broken_engine env_cpu
           (Some "a red cube") 512 512 4 0%float 42
           (boot env_broken_engine NoFile)
           (snd (get_pipeline env_broken_engine (boot env_broken_engine NoFile)))
           cpu_handle Cpu (LibError "CUDA out of memory")).
  - reflexivity.
  - reflexivity.
  - vm_compute. reflexivity.
  - vm_compute. reflexivity.
  - intros _. reflexivity.
  - reflexivity.
Defined.

Lemma store_and_encode_Ok_state (e : env) (img : image) (st st' : state)
    (payload : string) :
  store_and_encode e img st = (Ok payload, st') →
  payload = png_base64 e img
  ∧ files st'
    = <["output/" +:+ now e (tick st) +:+ "_"
        +:+ substring 0 8 (uuid4 e (tick st)) +:+ ".png" := img]> (files st)
  ∧ dirs st' = {["output"]} ∪ dirs st
  ∧ last (stdout st')
    = Some (ImageSavedTo ("output/" +:+ now e (tick st) +:+ "_"
                          +:+ substring 0 8 (uuid4 e (tick st)) +:+ ".png"))
  ∧ tick st' = S (tick st)
  ∧ inferences st' = inferences st.
Proof.
  unfold store_and_encode, os_makedirs, fresh_filename, save_image, print,
    call, modify, at_tick, mbind, M_bind, mret, M_ret.
  cbv zeta. destruct (makedirs e "output"); [done |]. simpl.
  destruct (image_save e _); [done |]. simpl.
  intros [= <- <-]. simpl. by rewrite last_snoc.
Qed.

(** X18: a generation that returns has called the pipeline once, at the
    moment the call started, and the payload it returns is the base64 PNG of
    the picture it got.  That picture is stored under "output/", in a file
    named by the timestamp, an underscore, the first eight characters of
    the uuid and ".png"; the directory "output" exists afterwards, no other
    file or directory is added, and an existing file of that name is
    replaced. *)
Theorem successful_generation_stores_the_image (e : env) (p : option string)
    (h w s : Z) (gs : float) (sd : Z) (st st' : state) (payload : string) :
  generate_image_core e p h w s gs sd st = (Ok payload, st') →
  ∃ (hd : pipeline) (dev : device) (pic : image),
    infer e (pipeline_call hd p h w s gs sd dev) (tick st) = Ok pic
    ∧ payload = png_base64 e pic
    ∧ inferences st' = inferences st ++ [pipeline_call hd p h w s gs sd dev]
    ∧ files st'
      = <["output/" +:+ now e (S (tick st)) +:+ "_"
          +:+ substring 0 8 (uuid4 e (S (tick st))) +:+ ".png" := pic]>
          (files st)
    ∧ dirs st' = {["output"]} ∪ dirs st
    ∧ last (stdout st')
      = Some (ImageSavedTo ("output/" +:+ now e (S (tick st)) +:+ "_"
                            +:+ substring 0 8 (uuid4 e (S (tick st)))
                            +:+ ".png")).
Proof.
  intros H.
  destruct (decide (h mod 16 = 0)) as [Hh|Hh];
    [| by rewrite generate_image_core_invalid in H by (by left)].
  destruct (decide (w mod 16 = 0)) as [Hw|Hw];
    [| by rewrite generate_image_core_invalid in H by (by right)].
  destruct (generate_image_core_Ok e p h w s gs sd st st' payload H)
    as (hd & sa & dev & n & pic0 & Hget & Hdev & _).
  pose proof (preserves_run files (get_pipeline e) st ltac:(frame)) as Hfiles.
  pose proof (preserves_run dirs (get_pipeline e) st ltac:(frame)) as Hdirs.
  pose proof (preserves_run tick (get_pipeline e) st ltac:(frame)) as Htick.
  pose proof (preserves_run inferences (get_pipeline e) st ltac:(frame)) as Hinfs.
  rewrite Hget in Hfiles, Hdirs, Htick, Hinfs.
  simpl in Hfiles, Hdirs, Htick, Hinfs.
  rewrite generate_image_core_valid in H by done.
  rewrite (bind_Ok _ _ _ _ _ Hget) in H.
  pose proof (current_device_run e sa) as Hcur. rewrite Hdev in Hcur.
  rewrite (bind_Ok _ _ _ _ _ Hcur) in H.
  assert (Hseed : sd ≠ -1 → manual_seed e dev sd = None).
  { intros Hne. revert H.
    unfold mbind at 1, M_bind at 1, seeded_generator.
    destruct (Z.eqb_spec sd (-1)); [done |]. simpl.
    unfold mbind at 1, M_bind at 1, call.
    by destruct (manual_seed e dev sd). }
  rewrite (bind_Ok _ _ _ _ _ (seeded_generator_Ok e dev sd sa Hseed)) in H.
  unfold call_pipeline, print, modify, at_tick in H.
  unfold mbind at 1 2 3, M_bind at 1 2 3 in H. simpl in H.
  fold (pipeline_call hd p h w s gs sd dev) in H.
  destruct (infer e (pipeline_call hd p h w s gs sd dev) (tick sa))
    as [pic|x] eqn:Hinf; [| done].
  apply store_and_encode_Ok_state in H
    as (Hpay & Hf & Hd & Hlast & _ & Hi). simpl in Hf, Hd, Hlast, Hi.
  exists hd, dev, pic.
  rewrite <- Htick, <- Hfiles, <- Hdirs, <- Hinfs. by repeat split.
Qed.

Lemma successful_generation_stores_the_image_witness :
  ∃ (hd : pipeline) (dev : device) (pic : image),
    infer env_cpu (pipeline_call hd (Some "a red cube") 512 512 4 0%float 42 dev)
      (tick (boot env_cpu NoFile)) = Ok pic
    ∧ "512x512:42" = png_base64 env_cpu pic
    ∧ inferences warm_state
      = inferences (boot env_cpu NoFile)
          ++ [pipeline_call hd (Some "a red cube") 512 512 4 0%float 42 dev]
    ∧ files warm_state
      = <["output/" +:+ now env_cpu (S (tick (boot env_cpu NoFile))) +:+ "_"
          +:+ substring 0 8 (uuid4 env_cpu (S (tick (boot env_cpu NoFile))))
          +:+ ".png" := pic]> (files (boot env_cpu NoFile))
    ∧ dirs warm_state = {["output"]} ∪ dirs (boot env_cpu NoFile)
    ∧ last (stdout warm_state)
      = Some (ImageSavedTo
                ("output/" +:+ now env_cpu (S (tick (boot env_cpu NoFile)))
                 +:+ "_"
                 +:+ substring 0 8 (uuid4 env_cpu (S (tick (boot env_cpu NoFile))))
                 +:+ ".png")).
Proof.
  apply (successful_generation_stores_the_image env_cpu (Some "a red cube")
           512 512 4 0%float 42 (boot env_cpu NoFile) warm_state "512x512:42").
  vm_compute. reflexivity.
Defined.

(** X19: no generation, over either front-end and whether it returns or
    raises, writes [config.json], removes a configuration key, changes the
    configuration otherwise than by setting gpu_device to 0, drops an
    installed handle, or removes a directory or an output file. *)
Theorem generation_leaves_settings_alone (e : env) (p : option string)
    (h w s : Z) (gs : float) (sd : Z) (req : GenerateRequest) (name : string)
    (a : tool_arguments) :
  (preserves config_file (generate_image_core e p h w s gs sd)
   ∧ maintains keeps_keys (generate_image_core e p h w s gs sd)
   ∧ maintains config_drift (generate_image_core e p h w s gs sd)
   ∧ maintains handle_kept (generate_image_core e p h w s gs sd)
   ∧ maintains storage_grows (generate_image_core e p h w s gs sd))
  ∧ (preserves config_file (generate_image e req)
     ∧ maintains keeps_keys (generate_image e req)
     ∧ maintains config_drift (generate_image e req)
     ∧ maintains handle_kept (generate_image e req)
     ∧ maintains storage_grows (generate_image e req))
  ∧ (preserves config_file (call_tool e name a)
     ∧ maintains keeps_keys (call_tool e name a)
     ∧ maintains config_drift (call_tool e name a)
     ∧ maintains handle_kept (call_tool e name a)
     ∧ maintains storage_grows (call_tool e name a)).
Proof. split_and!; frame. Qed.

(** ** Invariants of the running process *)

(** A load leaves the state as it was, up to one printed line. *)
Lemma load_config_state (e : env) (st : state) :
  snd (load_config e st) = st
  ∨ ∃ x, snd (load_config e st)
         = set_stdout (stdout st ++ [ErrorLoadingConfig x]) st.
Proof.
  unfold load_config, config_file_exists, json_load, try_except, print,
    mbind, M_bind, call, mret, M_ret.
  destruct (config_file st) eqn:Hf, (open_read e); simpl; rewrite ?Hf; simpl;
    eauto.
Qed.

Lemma boot_state (e : env) (f : disk_file) :
  ∃ d, model_config (boot e f) = backfill d
       ∧ pipe (boot e f) = None
       ∧ loads (boot e f) = []
       ∧ inferences (boot e f) = []
       ∧ acquisitions (boot e f) = 0%nat.
Proof.
  destruct (load_config_total e (blank f)) as [cfg Hcfg].
  pose proof (load_config_state e (blank f)) as Hs.
  destruct (load_config e (blank f)) as [r s1] eqn:Hload.
  simpl in Hcfg, Hs. subst r. exists cfg.
  unfold boot, module_init. rewrite (bind_Ok _ _ _ _ _ Hload).
  unfold backfill, config_lacks, config_assign, assign_pipe, modify, when,
    mbind, M_bind, mret, M_ret. simpl.
  destruct Hs as [->|[x ->]];
    repeat (case_bool_decide; unfold_setters); done.
Qed.

Lemma backfill_has_keys (d : gmap string pyval) :
  is_Some (backfill d !! "cpu_offload")
  ∧ is_Some (backfill d !! "fp8_quantization").
Proof.
  destruct (backfill_lookup d) as (H1 & H2 & _). rewrite H1, H2. eauto.
Qed.

Lemma generate_image_core_inferences_le (e : env) (p : option string)
    (h w s : Z) (gs : float) (sd : Z) (st : state) :
  (length (inferences (snd (generate_image_core e p h w s gs sd st)))
     ≤ S (length (inferences st)))%nat.
Proof.
  remember (inferences (snd (generate_image_core e p h w s gs sd st)))
    as L eqn:HL.
  destruct (decide (h mod 16 = 0)) as [Hh|Hh];
    [| rewrite generate_image_core_invalid in HL by (by left); subst L;
       simpl; lia].
  destruct (decide (w mod 16 = 0)) as [Hw|Hw];
    [| rewrite generate_image_core_invalid in HL by (by right); subst L;
       simpl; lia].
  rewrite generate_image_core_valid in HL by done.
  unfold mbind at 1, M_bind at 1 in HL.
  pose proof (preserves_run inferences (get_pipeline e) st ltac:(frame)) as Hi.
  destruct (get_pipeline e st) as [[hd|x] sa]; simpl in Hi;
    [| subst L; simpl; rewrite Hi; lia].
  rewrite <- Hi. clear Hi.
  unfold mbind at 1, M_bind at 1 in HL. rewrite current_device_run in HL.
  destruct (resolve_device e (model_config sa)) as [dev|x];
    [| subst L; simpl; lia].
  unfold mbind at 1, M_bind at 1 in HL.
  pose proof (preserves_run inferences (seeded_generator e dev sd) sa
                ltac:(frame)) as Hg.
  destruct (seeded_generator e dev sd sa) as [[gen|x] sg]; simpl in Hg;
    [| subst L; simpl; rewrite Hg; lia].
  rewrite <- Hg. clear Hg.
  unfold print at 1 in HL. rewrite (bind_Ok _ _ _ _ tt) in HL by reflexivity.
  destruct hd as [hd|]; [| subst L; simpl; lia].
  rewrite bind_preserved in HL by frame.
  unfold call_pipeline, modify, at_tick, mbind, M_bind in HL. simpl in HL.
  subst L. rewrite length_app. simpl. lia.
Qed.

Lemma generate_image_core_counted (e : env) (p : option string) (h w s : Z)
    (gs : float) (sd : Z) (st : state) :
  counted st (snd (generate_image_core e p h w s gs sd st)).
Proof.
  unfold counted.
  pose proof (generate_image_core_inferences_le e p h w s gs sd st) as Hi.
  destruct (decide (h mod 16 = 0)) as [Hh|Hh];
    [| rewrite generate_image_core_invalid by (by left); simpl; lia].
  destruct (decide (w mod 16 = 0)) as [Hw|Hw];
    [| rewrite generate_image_core_invalid by (by right); simpl; lia].
  rewrite (generate_image_core_valid_counts e p h w s gs sd st Hh Hw).
  split; [| lia].
  rewrite generate_image_core_valid by done.
  rewrite bind_preserved by frame.
  destruct (get_pipeline_loads_le e st) as [->|[c ->]];
    [| rewrite length_app; simpl]; lia.
Qed.

Lemma run_api_counted (e : env) (c : api_call) (st : state) :
  counted st (run_api e c st).
Proof.
  destruct c as [| |req|req|name a]; simpl.
  - unfold counted. simpl. lia.
  - unfold counted, get_system_info.
    destruct (cuda_is_available e); simpl; lia.
  - unfold counted.
    rewrite (preserves_run loads (set_model_path e req) st ltac:(frame)).
    rewrite (preserves_run inferences (set_model_path e req) st ltac:(frame)).
    rewrite (preserves_run acquisitions (set_model_path e req) st ltac:(frame)).
    lia.
  - pose proof (generate_image_core_counted e (Some (prompt req)) (height req)
                  (width req) (steps req) (guidance_scale req) (seed req) st)
      as Hc.
    unfold counted in *. unfold generate_image.
    rewrite !try_except_preserved by frame.
    by rewrite !bind_preserved by frame.
  - unfold call_tool.
    destruct (String.eqb name "generate-image");
      [| unfold counted; simpl; lia].
    cbv zeta.
    match goal with
    | |- context [generate_image_core e ?p ?h ?w ?s ?gs ?sd] =>
        pose proof (generate_image_core_counted e p h w s gs sd st) as Hc
    end.
    unfold counted in *.
    rewrite !try_except_preserved by frame.
    by rewrite !bind_preserved by frame.
Qed.

Lemma run_api_keeps_keys (e : env) (c : api_call) (st : state) :
  keeps_keys st (run_api e c st).
Proof.
  destruct c as [| |req|req|name a]; simpl.
  - by intros k.
  - unfold get_system_info. destruct (cuda_is_available e); by intros k.
  - apply (ltac:(frame) : maintains keeps_keys (set_model_path e req)).
  - apply (ltac:(frame) : maintains keeps_keys (generate_image e req)).
  - apply (ltac:(frame) : maintains keeps_keys (call_tool e name a)).
Qed.

(** X20: in every state a process can reach when it is started on a
    [config.json] that is missing, unreadable, unparsable or holds a JSON
    object, through any sequence of requests on machines that may change
    between requests, the configuration has the keys cpu_offload and
    fp8_quantization (the settings read always reports them and the
    fall-backs of [.get] for them are never used), and [from_pretrained] and
    the pipeline have each been called at most as often as [get_pipeline]. *)
Theorem reachable_states_satisfy_the_invariant (f : disk_file) (st : state) :
  reachable f st → process_invariant st.
Proof.
  induction 1 as [e|e c st Hreach IH].
  - destruct (boot_state e f) as (d & Hcfg & _ & Hl & Hi & Ha).
    unfold process_invariant. rewrite Hcfg, Hl, Hi, Ha.
    destruct (backfill_has_keys d) as [H1 H2]. by repeat split.
  - destruct IH as (H1 & H2 & H3 & H4).
    pose proof (run_api_keeps_keys e c st) as Hk.
    destruct (run_api_counted e c st) as [Hc1 Hc2].
    unfold process_invariant.
    split; [by apply Hk |]. split; [by apply Hk |]. lia.
Qed.

Lemma reachable_states_witness :
  process_invariant
    (run_api env_cpu
       (CallTool "generate-image"
          {| arg_prompt := Some "a red cube"; arg_height := Some 512;
             arg_width := Some 512; arg_steps := Some 4;
             arg_guidance_scale := Some 0%float; arg_seed := Some 42 |})
       (boot env_cpu NoFile)).
Proof.
  apply (reachable_states_satisfy_the_invariant NoFile).
  apply reachable_step.
  apply reachable_boot.
Defined.

(** ** Settings and the next construction *)

(** X21: the settings submitted by a successful update are the ones the
    next construction uses: the pipeline is loaded with the submitted cache
    directory and the model_id that was configured, its transformer is
    quantized and frozen exactly when fp8_quantization was submitted true
    and optimum-quanto is available, and with CUDA it goes to the submitted
    GPU (to GPU 0 when that index is out of range), offloaded when
    cpu_offload was submitted true and moved there otherwise; without CUDA
    it is placed on the CPU. *)
Theorem settings_take_effect (e e2 : env) (req : SettingsRequest)
    (st st1 st2 : state) (a : json_object) (hd : pipeline) :
  set_model_path e req st = (Ok a, st1) →
  get_pipeline e2 st1 = (Ok (Some hd), st2) →
  p_cache_dir hd = VStr (cache_dir req)
  ∧ Some (p_model_id hd) = model_config st !! "model_id"
  ∧ transformer hd
    = {| quantized := fp8_quantization req && quantize_available e2;
         frozen := fp8_quantization req && quantize_available e2 |}
  ∧ p_placement hd
    = (if cuda_is_available e2 then
         let g := if (gpu_device req <? 0)
                     || (gpu_device req >=? cuda_device_count e2)
                  then 0 else gpu_device req in
         if cpu_offload req then Offloaded (VInt g) else Placed (Cuda (VInt g))
       else Placed Cpu).
Proof.
  intros Hupd Hget.
  pose proof (set_model_path_success_ready e req st st1 a Hupd) as Hready.
  destruct (set_model_path_run e req st Hready)
    as (st0 & Hcfg0 & _ & _ & _ & _ & Hrun).
  rewrite Hrun in Hupd. injection Hupd as _ <-.
  assert (Hcfg : model_config
            (snd (save_config e (updated_config req (model_config st)) st0))
            = updated_config req (model_config st)).
  { by rewrite (preserves_run _ _ _ (save_config_preserves_model_config e _)). }
  destruct (get_pipeline_built e2 _ st2 _
              (eq_refl : pipe (set_pipe None _) = None) Hget)
    as (_ & mid & cd & gpu & dev & te & v & Hm & Hc & Hch & _ & [= ->] & _).
  cbn [model_config set_pipe] in Hm, Hc, Hch |- *.
  rewrite Hcfg in Hm, Hc, Hch |- *.
  destruct (updated_config_lookup req (model_config st))
    as (Hcd & Hoff & Hgpu & Hfp8 & Hother).
  rewrite Hcd in Hc. injection Hc as <-.
  rewrite Hother in Hm by done.
  unfold built_pipeline, quantizes, offloads. rewrite Hfp8, Hoff. simpl.
  split; [by destruct (fp8_quantization req && quantize_available e2) |].
  split; [by destruct (fp8_quantization req && quantize_available e2) |].
  split.
  { unfold quantize_all, fresh_pipeline, loaded_submodule.
    by destruct (fp8_quantization req && quantize_available e2). }
  revert Hch. unfold chosen_device. rewrite Hgpu. simpl.
  unfold py_out_of_range, py_lt, py_ge. simpl.
  destruct (cuda_is_available e2).
  - destruct (gpu_device req <? 0); simpl.
    + intros [= <- <-]. simpl. by rewrite andb_true_r.
    + destruct (gpu_device req >=? cuda_device_count e2);
        intros [= <- <-]; simpl; by rewrite andb_true_r.
  - intros [= <- <-]. simpl. by rewrite andb_false_r.
Qed.

Lemma settings_take_effect_witness :
  p_cache_dir models_handle = VStr (cache_dir cache_settings)
  ∧ Some (p_model_id models_handle)
    = model_config (boot env_cpu NoFile) !! "model_id"
  ∧ transformer models_handle
    = {| quantized := fp8_quantization cache_settings
                      && quantize_available env_two_gpus;
         frozen := fp8_quantization cache_settings
                   && quantize_available env_two_gpus |}
  ∧ p_placement models_handle
    = (if cuda_is_available env_two_gpus then
         let g := if (gpu_device cache_settings <? 0)
                     || (gpu_device cache_settings
                           >=? cuda_device_count env_two_gpus)
                  then 0 else gpu_device cache_settings in
         if cpu_offload cache_settings then Offloaded (VInt g)
         else Placed (Cuda (VInt g))
       else Placed Cpu).
Proof.
  apply (settings_take_effect env_cpu env_two_gpus cache_settings
           (boot env_cpu NoFile)
           (snd (set_model_path env_cpu cache_settings (boot env_cpu NoFile)))
           (snd (get_pipeline env_two_gpus
                   (snd (set_model_path env_cpu cache_settings
                           (boot env_cpu NoFile)))))
           settings_saved models_handle).
  - vm_compute. reflexivity.
  - vm_compute. reflexivity.
Defined.

(** ** Starting the process *)

(** X22: starting the process builds nothing and writes nothing: on a
    [config.json] that is missing, unreadable, unparsable or holds a JSON
    object, after the module body has run no handle is installed,
    [from_pretrained] and [get_pipeline] have not been called, and the file
    is as it was, so the keys filled in at start are in memory only. *)
Theorem startup_is_lazy_and_read_only (e : env) (f : disk_file) :
  pipe (boot e f) = None
  ∧ loads (boot e f) = []
  ∧ acquisitions (boot e f) = 0%nat
  ∧ inferences (boot e f) = []
  ∧ config_file (boot e f) = f
  ∧ files (boot e f) = ∅
  ∧ dirs (boot e f) = ∅.
Proof.
  destruct (load_config_total e (blank f)) as [cfg Hcfg].
  pose proof (load_config_state e (blank f)) as Hs.
  destruct (load_config e (blank f)) as [r s1] eqn:Hload.
  simpl in Hcfg, Hs. subst r.
  unfold boot, module_init. rewrite (bind_Ok _ _ _ _ _ Hload).
  unfold config_lacks, config_assign, assign_pipe, modify, when,
    mbind, M_bind, mret, M_ret. simpl.
  destruct Hs as [->|[x ->]];
    repeat (case_bool_decide; unfold_setters); done.
Qed.

(** * Determinism of seeded generation *)









(** Without a seed the sample engine draws from the moment of the call, and
    two runs in a row return different payloads. *)
Lemma unseeded_runs_may_differ :
  fst (generate_image_core env_cpu (Some "a red cube") 512 512 4 0%float (-1)
         (boot env_cpu NoFile)) = Ok "512x512:0"
  ∧ fst (generate_image_core env_cpu (Some "a red cube") 512 512 4 0%float (-1)
           (snd (generate_image_core env_cpu (Some "a red cube") 512 512 4
                   0%float (-1) (boot env_cpu NoFile)))) = Ok "512x512:2".
Proof. by vm_compute. Qed.
